(** * Reconciliation contract of the azuread provider

    A shallow embedding of the create/read/update/delete functions of the
    application, application password, user, domains and access package
    resource request resources, together with the properties of the
    reconciliation contract they are expected to satisfy.

    Go values are embedded as follows: a pointer is an [option] ([None] is
    nil), a [diag.Diagnostics] is a list (nil is success), the attribute bag
    of a [schema.ResourceData] is a [gmap] from attribute names to dynamic
    values, and the directory service is an explicit world state threaded
    through every client call.  Every client call, lock operation and
    identity write is appended to a trace, so that ordering properties can be
    stated on it.  A nil dereference or a failed type assertion is the
    outcome [Panic]. *)

From Stdlib Require Import String Ascii List ZArith Lia Bool.
From stdpp Require Import base option gmap strings list.
Import ListNotations.

Set Warnings "-register-all".
Local Open Scope string_scope.
Local Open Scope list_scope.
Local Open Scope Z_scope.

(** ** Dynamic values and resource data *)

(** [interface{}] values stored in a resource's attribute bag. *)
Inductive Value : Type :=
| VNil
| VString (s : string)
| VBool (b : bool)
| VInt (z : Z)
| VList (l : list Value)
| VMap (m : list (string * Value)).

(** [reflect.DeepEqual] on attribute values. *)
Fixpoint Value_eqb (a b : Value) {struct a} : bool :=
  match a, b with
  | VNil, VNil => true
  | VString s, VString t => String.eqb s t
  | VBool x, VBool y => Bool.eqb x y
  | VInt x, VInt y => Z.eqb x y
  | VList l, VList l' =>
      (fix go (l l' : list Value) {struct l} : bool :=
         match l, l' with
         | [], [] => true
         | x :: xs, y :: ys => Value_eqb x y && go xs ys
         | _, _ => false
         end) l l'
  | VMap m, VMap m' =>
      (fix go (m m' : list (string * Value)) {struct m} : bool :=
         match m, m' with
         | [], [] => true
         | (k, x) :: xs, (k', y) :: ys =>
             String.eqb k k' && Value_eqb x y && go xs ys
         | _, _ => false
         end) m m'
  | _, _ => false
  end.

Definition optValue_eqb (a b : option Value) : bool :=
  match a, b with
  | Some x, Some y => Value_eqb x y
  | None, None => true
  | _, _ => false
  end.

(** [schema.ResourceData]: the stored identity, the attributes of the prior
    state, and the attributes as [Get] sees them (the planned values,
    overwritten by [Set]). *)
Record ResourceData : Type := mkResourceData {
  rd_id : string;
  rd_state : gmap string Value;
  rd_attrs : gmap string Value
}.

Definition rd_SetId (id : string) (d : ResourceData) : ResourceData :=
  {| rd_id := id; rd_state := rd_state d; rd_attrs := rd_attrs d |}.

Definition rd_Set (k : string) (v : Value) (d : ResourceData) : ResourceData :=
  {| rd_id := rd_id d; rd_state := rd_state d; rd_attrs := <[k := v]> (rd_attrs d) |}.

Arguments rd_SetId : simpl never.
Arguments rd_Set : simpl never.

(** [d.Get(k).(string)]: an unset attribute reads as the zero value. *)
Definition rd_GetString (d : ResourceData) (k : string) : string :=
  match rd_attrs d !! k with
  | Some (VString s) => s
  | _ => ""
  end.

(** [d.Get(k).(bool)] *)
Definition rd_GetBool (d : ResourceData) (k : string) : bool :=
  match rd_attrs d !! k with
  | Some (VBool b) => b
  | _ => false
  end.

(** [d.Get(k)] for list and set attributes, kept as a dynamic value. *)
Definition rd_Get (d : ResourceData) (k : string) : Value :=
  match rd_attrs d !! k with
  | Some v => v
  | None => VList []
  end.

(** [d.Get(k).([]interface{})] read as a list of strings. *)
Definition rd_GetStrings (d : ResourceData) (k : string) : list string :=
  match rd_attrs d !! k with
  | Some (VList l) =>
      omap (fun v => match v with VString s => Some s | _ => None end) l
  | _ => []
  end.

Arguments rd_GetString : simpl never.
Arguments rd_GetBool : simpl never.
Arguments rd_Get : simpl never.

(** [d.HasChange(k)]: the planned value differs from the prior state. *)
Definition rd_HasChange (d : ResourceData) (k : string) : bool :=
  negb (optValue_eqb (rd_state d !! k) (rd_attrs d !! k)).

(** Nested reads such as ["web.#"] or ["api.0.oauth2_permission_scope"]. *)
Inductive PathStep : Type :=
| Attr (k : string)
| Idx (n : nat)
| Count.

Fixpoint assoc_find (k : string) (m : list (string * Value)) : option Value :=
  match m with
  | [] => None
  | (k', v) :: rest => if String.eqb k k' then Some v else assoc_find k rest
  end.

Fixpoint value_path (p : list PathStep) (v : Value) : Value :=
  match p with
  | [] => v
  | Attr k :: rest =>
      match v with
      | VMap m => match assoc_find k m with
                  | Some x => value_path rest x
                  | None => VNil
                  end
      | _ => VNil
      end
  | Idx n :: rest =>
      match v with
      | VList l => match nth_error l n with
                   | Some x => value_path rest x
                   | None => VNil
                   end
      | _ => VNil
      end
  | Count :: _ =>
      match v with
      | VList l => VInt (Z.of_nat (length l))
      | _ => VInt 0
      end
  end.

Definition rd_GetPath (d : ResourceData) (k : string) (p : list PathStep) : Value :=
  value_path p (rd_Get d k).

Definition value_int (v : Value) : Z :=
  match v with VInt z => z | _ => 0 end.

(** ** Errors and diagnostics *)

(** A Go [error], identified by its message. *)
Definition error : Type := string.

Definition StatusNotFound : Z := 404.

(** The diagnostics built by the [tf] helpers: the wrapped error (possibly
    nil), the attribute path, and the format string with its arguments. *)
Inductive Diagnostic : Type :=
| ErrorDiagF (err : option error) (summary : string) (args : list Value)
| ErrorDiagPathF (err : option error) (attr : string) (summary : string)
    (args : list Value)
| ImportAsDuplicateDiag (resourceName id name : string).

(** [diag.Diagnostics]; the empty list is Go's nil, meaning success. *)
Definition Diagnostics : Type := list Diagnostic.

Definition HasError (ds : Diagnostics) : bool :=
  match ds with [] => false | _ => true end.

Definition isDuplicateDiag (ds : Diagnostics) (id : string) : bool :=
  match ds with
  | [ImportAsDuplicateDiag _ id' _] => String.eqb id id'
  | _ => false
  end.

(** ** Remote records

    The record types of the directory service client library, with the
    fields this provider reads or writes.  A date-time is kept as its
    RFC 3339 rendering. *)

Record UserPasswordProfile : Type := mkUserPasswordProfile {
  ForceChangePasswordNextSignIn : option bool;
  Password : option string
}.

Record User : Type := mkUser {
  User_ID : option string;
  User_AccountEnabled : option bool;
  User_City : option string;
  User_CompanyName : option string;
  User_Country : option string;
  User_Department : option string;
  User_DisplayName : option string;
  User_GivenName : option string;
  User_JobTitle : option string;
  User_Mail : option string;
  User_MailNickname : option string;
  User_MobilePhone : option string;
  User_OfficeLocation : option string;
  User_OnPremisesImmutableId : option string;
  User_OnPremisesSamAccountName : option string;
  User_OnPremisesUserPrincipalName : option string;
  User_PostalCode : option string;
  User_State : option string;
  User_StreetAddress : option string;
  User_Surname : option string;
  User_UsageLocation : option string;
  User_UserPrincipalName : option string;
  User_UserType : option string;
  User_PasswordProfile : option UserPasswordProfile
}.

Record AppRole : Type := mkAppRole {
  AppRole_ID : option string;
  AppRole_AllowedMemberTypes : option (list string);
  AppRole_Description : option string;
  AppRole_DisplayName : option string;
  AppRole_IsEnabled : option bool;
  AppRole_Value : option string
}.

Record PermissionScope : Type := mkPermissionScope {
  Scope_ID : option string;
  Scope_AdminConsentDescription : option string;
  Scope_AdminConsentDisplayName : option string;
  Scope_IsEnabled : option bool;
  Scope_Type : string;
  Scope_UserConsentDescription : option string;
  Scope_UserConsentDisplayName : option string;
  Scope_Value : option string
}.

Record ApplicationApi : Type := mkApplicationApi {
  Api_OAuth2PermissionScopes : option (list PermissionScope)
}.

Record PasswordCredential : Type := mkPasswordCredential {
  Cred_DisplayName : option string;
  Cred_StartDateTime : option string;
  Cred_EndDateTime : option string;
  Cred_KeyId : option string;
  Cred_SecretText : option string
}.

Record Application : Type := mkApplication {
  App_ID : option string;
  App_AppId : option string;
  App_Api : option ApplicationApi;
  App_AppRoles : option (list AppRole);
  App_DisplayName : option string;
  App_IsFallbackPublicClient : option bool;
  App_GroupMembershipClaims : option (list string);
  App_IdentifierUris : option (list string);
  App_OptionalClaims : option Value;
  App_RequiredResourceAccess : option Value;
  App_SignInAudience : string;
  App_Web : option Value;
  App_PasswordCredentials : option (list PasswordCredential)
}.

Record Domain : Type := mkDomain {
  Domain_ID : option string;
  Domain_AuthenticationType : option string;
  Domain_IsAdminManaged : option bool;
  Domain_IsDefault : option bool;
  Domain_IsInitial : option bool;
  Domain_IsRoot : option bool;
  Domain_IsVerified : option bool;
  Domain_SupportedServices : option (list string)
}.

Record AccessPackageResourceRequest : Type := mkAccessPackageResourceRequest {
  APRR_CatalogId : option string;
  APRR_ExpirationDateTime : option string;
  APRR_ID : option string;
  APRR_IsValidationOnly : option bool;
  APRR_Justification : option string;
  APRR_RequestState : option string;
  APRR_RequestStatus : option string;
  APRR_RequestType : option string
}.

(** [utils.String], [utils.Bool] and [utils.NullableString] are defined in
    the [utils] package, outside the files modelled here.  They fill
    pointer-typed fields from plain values: they take the address of their
    argument, so the field they fill is never nil.  An empty nullable string
    is sent as an explicit null, which is still a field of the payload. *)
Definition utils_String (s : string) : option string := Some s.
Definition utils_Bool (b : bool) : option bool := Some b.
Definition utils_NullableString (s : string) : option string := Some s.

(** What [tf.Set] stores for a pointer. *)
Definition ptrString (p : option string) : Value :=
  match p with Some s => VString s | None => VNil end.
Definition ptrBool (p : option bool) : Value :=
  match p with Some b => VBool b | None => VNil end.
Definition ptrStrings (p : option (list string)) : Value :=
  match p with Some l => VList (map VString l) | None => VNil end.

(** ** Traces *)

(** A call of a Directory Client primitive, with its arguments. *)
Inductive Call : Type :=
| ApplicationsGet (id : string)
| ApplicationsList (filter : string)
| ApplicationsCreate (a : Application)
| ApplicationsUpdate (a : Application)
| ApplicationsDelete (id : string)
| ApplicationsListOwners (id : string)
| ApplicationsAddOwners (id : string) (owners : list string)
| ApplicationsRemoveOwners (id : string) (owners : list string)
| ApplicationsAddPassword (id : string) (c : PasswordCredential)
| ApplicationsRemovePassword (id : string) (keyId : string)
| UsersGet (id : string)
| UsersCreate (u : User)
| UsersUpdate (u : User)
| UsersDelete (id : string)
| DomainsList
| AccessPackageResourceRequestGet (id : string)
| AccessPackageResourceRequestDelete (r : AccessPackageResourceRequest).

Inductive Event : Type :=
| ECall (c : Call)
| ELock (resourceName key : string)
| EUnlock (resourceName key : string)
| ESetId (id : string).

(** ** Programs

    A Go function body is a state transformer that either returns or
    panics; the state survives a panic, so that deferred calls can run. *)

Inductive Res (A : Type) : Type :=
| Ret (a : A)
| Panic.
Arguments Ret {A} a.
Arguments Panic {A}.

Definition Prog (S A : Type) : Type := S -> Res A * S.

Definition ret {S A : Type} (a : A) : Prog S A := fun s => (Ret a, s).

Definition bind {S A B : Type} (c : Prog S A) (k : A -> Prog S B) : Prog S B :=
  fun s =>
    match c s with
    | (Ret a, s') => k a s'
    | (Panic, s') => (Panic, s')
    end.

Definition panic {S A : Type} : Prog S A := fun s => (Panic, s).

Notation "'do' x <- c ; k" := (bind c (fun x => k))
  (at level 10, x name, c at level 100, k at level 200).
Notation "'do' ' p <- c ; k" := (bind c (fun x => match x with p => k end))
  (at level 10, p pattern, c at level 100, k at level 200).

(** [*p]: dereferencing nil panics. *)
Definition deref {S A : Type} (p : option A) : Prog S A :=
  match p with
  | Some a => ret a
  | None => panic
  end.

(** [defer cleanup] followed by [body]: the cleanup runs when the body
    returns and when it panics, and the body's outcome is kept. *)
Definition defer {S A : Type} (cleanup : Prog S unit) (body : Prog S A) : Prog S A :=
  fun s =>
    match body s with
    | (r, s') =>
        match cleanup s' with
        | (_, s'') => (r, s'')
        end
    end.

(** The directory service and the trace of what was done to it. *)
Record Remote (W : Type) : Type := mkRemote {
  world : W;
  trace : list Event
}.
Arguments mkRemote {W} _ _.
Arguments world {W} _.
Arguments trace {W} _.

(** The state of a resource function: its [*schema.ResourceData] and the
    remote side. *)
Record St (W : Type) : Type := mkSt {
  st_d : ResourceData;
  st_remote : Remote W
}.
Arguments mkSt {W} _ _.
Arguments st_d {W} _.
Arguments st_remote {W} _.

Definition emit {W : Type} (e : Event) : Prog (Remote W) unit :=
  fun r =>
    match r with
    | mkRemote w tr => (Ret tt, mkRemote w (tr ++ [e]))
    end.

(** A client primitive: it is recorded, then answered by the service. *)
Definition call {W A : Type} (c : Call) (f : W -> A * W) : Prog (Remote W) A :=
  fun r =>
    match r with
    | mkRemote w tr =>
        match f w with
        | (a, w') => (Ret a, mkRemote w' (tr ++ [ECall c]))
        end
    end.

(** The remote side after one client call. *)
Definition after {W : Type} (r : Remote W) (c : Call) (w' : W) : Remote W :=
  mkRemote w' (trace r ++ [ECall c]).

(** A helper function of a package, of which only the signature is known:
    given the client, it changes the directory, adds its own events to the
    trace, and returns or panics. *)
Definition Helper (W A : Type) : Type := W -> Res A * W * list Event.

Definition runHelper {W A : Type} (h : Helper W A) : Prog (Remote W) A :=
  fun r =>
    match r with
    | mkRemote w tr =>
        match h w with
        | (a, w', evs) => (a, mkRemote w' (tr ++ evs))
        end
    end.

(** A program on the remote side, packaged as a helper. *)
Definition asHelper {W A : Type} (p : Prog (Remote W) A) : Helper W A :=
  fun w =>
    match p (mkRemote w []) with
    | (a, mkRemote w' evs) => (a, w', evs)
    end.

(** A helper that only receives the client runs on the remote side and
    leaves the resource data alone. *)
Definition lift {W A : Type} (c : Prog (Remote W) A) : Prog (St W) A :=
  fun s =>
    match s with
    | mkSt d rem =>
        match c rem with
        | (r, rem') => (r, mkSt d rem')
        end
    end.

Definition getD {W : Type} : Prog (St W) ResourceData :=
  fun s =>
    match s with
    | mkSt d _ => (Ret d, s)
    end.

Definition modifyD {W : Type} (f : ResourceData -> ResourceData) : Prog (St W) unit :=
  fun s =>
    match s with
    | mkSt d rem => (Ret tt, mkSt (f d) rem)
    end.

(** [d.SetId(id)]; the write is recorded in the trace. *)
Definition SetId {W : Type} (id : string) : Prog (St W) unit :=
  do _ <- modifyD (rd_SetId id);
  lift (emit (ESetId id)).

(** [tf.Set(d, k, v)] *)
Definition tf_Set {W : Type} (k : string) (v : Value) : Prog (St W) unit :=
  modifyD (rd_Set k v).

(** Modelled from the spec: [tf.LockByName], which lives in the [tf] package,
    outside the files modelled here.  The Name Lock is a process-wide
    registry of named mutexes keyed by resource type and parent identifier;
    acquiring a key is recorded in the trace. *)
Definition LockByName {W : Type} (resourceName key : string) : Prog (St W) unit :=
  lift (emit (ELock resourceName key)).

(** Modelled from the spec: [tf.UnlockByName], the release of a key of the
    Name Lock, recorded in the trace. *)
Definition UnlockByName {W : Type} (resourceName key : string) : Prog (St W) unit :=
  lift (emit (EUnlock resourceName key)).

(** ** Strings *)

(** [strings.Split(s, sep)] for a one-byte separator. *)
Fixpoint strings_Split (sep : ascii) (s : string) : list string :=
  match s with
  | EmptyString => [EmptyString]
  | String c rest =>
      if Ascii.eqb c sep then EmptyString :: strings_Split sep rest
      else match strings_Split sep rest with
           | p :: ps => String c p :: ps
           | [] => [String c EmptyString]
           end
  end.

(** [strings.Join(l, sep)] *)
Fixpoint strings_Join (l : list string) (sep : string) : string :=
  match l with
  | [] => ""
  | [x] => x
  | x :: rest => x +:+ sep +:+ strings_Join rest sep
  end.

(** ** The Directory Client

    Each primitive answers with the usual triple of result, HTTP status and
    error, and may change the directory. *)

Record ApplicationsClient (W : Type) : Type := mkApplicationsClient {
  Applications_Get : string -> W -> (option Application * Z * option error) * W;
  Applications_List : string -> W -> (option (list Application) * Z * option error) * W;
  Applications_Create : Application -> W -> (option Application * Z * option error) * W;
  Applications_Update : Application -> W -> (Z * option error) * W;
  Applications_Delete : string -> W -> (Z * option error) * W;
  Applications_ListOwners : string -> W -> (option (list string) * Z * option error) * W;
  Applications_AddOwners : string -> list string -> W -> (Z * option error) * W;
  Applications_RemoveOwners : string -> list string -> W -> (Z * option error) * W;
  Applications_AddPassword :
    string -> PasswordCredential -> W -> (option PasswordCredential * Z * option error) * W;
  Applications_RemovePassword : string -> string -> W -> (Z * option error) * W
}.
Arguments Applications_Get {W} _ _ _.
Arguments Applications_List {W} _ _ _.
Arguments Applications_Create {W} _ _ _.
Arguments Applications_Update {W} _ _ _.
Arguments Applications_Delete {W} _ _ _.
Arguments Applications_ListOwners {W} _ _ _.
Arguments Applications_AddOwners {W} _ _ _ _.
Arguments Applications_RemoveOwners {W} _ _ _ _.
Arguments Applications_AddPassword {W} _ _ _ _.
Arguments Applications_RemovePassword {W} _ _ _ _.

Record UsersClient (W : Type) : Type := mkUsersClient {
  Users_Get : string -> W -> (option User * Z * option error) * W;
  Users_Update : User -> W -> (Z * option error) * W;
  Users_Delete : string -> W -> (Z * option error) * W
}.
Arguments Users_Get {W} _ _ _.
Arguments Users_Update {W} _ _ _.
Arguments Users_Delete {W} _ _ _.

Record DomainsClient (W : Type) : Type := mkDomainsClient {
  Domains_TenantId : string;
  Domains_List : W -> (option (list Domain) * Z * option error) * W
}.
Arguments Domains_TenantId {W} _.
Arguments Domains_List {W} _ _.

Record AccessPackageResourceRequestClient (W : Type) : Type :=
  mkAccessPackageResourceRequestClient {
  APRR_Get : string -> W -> (option AccessPackageResourceRequest * Z * option error) * W;
  APRR_Delete : AccessPackageResourceRequest -> W -> (Z * option error) * W
}.
Arguments APRR_Get {W} _ _ _.
Arguments APRR_Delete {W} _ _ _.

(** ** Domains data source *)

Module Domains.
Section DataSource.
Context {W : Type}.
Variable client : DomainsClient W.
(** The base64 rendering of the SHA-1 digest of a string. *)
Variable sha1_base64 : string -> string.

(** The filter attributes read from the configuration. *)
Record Filters : Type := mkFilters {
  adminManaged : bool;
  onlyDefault : bool;
  onlyInitial : bool;
  onlyRoot : bool;
  includeUnverified : bool;
  supportsServices : list string
}.

(** [p != nil && !*p] *)
Definition presentAndFalse (p : option bool) : bool :=
  match p with
  | Some b => negb b
  | None => false
  end.

(** The inner loop over [*v.SupportedServices], left at the first match. *)
Fixpoint serviceFound (serviceNeeded : string) (services : list string) : bool :=
  match services with
  | [] => false
  | serviceSupported :: rest =>
      if String.eqb serviceNeeded serviceSupported then true
      else serviceFound serviceNeeded rest
  end.

(** The outer loop over [supportsServices], counting the services found. *)
Fixpoint countSupported (needed services : list string) : nat :=
  match needed with
  | [] => 0%nat
  | serviceNeeded :: rest =>
      ((if serviceFound serviceNeeded services then 1 else 0)
       + countSupported rest services)%nat
  end.

Definition domainEntry (v : Domain) : Value :=
  VMap [("admin_managed", ptrBool (Domain_IsAdminManaged v));
        ("authentication_type", ptrString (Domain_AuthenticationType v));
        ("default", ptrBool (Domain_IsDefault v));
        ("domain_name", ptrString (Domain_ID v));
        ("initial", ptrBool (Domain_IsInitial v));
        ("root", ptrBool (Domain_IsRoot v));
        ("supported_services", ptrStrings (Domain_SupportedServices v));
        ("verified", ptrBool (Domain_IsVerified v))].

(** The check of the requested services, made only when services were
    requested and the record lists its services. *)
Definition skipServices (f : Filters) (v : Domain) : bool :=
  match supportsServices f, Domain_SupportedServices v with
  | _ :: _, Some services =>
      Nat.ltb (countSupported (supportsServices f) services)
              (length (supportsServices f))
  | _, _ => false
  end.

(** One iteration of the loop over the listed domains; [acc] holds
    [domains] and [domainNames]. *)
Definition domainsStep (f : Filters) (acc : list Value * list string) (v : Domain)
  : list Value * list string :=
  if adminManaged f && presentAndFalse (Domain_IsAdminManaged v) then acc
  else if onlyDefault f && presentAndFalse (Domain_IsDefault v) then acc
  else if onlyInitial f && presentAndFalse (Domain_IsInitial v) then acc
  else if onlyRoot f && presentAndFalse (Domain_IsRoot v) then acc
  else if negb (includeUnverified f) && presentAndFalse (Domain_IsVerified v) then acc
  else if skipServices f v then acc
  else
    match Domain_ID v with
    | Some id => (fst acc ++ [domainEntry v], snd acc ++ [id])
    | None => acc
    end.

Definition domainsLoop (f : Filters) (result : list Domain) : list Value * list string :=
  fold_left (domainsStep f) result ([], []).

Definition readFilters (d : ResourceData) : Filters :=
  {| adminManaged := rd_GetBool d "admin_managed";
     onlyDefault := rd_GetBool d "only_default";
     onlyInitial := rd_GetBool d "only_initial";
     onlyRoot := rd_GetBool d "only_root";
     includeUnverified := rd_GetBool d "include_unverified";
     supportsServices := rd_GetStrings d "supports_services" |}.

(** Writing to the hash never fails, so that branch is left out. *)
Definition domainsDataSourceRead : Prog (St W) Diagnostics :=
  do '(result, _, err) <- lift (call DomainsList (Domains_List client));
  match err with
  | Some e => ret [ErrorDiagF (Some e) "Could not list domains" []]
  | None =>
      do d <- getD;
      let '(domains, domainNames) :=
        match result with
        | Some l => domainsLoop (readFilters d) l
        | None => ([], [])
        end in
      match domains with
      | [] => ret [ErrorDiagF None "No domains found for the provided filters" []]
      | _ :: _ =>
          do _ <- SetId ("domains#" +:+ Domains_TenantId client +:+ "#"
                         +:+ sha1_base64 (strings_Join domainNames "/"));
          do _ <- tf_Set "domains" (VList domains);
          ret []
      end
  end.
End DataSource.

(** The filter contract in the words of its description: a boolean filter
    excludes a record only when the filter is on and the field is present
    and false. *)
Definition excludedBy (filterOn : bool) (field : option bool) : Prop :=
  filterOn = true /\ field = Some false.

Definition passesFilters (f : Filters) (v : Domain) : Prop :=
  ~ excludedBy (adminManaged f) (Domain_IsAdminManaged v) /\
  ~ excludedBy (onlyDefault f) (Domain_IsDefault v) /\
  ~ excludedBy (onlyInitial f) (Domain_IsInitial v) /\
  ~ excludedBy (onlyRoot f) (Domain_IsRoot v) /\
  ~ excludedBy (negb (includeUnverified f)) (Domain_IsVerified v) /\
  skipServices f v = false.

#[global] Instance excludedBy_dec filterOn field : Decision (excludedBy filterOn field).
Proof. unfold excludedBy. apply _. Defined.

#[global] Instance passesFilters_dec f v : Decision (passesFilters f v).
Proof. unfold passesFilters. apply _. Defined.

(** The records that reach the result: they pass every filter and have an
    identifier. *)
Definition listed (f : Filters) (result : list Domain) : list Domain :=
  filter (fun v => passesFilters f v /\ is_Some (Domain_ID v)) result.
End Domains.

(** ** User resource *)

Module Users.
Section Resource.
Context {W : Type}.
Variable client : UsersClient W.

(** [properties.PasswordProfile = p] *)
Definition setPasswordProfile (p : option UserPasswordProfile) (u : User) : User :=
  {| User_ID := User_ID u;
     User_AccountEnabled := User_AccountEnabled u;
     User_City := User_City u;
     User_CompanyName := User_CompanyName u;
     User_Country := User_Country u;
     User_Department := User_Department u;
     User_DisplayName := User_DisplayName u;
     User_GivenName := User_GivenName u;
     User_JobTitle := User_JobTitle u;
     User_Mail := User_Mail u;
     User_MailNickname := User_MailNickname u;
     User_MobilePhone := User_MobilePhone u;
     User_OfficeLocation := User_OfficeLocation u;
     User_OnPremisesImmutableId := User_OnPremisesImmutableId u;
     User_OnPremisesSamAccountName := User_OnPremisesSamAccountName u;
     User_OnPremisesUserPrincipalName := User_OnPremisesUserPrincipalName u;
     User_PostalCode := User_PostalCode u;
     User_State := User_State u;
     User_StreetAddress := User_StreetAddress u;
     User_Surname := User_Surname u;
     User_UsageLocation := User_UsageLocation u;
     User_UserPrincipalName := User_UserPrincipalName u;
     User_UserType := User_UserType u;
     User_PasswordProfile := p |}.

(** [properties.OnPremisesImmutableId = p] *)
Definition setOnPremisesImmutableId (p : option string) (u : User) : User :=
  {| User_ID := User_ID u;
     User_AccountEnabled := User_AccountEnabled u;
     User_City := User_City u;
     User_CompanyName := User_CompanyName u;
     User_Country := User_Country u;
     User_Department := User_Department u;
     User_DisplayName := User_DisplayName u;
     User_GivenName := User_GivenName u;
     User_JobTitle := User_JobTitle u;
     User_Mail := User_Mail u;
     User_MailNickname := User_MailNickname u;
     User_MobilePhone := User_MobilePhone u;
     User_OfficeLocation := User_OfficeLocation u;
     User_OnPremisesImmutableId := p;
     User_OnPremisesSamAccountName := User_OnPremisesSamAccountName u;
     User_OnPremisesUserPrincipalName := User_OnPremisesUserPrincipalName u;
     User_PostalCode := User_PostalCode u;
     User_State := User_State u;
     User_StreetAddress := User_StreetAddress u;
     User_Surname := User_Surname u;
     User_UsageLocation := User_UsageLocation u;
     User_UserPrincipalName := User_UserPrincipalName u;
     User_UserType := User_UserType u;
     User_PasswordProfile := User_PasswordProfile u |}.

(** The payload [userResourceUpdate] builds before calling the client. *)
Definition userUpdateProperties (d : ResourceData) : User :=
  let properties :=
    {| User_ID := utils_String (rd_id d);
       User_AccountEnabled := utils_Bool (rd_GetBool d "account_enabled");
       User_City := utils_NullableString (rd_GetString d "city");
       User_CompanyName := utils_NullableString (rd_GetString d "company_name");
       User_Country := utils_NullableString (rd_GetString d "country");
       User_Department := utils_NullableString (rd_GetString d "department");
       User_DisplayName := utils_String (rd_GetString d "display_name");
       User_GivenName := utils_NullableString (rd_GetString d "given_name");
       User_JobTitle := utils_NullableString (rd_GetString d "job_title");
       User_Mail := None;
       User_MailNickname := utils_String (rd_GetString d "mail_nickname");
       User_MobilePhone := utils_NullableString (rd_GetString d "mobile_phone");
       User_OfficeLocation := utils_NullableString (rd_GetString d "office_location");
       User_OnPremisesImmutableId := None;
       User_OnPremisesSamAccountName := None;
       User_OnPremisesUserPrincipalName := None;
       User_PostalCode := utils_NullableString (rd_GetString d "postal_code");
       User_State := utils_NullableString (rd_GetString d "state");
       User_StreetAddress := utils_NullableString (rd_GetString d "street_address");
       User_Surname := utils_NullableString (rd_GetString d "surname");
       User_UsageLocation := utils_NullableString (rd_GetString d "usage_location");
       User_UserPrincipalName := None;
       User_UserType := None;
       User_PasswordProfile := None |} in
  let properties :=
    if rd_HasChange d "password" then
      setPasswordProfile
        (Some {| ForceChangePasswordNextSignIn :=
                   utils_Bool (rd_GetBool d "force_password_change");
                 Password := utils_String (rd_GetString d "password") |})
        properties
    else properties in
  if rd_HasChange d "onpremises_immutable_id" then
    setOnPremisesImmutableId
      (utils_String (rd_GetString d "onpremises_immutable_id")) properties
  else properties.

Definition userResourceRead : Prog (St W) Diagnostics :=
  do d <- getD;
  let objectId := rd_id d in
  do '(user, status, err) <- lift (call (UsersGet objectId) (Users_Get client objectId));
  match err with
  | Some e =>
      if status =? StatusNotFound then
        do _ <- SetId "";
        ret []
      else ret [ErrorDiagF (Some e) "Retrieving user with object ID: %q" [VString objectId]]
  | None =>
      do user <- deref user;
      do _ <- tf_Set "account_enabled" (ptrBool (User_AccountEnabled user));
      do _ <- tf_Set "city" (ptrString (User_City user));
      do _ <- tf_Set "company_name" (ptrString (User_CompanyName user));
      do _ <- tf_Set "country" (ptrString (User_Country user));
      do _ <- tf_Set "department" (ptrString (User_Department user));
      do _ <- tf_Set "display_name" (ptrString (User_DisplayName user));
      do _ <- tf_Set "given_name" (ptrString (User_GivenName user));
      do _ <- tf_Set "job_title" (ptrString (User_JobTitle user));
      do _ <- tf_Set "mail" (ptrString (User_Mail user));
      do _ <- tf_Set "mail_nickname" (ptrString (User_MailNickname user));
      do _ <- tf_Set "mobile_phone" (ptrString (User_MobilePhone user));
      do _ <- tf_Set "object_id" (ptrString (User_ID user));
      do _ <- tf_Set "office_location" (ptrString (User_OfficeLocation user));
      do _ <- tf_Set "onpremises_immutable_id" (ptrString (User_OnPremisesImmutableId user));
      do _ <- tf_Set "onpremises_sam_account_name"
                (ptrString (User_OnPremisesSamAccountName user));
      do _ <- tf_Set "onpremises_user_principal_name"
                (ptrString (User_OnPremisesUserPrincipalName user));
      do _ <- tf_Set "postal_code" (ptrString (User_PostalCode user));
      do _ <- tf_Set "state" (ptrString (User_State user));
      do _ <- tf_Set "street_address" (ptrString (User_StreetAddress user));
      do _ <- tf_Set "surname" (ptrString (User_Surname user));
      do _ <- tf_Set "usage_location" (ptrString (User_UsageLocation user));
      do _ <- tf_Set "user_principal_name" (ptrString (User_UserPrincipalName user));
      do _ <- tf_Set "user_type" (ptrString (User_UserType user));
      ret []
  end.

Definition userResourceUpdate : Prog (St W) Diagnostics :=
  do d <- getD;
  let properties := userUpdateProperties d in
  do '(_, err) <- lift (call (UsersUpdate properties) (Users_Update client properties));
  match err with
  | Some e => ret [ErrorDiagF (Some e) "Could not update user with ID: %q" [VString (rd_id d)]]
  | None => userResourceRead
  end.

Definition userResourceDelete : Prog (St W) Diagnostics :=
  do d <- getD;
  do '(_, status, err) <- lift (call (UsersGet (rd_id d)) (Users_Get client (rd_id d)));
  match err with
  | Some e =>
      if status =? StatusNotFound then
        ret [ErrorDiagPathF (Some "User was not found") "id"
               "Retrieving user with object ID %q" [VString (rd_id d)]]
      else
        ret [ErrorDiagPathF (Some e) "id" "Retrieving user with object ID %q" [VString (rd_id d)]]
  | None =>
      do '(status, err) <- lift (call (UsersDelete (rd_id d)) (Users_Delete client (rd_id d)));
      match err with
      | Some e =>
          ret [ErrorDiagPathF (Some e) "id"
                 "Deleting user with object ID %q, got status %d"
                 [VString (rd_id d); VInt status]]
      | None => ret []
      end
  end.
End Resource.
End Users.

(** ** Access package resource request resource *)

Module IdentityGovernance.
Section Resource.
Context {W : Type}.
Variable client : AccessPackageResourceRequestClient W.

Definition accessPackageResourceRequestResourceRead : Prog (St W) Diagnostics :=
  do d <- getD;
  do '(accessPackageResourceRequest, status, err) <-
    lift (call (AccessPackageResourceRequestGet (rd_id d)) (APRR_Get client (rd_id d)));
  match err with
  | Some e =>
      if status =? StatusNotFound then
        do _ <- SetId "";
        ret []
      else
        ret [ErrorDiagPathF (Some e) "id"
               "Retrieving AP ResourceRequest with object ID %q" [VString (rd_id d)]]
  | None =>
      do r <- deref accessPackageResourceRequest;
      do _ <- tf_Set "catalog_id" (ptrString (APRR_CatalogId r));
      do _ <- tf_Set "expiration_date_time" (ptrString (APRR_ExpirationDateTime r));
      do _ <- tf_Set "is_validation_only" (ptrBool (APRR_IsValidationOnly r));
      do _ <- tf_Set "justification" (ptrString (APRR_Justification r));
      do _ <- tf_Set "request_state" (ptrString (APRR_RequestState r));
      do _ <- tf_Set "request_status" (ptrString (APRR_RequestStatus r));
      do _ <- tf_Set "request_type" (ptrString (APRR_RequestType r));
      ret []
  end.

Definition accessPackageResourceRequestResourceDelete : Prog (St W) Diagnostics :=
  do d <- getD;
  do '(accessPackageResourceRequest, status, err) <-
    lift (call (AccessPackageResourceRequestGet (rd_id d)) (APRR_Get client (rd_id d)));
  match err with
  | Some e =>
      if status =? StatusNotFound then ret []
      else
        ret [ErrorDiagPathF (Some e) "id"
               "Retrieving AP ResourceRequest with ID %q" [VString (rd_id d)]]
  | None =>
      do r <- deref accessPackageResourceRequest;
      do '(status, err) <- lift (call (AccessPackageResourceRequestDelete r) (APRR_Delete client r));
      match err with
      | Some e =>
          ret [ErrorDiagPathF (Some e) "id"
                 "Deleting AP ResourceRequest with ID %q, got status %d"
                 [VString (rd_id d); VInt status]]
      | None => ret []
      end
  end.
End Resource.
End IdentityGovernance.

(** ** Identifier codec

    The [parse] package is not among the files modelled here; its functions
    are written from the specification of the Identifier Codec. *)

Module Parse.

(** Modelled from the spec: the stable separator of composite
    identifiers. *)
Definition separator : ascii := "/"%char.

Record CredentialId : Type := mkCredentialId {
  ObjectId : string;
  KeyType : string;
  KeyId : string
}.

(** Modelled from the spec: the error of a persisted identifier that does
    not parse. *)
Inductive ParseError : Type :=
| MalformedIdentifier (id : string).

Definition ParseError_Error (e : ParseError) : error :=
  match e with
  | MalformedIdentifier id => "malformed identifier: " +:+ id
  end.

(** Modelled from the spec: [parse.NewCredentialID], the composite identity
    of a credential: parent object ID, credential kind, credential key ID. *)
Definition NewCredentialID (objectId keyType keyId : string) : CredentialId :=
  {| ObjectId := objectId; KeyType := keyType; KeyId := keyId |}.

(** Modelled from the spec: [CredentialId.String], the three fields joined
    by the separator in the fixed order [{objectId}/{kind}/{keyId}]. *)
Definition CredentialId_String (id : CredentialId) : string :=
  ObjectId id +:+ "/" +:+ KeyType id +:+ "/" +:+ KeyId id.

Fixpoint noSeparator (s : string) : bool :=
  match s with
  | EmptyString => true
  | String c rest => negb (Ascii.eqb c separator) && noSeparator rest
  end.

(** Modelled from the spec: the shape of an identifier field, which is
    not empty and does not contain the separator. *)
Definition validField (s : string) : bool :=
  negb (String.eqb s "") && noSeparator s.

(** Modelled from the spec: the closed enumeration of credential kinds. *)
Definition knownKinds : list string := ["password"; "key"].

Definition validKind (k : string) : bool :=
  existsb (String.eqb k) knownKinds.

(** Modelled from the spec: decoding of the current structured form, which
    fails when the separator count or the field shapes do not match. *)
Definition CredentialID (idString : string) : CredentialId + ParseError :=
  match strings_Split separator idString with
  | [objectId; keyType; keyId] =>
      if validField objectId && validKind keyType && validField keyId
      then inl (NewCredentialID objectId keyType keyId)
      else inr (MalformedIdentifier idString)
  | _ => inr (MalformedIdentifier idString)
  end.

(** Modelled from the spec: [parse.PasswordID], the decoder used by the
    application password resource, which accepts the password kind only. *)
Definition PasswordID (idString : string) : CredentialId + ParseError :=
  match CredentialID idString with
  | inl id =>
      if String.eqb (KeyType id) "password" then inl id
      else inr (MalformedIdentifier idString)
  | inr e => inr e
  end.

(** The identifiers of the current structured form: the strings that
    [CredentialId_String] produces from well-shaped fields. *)
Definition wellFormed (x : string) : Prop :=
  exists objectId keyType keyId,
    validField objectId = true /\ validKind keyType = true /\
    validField keyId = true /\
    x = CredentialId_String (NewCredentialID objectId keyType keyId).

Section Legacy.
(** The key ID recorded for a legacy identifier; the specification does
    not say how it is obtained. *)
Variable legacyKeyId : string -> string.

(** Modelled from the spec: [parse.OldPasswordID], the decoder of the
    legacy flat form: a single field, tagged as a password credential. *)
Definition OldPasswordID (idString : string) : CredentialId + ParseError :=
  if validField idString
  then inl (NewCredentialID idString "password" (legacyKeyId idString))
  else inr (MalformedIdentifier idString).
End Legacy.

End Parse.

(** ** Application resource *)

Module Applications.

Definition applicationResourceName : string := "azuread_application".

(** [tf.ExpandStringSlicePtr]: the strings of a list, behind a pointer that
    is never nil. *)
Definition tf_ExpandStringSlicePtr (v : Value) : option (list string) :=
  Some (match v with
        | VList l => omap (fun x => match x with VString s => Some s | _ => None end) l
        | _ => []
        end).

(** The expand and flatten functions of the package translate between
    attribute values and remote records; they are kept abstract. *)
Record Conversions : Type := mkConversions {
  expandApplicationApi : Value -> option ApplicationApi;
  expandApplicationAppRoles : Value -> option (list AppRole);
  expandApplicationOAuth2PermissionScope : Value -> option (list PermissionScope);
  expandApplicationGroupMembershipClaims : Value -> option (list string);
  expandApplicationOptionalClaims : Value -> option Value;
  expandApplicationRequiredResourceAccess : Value -> option Value;
  expandApplicationWeb : Value -> option Value;
  flattenApplicationApi : option ApplicationApi -> bool -> Value;
  flattenApplicationAppRoles : option (list AppRole) -> Value;
  flattenApplicationGroupMembershipClaims : option (list string) -> Value;
  flattenApplicationOptionalClaims : option Value -> Value;
  flattenApplicationRequiredResourceAccess : option Value -> Value;
  flattenApplicationWeb : option Value -> bool -> bool -> Value
}.

Section Resource.
Context {W : Type}.
Variable client : ApplicationsClient W.
Variable conv : Conversions.

(** Helpers of the package that receive the client but not the resource
    data.  The application they are given is passed by value. *)
Variable applicationFindByName :
  string -> Helper W (option (list Application) * option error).
Variable applicationSetOwners :
  Application -> list string -> Helper W (option error).
Variable applicationDisableAppRoles :
  Application -> option (list AppRole) -> Helper W (option error).
Variable applicationDisableOauth2PermissionScopes :
  Application -> option (list PermissionScope) -> Helper W (option error).

Definition applicationResourceRead : Prog (St W) Diagnostics :=
  do d <- getD;
  do '(app, status, err) <-
    lift (call (ApplicationsGet (rd_id d)) (Applications_Get client (rd_id d)));
  match err with
  | Some e =>
      if status =? StatusNotFound then
        do _ <- SetId "";
        ret []
      else
        ret [ErrorDiagPathF (Some e) "id"
               "Retrieving Application with object ID %q" [VString (rd_id d)]]
  | None =>
      do app <- deref app;
      do _ <- tf_Set "api" (flattenApplicationApi conv (App_Api app) false);
      do _ <- tf_Set "app_role" (flattenApplicationAppRoles conv (App_AppRoles app));
      do _ <- tf_Set "application_id" (ptrString (App_AppId app));
      do _ <- tf_Set "display_name" (ptrString (App_DisplayName app));
      do _ <- tf_Set "fallback_public_client_enabled"
                (ptrBool (App_IsFallbackPublicClient app));
      do _ <- tf_Set "group_membership_claims"
                (flattenApplicationGroupMembershipClaims conv (App_GroupMembershipClaims app));
      do _ <- tf_Set "identifier_uris" (ptrStrings (App_IdentifierUris app));
      do _ <- tf_Set "object_id" (ptrString (App_ID app));
      do _ <- tf_Set "optional_claims"
                (flattenApplicationOptionalClaims conv (App_OptionalClaims app));
      do _ <- tf_Set "required_resource_access"
                (flattenApplicationRequiredResourceAccess conv (App_RequiredResourceAccess app));
      do _ <- tf_Set "sign_in_audience" (VString (App_SignInAudience app));
      do d1 <- getD;
      do _ <- tf_Set "web"
                (flattenApplicationWeb conv (App_Web app)
                   (0 <? value_int (rd_GetPath d1 "web" [Count]))
                   (0 <? value_int (rd_GetPath d1 "web"
                                      [Idx 0; Attr "implicit_grant"; Count])));
      do d2 <- getD;
      let preventDuplicates :=
        if rd_GetBool d2 "prevent_duplicate_names" then true else false in
      do _ <- tf_Set "prevent_duplicate_names" (VBool preventDuplicates);
      do appId <- deref (App_ID app);
      do '(owners, _, err) <-
        lift (call (ApplicationsListOwners appId) (Applications_ListOwners client appId));
      match err with
      | Some e =>
          ret [ErrorDiagPathF (Some e) "owners"
                 "Could not retrieve owners for application with object ID %q"
                 [VString appId]]
      | None =>
          do _ <- tf_Set "owners" (ptrStrings owners);
          ret []
      end
  end.

(** The duplicate name check of [applicationResourceCreate]; [Some]
    diagnostics are returned to the caller at once. *)
Definition createDuplicateCheck (d : ResourceData)
  : Prog (Remote W) (option Diagnostics) :=
  let displayName := rd_GetString d "display_name" in
  if rd_GetBool d "prevent_duplicate_names" then
    do '(result, err) <- runHelper (applicationFindByName displayName);
    match err with
    | Some e =>
        ret (Some [ErrorDiagPathF (Some e) "name"
                     "Could not check for existing application(s)" []])
    | None =>
        match result with
        | Some (existingApp :: _) =>
            match App_ID existingApp with
            | None =>
                ret (Some [ErrorDiagF
                             (Some "API returned application with nil object ID during duplicate name check")
                             "Bad API response" []])
            | Some existingId =>
                ret (Some [ImportAsDuplicateDiag "azuread_application" existingId displayName])
            end
        | _ => ret None
        end
    end
  else ret None.

Definition createProperties (d : ResourceData) : Application :=
  {| App_ID := None;
     App_AppId := None;
     App_Api := expandApplicationApi conv (rd_Get d "api");
     App_AppRoles := expandApplicationAppRoles conv (rd_Get d "app_role");
     App_DisplayName := utils_String (rd_GetString d "display_name");
     App_IsFallbackPublicClient :=
       utils_Bool (rd_GetBool d "fallback_public_client_enabled");
     App_GroupMembershipClaims :=
       expandApplicationGroupMembershipClaims conv (rd_Get d "group_membership_claims");
     App_IdentifierUris := tf_ExpandStringSlicePtr (rd_Get d "identifier_uris");
     App_OptionalClaims := expandApplicationOptionalClaims conv (rd_Get d "optional_claims");
     App_RequiredResourceAccess :=
       expandApplicationRequiredResourceAccess conv (rd_Get d "required_resource_access");
     App_SignInAudience := rd_GetString d "sign_in_audience";
     App_Web := expandApplicationWeb conv (rd_Get d "web");
     App_PasswordCredentials := None |}.

(** The owners wanted by the configuration, as strings.  The attribute is
    a set: the list that the resource data hands out for it has no
    duplicates and an order of its own, which the value kept here does
    not model, so that nothing may be concluded from the order or the
    multiplicity of the owners. *)
Definition desiredOwners (d : ResourceData) : list string :=
  default [] (tf_ExpandStringSlicePtr (rd_Get d "owners")).

Definition applicationResourceCreate : Prog (St W) Diagnostics :=
  do d <- getD;
  do dup <- lift (createDuplicateCheck d);
  match dup with
  | Some ds => ret ds
  | None =>
      let properties := createProperties d in
      do '(app, _, err) <-
        lift (call (ApplicationsCreate properties) (Applications_Create client properties));
      match err with
      | Some e => ret [ErrorDiagF (Some e) "Could not create application" []]
      | None =>
          do app <- deref app;
          match App_ID app with
          | None =>
              ret [ErrorDiagF (Some "Bad API response")
                     "Object ID returned for application is nil/empty" []]
          | Some appId =>
              if String.eqb appId "" then
                ret [ErrorDiagF (Some "Bad API response")
                       "Object ID returned for application is nil/empty" []]
              else
                do _ <- SetId appId;
                do d' <- getD;
                do owners <- deref (tf_ExpandStringSlicePtr (rd_Get d' "owners"));
                do err <- lift (runHelper (applicationSetOwners app owners));
                match err with
                | Some e =>
                    ret [ErrorDiagPathF (Some e) "owners"
                           "Could not set owners for application with object ID: %q"
                           [VString appId]]
                | None => applicationResourceRead
                end
          end
      end
  end.

(** The loop of [applicationResourceUpdate] over the applications found
    under the display name. *)
Fixpoint updateDuplicateLoop (applicationId displayName : string)
    (result : list Application) : option Diagnostics :=
  match result with
  | [] => None
  | existingApp :: rest =>
      match App_ID existingApp with
      | None =>
          Some [ErrorDiagF
                  (Some "API returned application with nil object ID during duplicate name check")
                  "Bad API response" []]
      | Some existingId =>
          if negb (String.eqb existingId applicationId) then
            Some [ImportAsDuplicateDiag "azuread_application" existingId displayName]
          else updateDuplicateLoop applicationId displayName rest
      end
  end.

(** The duplicate name check of [applicationResourceUpdate]. *)
Definition updateDuplicateCheck (d : ResourceData)
  : Prog (Remote W) (option Diagnostics) :=
  let applicationId := rd_id d in
  let displayName := rd_GetString d "display_name" in
  if rd_GetBool d "prevent_duplicate_names" then
    do '(result, err) <- runHelper (applicationFindByName displayName);
    match err with
    | Some e =>
        ret (Some [ErrorDiagPathF (Some e) "display_name"
                     "Could not check for existing application(s)" []])
    | None =>
        match result with
        | Some l => ret (updateDuplicateLoop applicationId displayName l)
        | None => ret None
        end
    end
  else ret None.

Definition updateProperties (d : ResourceData) : Application :=
  {| App_ID := utils_String (rd_id d);
     App_AppId := None;
     App_Api := expandApplicationApi conv (rd_Get d "api");
     App_AppRoles := expandApplicationAppRoles conv (rd_Get d "app_role");
     App_DisplayName := utils_String (rd_GetString d "display_name");
     App_IsFallbackPublicClient :=
       utils_Bool (rd_GetBool d "fallback_public_client_enabled");
     App_GroupMembershipClaims :=
       expandApplicationGroupMembershipClaims conv (rd_Get d "group_membership_claims");
     App_IdentifierUris := tf_ExpandStringSlicePtr (rd_Get d "identifier_uris");
     App_OptionalClaims := expandApplicationOptionalClaims conv (rd_Get d "optional_claims");
     App_RequiredResourceAccess :=
       expandApplicationRequiredResourceAccess conv (rd_Get d "required_resource_access");
     App_SignInAudience := rd_GetString d "sign_in_audience";
     App_Web := expandApplicationWeb conv (rd_Get d "web");
     App_PasswordCredentials := None |}.

Definition applicationResourceUpdate : Prog (St W) Diagnostics :=
  do d <- getD;
  do dup <- lift (updateDuplicateCheck d);
  match dup with
  | Some ds => ret ds
  | None =>
      let properties := updateProperties d in
      do err <- lift (runHelper (applicationDisableAppRoles properties
                        (expandApplicationAppRoles conv (rd_Get d "app_role"))));
      match err with
      | Some e =>
          ret [ErrorDiagPathF (Some e) "app_role"
                 "Could not disable App Roles for application with object ID %q"
                 [VString (rd_id d)]]
      | None =>
          do err <- lift (runHelper (applicationDisableOauth2PermissionScopes properties
                            (expandApplicationOAuth2PermissionScope conv
                               (rd_GetPath d "api" [Idx 0; Attr "oauth2_permission_scope"]))));
          match err with
          | Some e =>
              ret [ErrorDiagPathF (Some e) "api.0.oauth2_permission_scope"
                     "Could not disable OAuth2 Permission Scopes for application with object ID %q"
                     [VString (rd_id d)]]
          | None =>
              do '(_, err) <-
                lift (call (ApplicationsUpdate properties)
                        (Applications_Update client properties));
              match err with
              | Some e =>
                  ret [ErrorDiagF (Some e) "Could not update application with ID: %q"
                         [VString (rd_id d)]]
              | None =>
                  do owners <- deref (tf_ExpandStringSlicePtr (rd_Get d "owners"));
                  do err <- lift (runHelper (applicationSetOwners properties owners));
                  match err with
                  | Some e =>
                      ret [ErrorDiagPathF (Some e) "owners"
                             "Could not set owners for application with object ID: %q"
                             [VString (rd_id d)]]
                  | None => applicationResourceRead
                  end
              end
          end
      end
  end.

Definition applicationResourceDelete : Prog (St W) Diagnostics :=
  do d <- getD;
  do '(_, status, err) <-
    lift (call (ApplicationsGet (rd_id d)) (Applications_Get client (rd_id d)));
  match err with
  | Some e =>
      if status =? StatusNotFound then
        ret [ErrorDiagPathF (Some "Application was not found") "id"
               "Retrieving Application with object ID %q" [VString (rd_id d)]]
      else
        ret [ErrorDiagPathF (Some e) "id"
               "Retrieving application with object ID %q" [VString (rd_id d)]]
  | None =>
      do '(status, err) <-
        lift (call (ApplicationsDelete (rd_id d)) (Applications_Delete client (rd_id d)));
      match err with
      | Some e =>
          ret [ErrorDiagPathF (Some e) "id"
                 "Deleting application with object ID %q, got status %d"
                 [VString (rd_id d); VInt status]]
      | None => ret []
      end
  end.
End Resource.
End Applications.

(** ** Helpers of the application resource

    [applicationSetOwners], [applicationDisableAppRoles] and
    [applicationDisableOauth2PermissionScopes] are defined in a file of the
    package that is not modelled here; they are written from the
    specification of the reconciler. *)

Module ApplicationHelpers.

#[global] Instance AppRole_eq_dec : EqDecision AppRole.
Proof. solve_decision. Defined.

#[global] Instance PermissionScope_eq_dec : EqDecision PermissionScope.
Proof. solve_decision. Defined.

(** Modelled from the spec: the owners to add or to remove, the elements of
    [a] that are not in [b]. *)
Definition stringsDifference (a b : list string) : list string :=
List.filter (fun x => negb (existsb (String.eqb x) b)) a.

(** Modelled from the spec: the entries present remotely but absent or
    changed in the desired state.  An entry is kept as it is only when the
    desired state holds the very same entry. *)
Definition roleRemovedOrChanged (desired : list AppRole) (r : AppRole) : bool :=
negb (bool_decide (r ∈ desired)).

Definition scopeRemovedOrChanged (desired : list PermissionScope) (s : PermissionScope) : bool :=
negb (bool_decide (s ∈ desired)).

(** Modelled from the spec: an entry moved to the disabled state. *)
Definition disableRole (r : AppRole) : AppRole :=
{| AppRole_ID := AppRole_ID r;
   AppRole_AllowedMemberTypes := AppRole_AllowedMemberTypes r;
   AppRole_Description := AppRole_Description r;
   AppRole_DisplayName := AppRole_DisplayName r;
   AppRole_IsEnabled := Some false;
   AppRole_Value := AppRole_Value r |}.

Definition disableScope (s : PermissionScope) : PermissionScope :=
{| Scope_ID := Scope_ID s;
   Scope_AdminConsentDescription := Scope_AdminConsentDescription s;
   Scope_AdminConsentDisplayName := Scope_AdminConsentDisplayName s;
   Scope_IsEnabled := Some false;
   Scope_Type := Scope_Type s;
   Scope_UserConsentDescription := Scope_UserConsentDescription s;
   Scope_UserConsentDisplayName := Scope_UserConsentDisplayName s;
   Scope_Value := Scope_Value s |}.

(** Modelled from the spec: the remote entries with exactly the removed or
    changed ones disabled. *)
Definition rolesDisabled (existing desired : list AppRole) : list AppRole :=
map (fun r => if roleRemovedOrChanged desired r then disableRole r else r) existing.

Definition scopesDisabled (existing desired : list PermissionScope) : list PermissionScope :=
map (fun s => if scopeRemovedOrChanged desired s then disableScope s else s) existing.

(** Modelled from the spec: the disabling update, which carries nothing but
    the identity and one sub-collection. *)
Definition rolesPayload (id : string) (roles : list AppRole) : Application :=
{| App_ID := Some id; App_AppId := None; App_Api := None;
   App_AppRoles := Some roles; App_DisplayName := None;
   App_IsFallbackPublicClient := None; App_GroupMembershipClaims := None;
   App_IdentifierUris := None; App_OptionalClaims := None;
   App_RequiredResourceAccess := None; App_SignInAudience := "";
   App_Web := None; App_PasswordCredentials := None |}.

Definition scopesPayload (id : string) (scopes : list PermissionScope) : Application :=
{| App_ID := Some id; App_AppId := None;
   App_Api := Some {| Api_OAuth2PermissionScopes := Some scopes |};
   App_AppRoles := None; App_DisplayName := None;
   App_IsFallbackPublicClient := None; App_GroupMembershipClaims := None;
   App_IdentifierUris := None; App_OptionalClaims := None;
   App_RequiredResourceAccess := None; App_SignInAudience := "";
   App_Web := None; App_PasswordCredentials := None |}.

Definition remoteScopes (app : Application) : list PermissionScope :=
match App_Api app with
| Some api => default [] (Api_OAuth2PermissionScopes api)
| None => []
end.

Section Helpers.
Context {W : Type}.
Variable client : ApplicationsClient W.

(** Modelled from the spec: [applicationSetOwners], the follow-up write of
    the owners of an application.  It runs under the Name Lock keyed by the
    application's identity, which is released on every exit path, and
    brings the remote owners to the desired ones. *)
Definition applicationSetOwners (application : Application) (desiredOwners : list string)
  : Prog (Remote W) (option error) :=
  match App_ID application with
  | None => ret (Some "cannot use an application with nil ID")
  | Some id =>
      do _ <- emit (ELock Applications.applicationResourceName id);
      defer (emit (EUnlock Applications.applicationResourceName id))
        (do '(owners, _, err) <-
           call (ApplicationsListOwners id) (Applications_ListOwners client id);
         match err with
         | Some e => ret (Some e)
         | None =>
             do existingOwners <- deref owners;
             let ownersForRemoval := stringsDifference existingOwners desiredOwners in
             let ownersToAdd := stringsDifference desiredOwners existingOwners in
             do err <-
               match ownersForRemoval with
               | [] => ret None
               | _ :: _ =>
                   do '(_, err) <-
                     call (ApplicationsRemoveOwners id ownersForRemoval)
                          (Applications_RemoveOwners client id ownersForRemoval);
                   ret err
               end;
             match err with
             | Some e => ret (Some e)
             | None =>
                 match ownersToAdd with
                 | [] => ret None
                 | _ :: _ =>
                     do '(_, err) <-
                       call (ApplicationsAddOwners id ownersToAdd)
                            (Applications_AddOwners client id ownersToAdd);
                     ret err
                 end
             end
         end)
  end.

(** Modelled from the spec: [applicationDisableAppRoles], the first half of
    the disable-before-delete protocol for app roles.  It reads the remote
    record, computes the entries present remotely but absent or changed in
    the desired state, and issues an update disabling exactly those
    entries; its error is the error of that update. *)
Definition applicationDisableAppRoles (application : Application)
    (newRoles : option (list AppRole)) : Prog (Remote W) (option error) :=
  match App_ID application with
  | None => ret (Some "cannot use an application with nil ID")
  | Some id =>
      do '(app, _, err) <- call (ApplicationsGet id) (Applications_Get client id);
      match err with
      | Some e => ret (Some e)
      | None =>
          do app <- deref app;
          let existing := default [] (App_AppRoles app) in
          let desired := default [] newRoles in
          if existsb (roleRemovedOrChanged desired) existing then
            let properties := rolesPayload id (rolesDisabled existing desired) in
            do '(_, err) <-
              call (ApplicationsUpdate properties) (Applications_Update client properties);
            ret err
          else ret None
      end
  end.

(** Modelled from the spec: [applicationDisableOauth2PermissionScopes], the
    first half of the disable-before-delete protocol for permission
    scopes, along the same lines. *)
Definition applicationDisableOauth2PermissionScopes (application : Application)
    (newScopes : option (list PermissionScope)) : Prog (Remote W) (option error) :=
  match App_ID application with
  | None => ret (Some "cannot use an application with nil ID")
  | Some id =>
      do '(app, _, err) <- call (ApplicationsGet id) (Applications_Get client id);
      match err with
      | Some e => ret (Some e)
      | None =>
          do app <- deref app;
          let existing := remoteScopes app in
          let desired := default [] newScopes in
          if existsb (scopeRemovedOrChanged desired) existing then
            let properties := scopesPayload id (scopesDisabled existing desired) in
            do '(_, err) <-
              call (ApplicationsUpdate properties) (Applications_Update client properties);
            ret err
          else ret None
      end
  end.
End Helpers.
End ApplicationHelpers.

(** ** Application password resource *)

Module ApplicationPassword.
Section Resource.
Context {W : Type}.
Variable client : ApplicationsClient W.

(** [helpers.PasswordCredentialForResource]: the credential built from the
    configuration, or an error which, when it is a [CredentialError],
    names the attribute at fault. *)
Variable PasswordCredentialForResource :
  ResourceData -> option PasswordCredential * option (error * option string).

(** The loop over [*app.PasswordCredentials], left at the first match. *)
Fixpoint findCredential (keyId : string) (creds : list PasswordCredential)
  : option PasswordCredential :=
  match creds with
  | [] => None
  | cred :: rest =>
      match Cred_KeyId cred with
      | Some k => if String.eqb k keyId then Some cred else findCredential keyId rest
      | None => findCredential keyId rest
      end
  end.

Definition applicationPasswordResourceRead : Prog (St W) Diagnostics :=
  do d <- getD;
  match Parse.PasswordID (rd_id d) with
  | inr err =>
      ret [ErrorDiagPathF (Some (Parse.ParseError_Error err)) "id"
             "Parsing password credential with ID %q" [VString (rd_id d)]]
  | inl id =>
      do '(app, status, err) <-
        lift (call (ApplicationsGet (Parse.ObjectId id))
                (Applications_Get client (Parse.ObjectId id)));
      match err with
      | Some e =>
          if status =? StatusNotFound then
            do _ <- SetId "";
            ret []
          else
            ret [ErrorDiagPathF (Some e) "application_object_id"
                   "Retrieving application with object ID %q"
                   [VString (Parse.ObjectId id)]]
      | None =>
          do app <- deref app;
          let credential :=
            match App_PasswordCredentials app with
            | Some creds => findCredential (Parse.KeyId id) creds
            | None => None
            end in
          match credential with
          | None =>
              do _ <- SetId "";
              ret []
          | Some credential =>
              do _ <- tf_Set "application_object_id" (VString (Parse.ObjectId id));
              do _ <- tf_Set "display_name" (ptrString (Cred_DisplayName credential));
              do _ <- tf_Set "key_id" (VString (Parse.KeyId id));
              let startDate := default "" (Cred_StartDateTime credential) in
              do _ <- tf_Set "start_date" (VString startDate);
              let endDate := default "" (Cred_EndDateTime credential) in
              do _ <- tf_Set "end_date" (VString endDate);
              ret []
          end
      end
  end.

Definition applicationPasswordResourceCreate : Prog (St W) Diagnostics :=
  do d <- getD;
  let objectId := rd_GetString d "application_object_id" in
  match PasswordCredentialForResource d with
  | (_, Some (e, kerr)) =>
      let attr := default "" kerr in
      ret [ErrorDiagPathF (Some e) attr
             "Generating password credentials for application with object ID %q"
             [VString objectId]]
  | (None, None) =>
      ret [ErrorDiagF (Some "nil credential was returned")
             "Generating password credentials for application with object ID %q"
             [VString objectId]]
  | (Some credential, None) =>
      do _ <- LockByName Applications.applicationResourceName objectId;
      defer (UnlockByName Applications.applicationResourceName objectId)
        (do '(app, status, err) <-
           lift (call (ApplicationsGet objectId) (Applications_Get client objectId));
         match err with
         | Some e =>
             if status =? StatusNotFound then
               ret [ErrorDiagPathF None "application_object_id"
                      "Application with object ID %q was not found" [VString objectId]]
             else
               ret [ErrorDiagPathF (Some e) "application_object_id"
                      "Retrieving application with object ID %q" [VString objectId]]
         | None =>
             match app ≫= App_ID with
             | None =>
                 ret [ErrorDiagF
                        (Some "nil application or application with nil ID was returned")
                        "API error retrieving application with object ID %q"
                        [VString objectId]]
             | Some appId =>
                 do '(newCredential, _, err) <-
                   lift (call (ApplicationsAddPassword appId credential)
                           (Applications_AddPassword client appId credential));
                 match err with
                 | Some e =>
                     ret [ErrorDiagF (Some e)
                            "Adding password for application with object ID %q"
                            [VString appId]]
                 | None =>
                     match newCredential with
                     | None =>
                         ret [ErrorDiagF
                                (Some "nil credential received when adding password")
                                "API error adding password for application with object ID %q"
                                [VString appId]]
                     | Some newCredential =>
                         match Cred_KeyId newCredential with
                         | None =>
                             ret [ErrorDiagF (Some "nil or empty keyId received")
                                    "API error adding password for application with object ID %q"
                                    [VString appId]]
                         | Some keyId =>
                             match Cred_SecretText newCredential with
                             | Some (String c secret) =>
                                 let id := Parse.NewCredentialID appId "password" keyId in
                                 do _ <- SetId (Parse.CredentialId_String id);
                                 do _ <- modifyD (rd_Set "value" (VString (String c secret)));
                                 applicationPasswordResourceRead
                             | _ =>
                                 ret [ErrorDiagF (Some "nil or empty password received")
                                        "API error adding password for application with object ID %q"
                                        [VString appId]]
                             end
                         end
                     end
                 end
             end
         end)
  end.

Definition applicationPasswordResourceDelete : Prog (St W) Diagnostics :=
  do d <- getD;
  match Parse.PasswordID (rd_id d) with
  | inr err =>
      ret [ErrorDiagPathF (Some (Parse.ParseError_Error err)) "id"
             "Parsing password credential with ID %q" [VString (rd_id d)]]
  | inl id =>
      do _ <- LockByName Applications.applicationResourceName (Parse.ObjectId id);
      defer (UnlockByName Applications.applicationResourceName (Parse.ObjectId id))
        (do '(_, err) <-
           lift (call (ApplicationsRemovePassword (Parse.ObjectId id) (Parse.KeyId id))
                   (Applications_RemovePassword client (Parse.ObjectId id) (Parse.KeyId id)));
         match err with
         | Some e =>
             ret [ErrorDiagF (Some e)
                    "Removing password credential %q from application with object ID %q"
                    [VString (Parse.KeyId id); VString (Parse.ObjectId id)]]
         | None => ret []
         end)
  end.
End Resource.

Section StateUpgrade.
Variable legacyKeyId : string -> string.

(** The upgrade of a stored state from schema version 0 to version 1.  The
    type assertion on [rawState["id"]] panics when it is not a string. *)
Definition resourceApplicationPasswordInstanceStateUpgradeV0
    (rawState : gmap string Value) : Res (gmap string Value * option error) :=
  match rawState !! "id" with
  | Some (VString id) =>
      match Parse.OldPasswordID legacyKeyId id with
      | inr err =>
          Ret (rawState, Some ("generating new ID: " +:+ Parse.ParseError_Error err))
      | inl newId =>
          Ret (<["id" := VString (Parse.CredentialId_String newId)]> rawState, None)
      end
  | _ => Panic
  end.
End StateUpgrade.
End ApplicationPassword.

(** ** Contracts of the reconciler operations *)

(** What [Read] owes its caller when the Get call fails with status [st]: on
    404 it succeeds and clears the identity, on anything else it reports an
    error and leaves the resource data alone. *)
Definition ReadContract {W : Type} (read : Prog (St W) Diagnostics)
    (d : ResourceData) (r : Remote W) (st : Z) : Prop :=
  let out := read (mkSt d r) in
  (st = StatusNotFound -> fst out = Ret [] /\ rd_id (st_d (snd out)) = "") /\
  (st <> StatusNotFound ->
   exists ds, fst out = Ret ds /\ HasError ds = true /\ st_d (snd out) = d).

(** The calls that change a sub-collection of a parent object. *)
Definition mutatesSubCollection (c : Call) : bool :=
  match c with
  | ApplicationsAddOwners _ _ | ApplicationsRemoveOwners _ _
  | ApplicationsAddPassword _ _ | ApplicationsRemovePassword _ _ => true
  | _ => false
  end.

(** The lock discipline of one operation on the parent [key], read off its
    events: the lock of that parent is the only one taken, it is taken when
    free and released when held, every change of a sub-collection happens
    while it is held, and it is free when the operation ends.  [held] tells
    whether the lock is held before the events. *)
Fixpoint lockDiscipline (resourceName key : string) (held : bool) (evs : list Event)
  : bool :=
  match evs with
  | [] => negb held
  | ECall c :: rest =>
      (if mutatesSubCollection c then held else true)
      && lockDiscipline resourceName key held rest
  | ELock n k :: rest =>
      String.eqb n resourceName && String.eqb k key && negb held
      && lockDiscipline resourceName key true rest
  | EUnlock n k :: rest =>
      String.eqb n resourceName && String.eqb k key && held
      && lockDiscipline resourceName key false rest
  | ESetId _ :: rest => lockDiscipline resourceName key held rest
  end.

(** Events that neither touch a lock nor change a sub-collection. *)
Definition quietEvents (evs : list Event) : bool :=
  forallb (fun e => match e with
                    | ECall c => negb (mutatesSubCollection c)
                    | ESetId _ => true
                    | _ => false
                    end) evs.

(** A function that only adds quiet events to the trace. *)
Definition growsQuietly {W : Type} (run : Prog (St W) Diagnostics) : Prop :=
  forall d w tr,
  exists res d' w' evs,
    run (mkSt d (mkRemote w tr)) = (res, mkSt d' (mkRemote w' (tr ++ evs))) /\
    quietEvents evs = true.

(** ** Further functions of the provider

    Create and the plan-time check of the user resource, the user data
    source, and the plan-time check of the application resource. *)

(** [d.GetOk(k)] for a string attribute: the value, and whether it is set to
    something other than the zero value. *)
Definition rd_GetOkString (d : ResourceData) (k : string) : string * bool :=
  let s := rd_GetString d k in (s, negb (String.eqb s "")).

(** The old half of [diff.GetChange(k)] for a string attribute. *)
Definition rd_GetOldString (d : ResourceData) (k : string) : string :=
  match rd_state d !! k with
  | Some (VString s) => s
  | _ => ""
  end.

(** The primitives of the users client that create and list. *)
Record UsersDirectoryClient (W : Type) : Type := mkUsersDirectoryClient {
  Users_Create : User -> W -> (option User * Z * option error) * W;
  Users_List : string -> W -> (option (list User) * Z * option error) * W
}.
Arguments Users_Create {W} _ _ _.
Arguments Users_List {W} _ _ _.

(** A lookup for which the trace has no event: it is answered by the
    service without being recorded. *)
Definition query {W A : Type} (f : W -> A * W) : Prog (Remote W) A :=
  fun r =>
    match r with
    | mkRemote w tr =>
        match f w with
        | (a, w') => (Ret a, mkRemote w' tr)
        end
    end.

Module UserCreate.
Section Resource.
Context {W : Type}.
Variable client : UsersClient W.
Variable directory : UsersDirectoryClient W.

(** [userResourceCustomizeDiff]: the error it returns, if any. *)
Definition userResourceCustomizeDiff (diff : ResourceData) : option error :=
  if String.eqb (rd_id diff) "" && String.eqb (rd_GetString diff "password") ""
  then Some "`password` is required when creating a new user"
  else None.

(** The mail nickname that Create sends: the configured one, or the first
    part of the UPN.  Indexing the split at 0 panics on an empty slice. *)
Definition createMailNickname (d : ResourceData) : Prog (St W) string :=
  let upn := rd_GetString d "user_principal_name" in
  let mailNickName := rd_GetString d "mail_nickname" in
  if String.eqb mailNickName "" then deref (head (strings_Split "@"%char upn))
  else ret mailNickName.

(** The payload that Create builds. *)
Definition userCreateProperties (d : ResourceData) (mailNickName : string) : User :=
  let properties :=
    {| User_ID := None;
       User_AccountEnabled := utils_Bool (rd_GetBool d "account_enabled");
       User_City := utils_NullableString (rd_GetString d "city");
       User_CompanyName := utils_NullableString (rd_GetString d "company_name");
       User_Country := utils_NullableString (rd_GetString d "country");
       User_Department := utils_NullableString (rd_GetString d "department");
       User_DisplayName := utils_String (rd_GetString d "display_name");
       User_GivenName := utils_NullableString (rd_GetString d "given_name");
       User_JobTitle := utils_NullableString (rd_GetString d "job_title");
       User_Mail := None;
       User_MailNickname := utils_String mailNickName;
       User_MobilePhone := utils_NullableString (rd_GetString d "mobile_phone");
       User_OfficeLocation := utils_NullableString (rd_GetString d "office_location");
       User_OnPremisesImmutableId := None;
       User_OnPremisesSamAccountName := None;
       User_OnPremisesUserPrincipalName := None;
       User_PostalCode := utils_NullableString (rd_GetString d "postal_code");
       User_State := utils_NullableString (rd_GetString d "state");
       User_StreetAddress := utils_NullableString (rd_GetString d "street_address");
       User_Surname := utils_NullableString (rd_GetString d "surname");
       User_UsageLocation := utils_NullableString (rd_GetString d "usage_location");
       User_UserPrincipalName := utils_String (rd_GetString d "user_principal_name");
       User_UserType := None;
       User_PasswordProfile :=
         Some {| ForceChangePasswordNextSignIn :=
                   utils_Bool (rd_GetBool d "force_password_change");
                 Password := utils_String (rd_GetString d "password") |} |} in
  match rd_GetOkString d "onpremises_immutable_id" with
  | (v, true) => Users.setOnPremisesImmutableId (utils_String v) properties
  | (_, false) => properties
  end.

Definition userResourceCreate : Prog (St W) Diagnostics :=
  do d <- getD;
  let upn := rd_GetString d "user_principal_name" in
  do mailNickName <- createMailNickname d;
  let properties := userCreateProperties d mailNickName in
  do '(user, _, err) <-
    lift (call (UsersCreate properties) (Users_Create directory properties));
  match err with
  | Some e => ret [ErrorDiagF (Some e) "Creating user %q" [VString upn]]
  | None =>
      do user <- deref user;
      match User_ID user with
      | None =>
          ret [ErrorDiagF (Some "API returned group with nil object ID")
                 "Bad API Response" []]
      | Some id =>
          if String.eqb id "" then
            ret [ErrorDiagF (Some "API returned group with nil object ID")
                   "Bad API Response" []]
          else
            do _ <- SetId id;
            Users.userResourceRead client
      end
  end.
End Resource.
End UserCreate.

Module UserDataSource.
Section DataSource.
Context {W : Type}.
Variable client : UsersClient W.
Variable directory : UsersDirectoryClient W.

(** The outcome of looking a single user up in a listing. *)
Definition singleUser (attr found notFound : string) (arg : string)
    (users : option (list User)) : Diagnostics + User :=
  match users with
  | None => inl [ErrorDiagF (Some "API returned nil result") "Bad API Response" []]
  | Some [] => inl [ErrorDiagPathF None attr notFound [VString arg]]
  | Some [user] => inr user
  | Some (_ :: _ :: _) => inl [ErrorDiagPathF None attr found [VString arg]]
  end.

(** The three ways of finding the user, tried in this order: by user
    principal name, by object ID, by mail nickname.  The messages of the
    last one are formatted with the user principal name, as in the code. *)
Definition findUser (d : ResourceData) : Prog (St W) (Diagnostics + User) :=
  let upn := rd_GetString d "user_principal_name" in
  if negb (String.eqb upn "") then
    let filter := "userPrincipalName eq '" +:+ upn +:+ "'" in
    do '(users, _, err) <- lift (query (Users_List directory filter));
    match err with
    | Some e => ret (inl [ErrorDiagF (Some e) "Finding user with UPN: %q" [VString upn]])
    | None =>
        ret (singleUser "user_principal_name" "More than one user found with UPN: %q"
               "User with UPN %q was not found" upn users)
    end
  else
    let objectId := rd_GetString d "object_id" in
    if negb (String.eqb objectId "") then
      do '(u, status, err) <- lift (call (UsersGet objectId) (Users_Get client objectId));
      match err with
      | Some e =>
          if status =? StatusNotFound then
            ret (inl [ErrorDiagPathF None "object_id" "User not found with object ID: %q"
                        [VString objectId]])
          else
            ret (inl [ErrorDiagF (Some e) "Retrieving user with object ID: %q"
                        [VString objectId]])
      | None =>
          match u with
          | None =>
              ret (inl [ErrorDiagPathF None "object_id"
                          "User not found with object ID: %q" [VString objectId]])
          | Some user => ret (inr user)
          end
      end
    else
      let mailNickname := rd_GetString d "mail_nickname" in
      if negb (String.eqb mailNickname "") then
        let filter := "mailNickname eq '" +:+ mailNickname +:+ "'" in
        do '(users, _, err) <- lift (query (Users_List directory filter));
        match err with
        | Some e =>
            ret (inl [ErrorDiagF (Some e) "Finding user with email alias: %q"
                        [VString mailNickname]])
        | None =>
            ret (singleUser "mail_nickname" "More than one user found with email alias: %q"
                   "User not found with email alias: %q" upn users)
        end
      else
        ret (inl [ErrorDiagF None
                    "One of `object_id`, `user_principal_name` or `mail_nickname` must be supplied"
                    []]).

Definition userDataSourceRead : Prog (St W) Diagnostics :=
  do d <- getD;
  do found <- findUser d;
  match found with
  | inl ds => ret ds
  | inr user =>
      match User_ID user with
      | None =>
          ret [ErrorDiagF (Some "API returned user with nil object ID")
                 "Bad API Response" []]
      | Some id =>
          do _ <- SetId id;
          do _ <- tf_Set "account_enabled" (ptrBool (User_AccountEnabled user));
          do _ <- tf_Set "city" (ptrString (User_City user));
          do _ <- tf_Set "company_name" (ptrString (User_CompanyName user));
          do _ <- tf_Set "country" (ptrString (User_Country user));
          do _ <- tf_Set "department" (ptrString (User_Department user));
          do _ <- tf_Set "display_name" (ptrString (User_DisplayName user));
          do _ <- tf_Set "given_name" (ptrString (User_GivenName user));
          do _ <- tf_Set "job_title" (ptrString (User_JobTitle user));
          do _ <- tf_Set "mail" (ptrString (User_Mail user));
          do _ <- tf_Set "mail_nickname" (ptrString (User_MailNickname user));
          do _ <- tf_Set "mobile_phone" (ptrString (User_MobilePhone user));
          do _ <- tf_Set "object_id" (ptrString (User_ID user));
          do _ <- tf_Set "office_location" (ptrString (User_OfficeLocation user));
          do _ <- tf_Set "onpremises_immutable_id" (ptrString (User_OnPremisesImmutableId user));
          do _ <- tf_Set "onpremises_sam_account_name"
                    (ptrString (User_OnPremisesSamAccountName user));
          do _ <- tf_Set "onpremises_user_principal_name"
                    (ptrString (User_OnPremisesUserPrincipalName user));
          do _ <- tf_Set "postal_code" (ptrString (User_PostalCode user));
          do _ <- tf_Set "state" (ptrString (User_State user));
          do _ <- tf_Set "street_address" (ptrString (User_StreetAddress user));
          do _ <- tf_Set "surname" (ptrString (User_Surname user));
          do _ <- tf_Set "usage_location" (ptrString (User_UsageLocation user));
          do _ <- tf_Set "user_principal_name" (ptrString (User_UserPrincipalName user));
          do _ <- tf_Set "user_type" (ptrString (User_UserType user));
          ret []
      end
  end.
End DataSource.
End UserDataSource.

Module ApplicationPlan.

(** The errors that the plan-time check of an application returns: the
    search failed, a match has no object ID, a duplicate must be imported
    ([tf.ImportAsDuplicateError]), or the roles and scopes do not validate. *)
Inductive CustomizeDiffError : Type :=
| CouldNotCheckExisting (err : error)
| NilObjectIDInCheck
| ImportAsDuplicateError (resourceName id name : string)
| InvalidRolesScopes (err : error).

Section Plan.
Context {W : Type}.
Variable applicationFindByName :
  string -> Helper W (option (list Application) * option error).
(** [applicationValidateRolesScopes], given the roles and the scopes of the
    plan. *)
Variable applicationValidateRolesScopes : Value -> Value -> option error.

(** The loop over the applications found under the new display name. *)
Fixpoint customizeDiffLoop (diffId newDisplayName : string) (result : list Application)
  : option CustomizeDiffError :=
  match result with
  | [] => None
  | existingApp :: rest =>
      match App_ID existingApp with
      | None => Some NilObjectIDInCheck
      | Some existingId =>
          if String.eqb diffId "" || String.eqb diffId existingId then
            Some (ImportAsDuplicateError "azuread_application" existingId newDisplayName)
          else customizeDiffLoop diffId newDisplayName rest
      end
  end.

(** Whether the plan-time check searches the directory: the guard is on
    and the display name is new or changed. *)
Definition searchesAtPlanTime (diff : ResourceData) : bool :=
  rd_GetBool diff "prevent_duplicate_names"
  && (String.eqb (rd_GetOldString diff "display_name") ""
      || negb (String.eqb (rd_GetOldString diff "display_name")
                 (rd_GetString diff "display_name"))).

Definition validateRolesScopes (diff : ResourceData) : option CustomizeDiffError :=
  match applicationValidateRolesScopes (rd_Get diff "app_role")
          (rd_GetPath diff "api" [Idx 0; Attr "oauth2_permission_scope"]) with
  | Some err => Some (InvalidRolesScopes err)
  | None => None
  end.

Definition applicationResourceCustomizeDiff (diff : ResourceData)
  : Prog (Remote W) (option CustomizeDiffError) :=
  let newDisplayName := rd_GetString diff "display_name" in
  do dup <-
    (if searchesAtPlanTime diff then
       do '(result, err) <- runHelper (applicationFindByName newDisplayName);
       match err with
       | Some e => ret (Some (CouldNotCheckExisting e))
       | None =>
           match result with
           | Some l => ret (customizeDiffLoop (rd_id diff) newDisplayName l)
           | None => ret None
           end
       end
     else ret None);
  match dup with
  | Some e => ret (Some e)
  | None => ret (validateRolesScopes diff)
  end.
End Plan.
End ApplicationPlan.

(** [strings.Contains(s, c)] negated, for one byte. *)
Fixpoint lacksChar (c : ascii) (s : string) : bool :=
  match s with
  | EmptyString => true
  | String x rest => negb (Ascii.eqb x c) && lacksChar c rest
  end.

(** The mail nickname that Create sends is the configured one, or else
    the part of the user principal name before its first [@]. *)
Definition isCreateNickname (d : ResourceData) (nick : string) : Prop :=
  (rd_GetString d "mail_nickname" <> "" /\ nick = rd_GetString d "mail_nickname") \/
  (rd_GetString d "mail_nickname" = "" /\ lacksChar "@" nick = true /\
   (rd_GetString d "user_principal_name" = nick \/
    exists t, rd_GetString d "user_principal_name" = nick +:+ String "@" t)).

(** One set of filters of the domains data source is at least as strict as
    another: every filter that is on in the second is on in the first, and
    every service the second asks for is asked for by the first. *)
Definition stricterFilters (f' f : Domains.Filters) : Prop :=
  (Domains.adminManaged f = true -> Domains.adminManaged f' = true) /\
  (Domains.onlyDefault f = true -> Domains.onlyDefault f' = true) /\
  (Domains.onlyInitial f = true -> Domains.onlyInitial f' = true) /\
  (Domains.onlyRoot f = true -> Domains.onlyRoot f' = true) /\
  (Domains.includeUnverified f' = true -> Domains.includeUnverified f = true) /\
  (forall s, In s (Domains.supportsServices f) -> In s (Domains.supportsServices f')).

(** ** Sample directories

    Small clients and resource data on which the functions can be run. *)

Module Samples.

Definition sampleId : string := "11111111-1111-1111-1111-111111111111".

Definition sampleData : ResourceData :=
  {| rd_id := sampleId; rd_state := ∅; rd_attrs := ∅ |}.

Definition emptyRemote : Remote unit := mkRemote tt [].

(** Directories in which every call fails with the given status. *)
Definition failingApplications (st : Z) (e : error) : ApplicationsClient unit :=
  {| Applications_Get := fun _ w => ((None, st, Some e), w);
     Applications_List := fun _ w => ((None, st, Some e), w);
     Applications_Create := fun _ w => ((None, st, Some e), w);
     Applications_Update := fun _ w => ((st, Some e), w);
     Applications_Delete := fun _ w => ((st, Some e), w);
     Applications_ListOwners := fun _ w => ((None, st, Some e), w);
     Applications_AddOwners := fun _ _ w => ((st, Some e), w);
     Applications_RemoveOwners := fun _ _ w => ((st, Some e), w);
     Applications_AddPassword := fun _ _ w => ((None, st, Some e), w);
     Applications_RemovePassword := fun _ _ w => ((st, Some e), w) |}.

Definition failingUsers (st : Z) (e : error) : UsersClient unit :=
  {| Users_Get := fun _ w => ((None, st, Some e), w);
     Users_Update := fun _ w => ((st, Some e), w);
     Users_Delete := fun _ w => ((st, Some e), w) |}.

Definition failingRequests (st : Z) (e : error) : AccessPackageResourceRequestClient unit :=
  {| APRR_Get := fun _ w => ((None, st, Some e), w);
     APRR_Delete := fun _ w => ((st, Some e), w) |}.

(** A directory in which nothing exists: every call answers 404. *)
Definition goneApplications : ApplicationsClient unit :=
  failingApplications 404 "404 Not Found".
Definition goneUsers : UsersClient unit := failingUsers 404 "404 Not Found".
Definition goneRequests : AccessPackageResourceRequestClient unit :=
  failingRequests 404 "404 Not Found".

(** A directory that is out of order. *)
Definition downApplications : ApplicationsClient unit :=
  failingApplications 503 "503 Service Unavailable".
Definition downUsers : UsersClient unit := failingUsers 503 "503 Service Unavailable".
Definition downRequests : AccessPackageResourceRequestClient unit :=
  failingRequests 503 "503 Service Unavailable".

Definition sampleKeyId : string := "22222222-2222-2222-2222-222222222222".

(** The stored state of a password credential of the sample application. *)
Definition samplePasswordData : ResourceData :=
  {| rd_id := sampleId +:+ "/password/" +:+ sampleKeyId; rd_state := ∅; rd_attrs := ∅ |}.

(** A user whose city is the only attribute that differs from the state
    read last. *)
Definition cityChangedData : ResourceData :=
  {| rd_id := sampleId;
     rd_state := <["city" := VString "Paris"]> (<["display_name" := VString "Alice"]> ∅);
     rd_attrs := <["city" := VString "London"]> (<["display_name" := VString "Alice"]> ∅) |}.

(** A stored state of schema version 0, with its flat identifier. *)
Definition legacyState : gmap string Value :=
  <["value" := VString "secret"]> (<["id" := VString "abc123"]> ∅).

(** A small directory of applications: the world is the list of the
    applications that exist.  Every created application gets the same
    identifier. *)
Definition withID (id : string) (a : Application) : Application :=
  {| App_ID := Some id; App_AppId := App_AppId a; App_Api := App_Api a;
     App_AppRoles := App_AppRoles a; App_DisplayName := App_DisplayName a;
     App_IsFallbackPublicClient := App_IsFallbackPublicClient a;
     App_GroupMembershipClaims := App_GroupMembershipClaims a;
     App_IdentifierUris := App_IdentifierUris a;
     App_OptionalClaims := App_OptionalClaims a;
     App_RequiredResourceAccess := App_RequiredResourceAccess a;
     App_SignInAudience := App_SignInAudience a; App_Web := App_Web a;
     App_PasswordCredentials := App_PasswordCredentials a |}.

Definition hasID (id : string) (a : Application) : bool :=
  match App_ID a with
  | Some i => String.eqb i id
  | None => false
  end.

Definition directory : ApplicationsClient (list Application) :=
  {| Applications_Get := fun id w =>
       match List.find (hasID id) w with
       | Some a => ((Some a, 200, None), w)
       | None => ((None, 404, Some "404 Not Found"), w)
       end;
     Applications_List := fun _ w => ((Some w, 200, None), w);
     Applications_Create := fun a w =>
       ((Some (withID sampleId a), 201, None), withID sampleId a :: w);
     Applications_Update := fun a w =>
       match App_ID a with
       | Some id =>
           if existsb (hasID id) w
           then ((204, None), map (fun x => if hasID id x then a else x) w)
           else ((404, Some "404 Not Found"), w)
       | None => ((400, Some "400 Bad Request"), w)
       end;
     Applications_Delete := fun id w =>
       if existsb (hasID id) w
       then ((204, None), List.filter (fun x => negb (hasID id x)) w)
       else ((404, Some "404 Not Found"), w);
     Applications_ListOwners := fun _ w => ((Some [], 200, None), w);
     Applications_AddOwners := fun _ _ w => ((403, Some "403 Forbidden"), w);
     Applications_RemoveOwners := fun _ _ w => ((204, None), w);
     Applications_AddPassword := fun _ c w =>
       ((Some {| Cred_DisplayName := Cred_DisplayName c;
                 Cred_StartDateTime := Cred_StartDateTime c;
                 Cred_EndDateTime := Cred_EndDateTime c;
                 Cred_KeyId := Some sampleKeyId;
                 Cred_SecretText := Some "secret" |}, 200, None), w);
     Applications_RemovePassword := fun _ _ w => ((204, None), w) |}.

Definition emptyDirectory : Remote (list Application) := mkRemote [] [].

(** An application as the service may return it, without identifier. *)
Definition anonymousApplication : Application :=
  {| App_ID := None; App_AppId := None; App_Api := None; App_AppRoles := None;
     App_DisplayName := Some "app"; App_IsFallbackPublicClient := None;
     App_GroupMembershipClaims := None; App_IdentifierUris := None;
     App_OptionalClaims := None; App_RequiredResourceAccess := None;
     App_SignInAudience := ""; App_Web := None; App_PasswordCredentials := None |}.

Definition otherId : string := "33333333-3333-3333-3333-333333333333".

(** Searches by display name with a fixed answer. *)
Definition findAnonymous {W : Type} (_ : string)
  : Helper W (option (list Application) * option error) :=
  fun w => (Ret (Some [anonymousApplication], None), w, []).

Definition findAnonymousThenOther {W : Type} (_ : string)
  : Helper W (option (list Application) * option error) :=
  fun w => (Ret (Some [anonymousApplication; withID otherId anonymousApplication], None),
            w, []).

Definition findOther {W : Type} (_ : string)
  : Helper W (option (list Application) * option error) :=
  fun w => (Ret (Some [withID sampleId anonymousApplication;
                       withID otherId anonymousApplication], None), w, []).

(** Follow-up writes of the owners that fail, and that do nothing. *)
Definition ownersForbidden {W : Type} (app : Application) (_ : list string)
  : Helper W (option error) :=
  fun w => (Ret (Some "403 Forbidden"), w,
            [ECall (ApplicationsListOwners (default "" (App_ID app)))]).

Definition ownersUntouched {W : Type} (_ : Application) (_ : list string)
  : Helper W (option error) :=
  fun w => (Ret None, w, []).

(** Disabling steps that have nothing to do. *)
Definition nothingToDisable {W A : Type} (_ : Application) (_ : option (list A))
  : Helper W (option error) :=
  fun w => (Ret None, w, []).

(** The planned data of an application that does not exist yet. *)
Definition plannedData : ResourceData :=
  {| rd_id := ""; rd_state := ∅;
     rd_attrs := <["display_name" := VString "app"]> ∅ |}.

(** An application named "app", with and without the duplicate name
    guard. *)
Definition guardedData : ResourceData :=
  {| rd_id := sampleId; rd_state := ∅;
     rd_attrs := <["prevent_duplicate_names" := VBool true]>
                   (<["display_name" := VString "app"]> ∅) |}.

Definition unguardedData : ResourceData :=
  {| rd_id := sampleId; rd_state := ∅;
     rd_attrs := <["display_name" := VString "app"]> ∅ |}.

(** A role that exists remotely and is enabled. *)
Definition readerRole : AppRole :=
  {| AppRole_ID := Some "44444444-4444-4444-4444-444444444444";
     AppRole_AllowedMemberTypes := Some ["User"];
     AppRole_Description := Some "Readers";
     AppRole_DisplayName := Some "Reader";
     AppRole_IsEnabled := Some true;
     AppRole_Value := Some "v1" |}.

(** The sample application as it exists remotely, with that role. *)
Definition remoteApplication : Application :=
  {| App_ID := Some sampleId; App_AppId := None; App_Api := None;
     App_AppRoles := Some [readerRole]; App_DisplayName := Some "app";
     App_IsFallbackPublicClient := None; App_GroupMembershipClaims := None;
     App_IdentifierUris := None; App_OptionalClaims := None;
     App_RequiredResourceAccess := None; App_SignInAudience := "";
     App_Web := None; App_PasswordCredentials := None |}.

Definition oneApplication : Remote (list Application) :=
  mkRemote [remoteApplication] [].

(** A credential built from the configuration. *)
Definition sampleCredential (_ : ResourceData)
  : option PasswordCredential * option (error * option string) :=
  (Some {| Cred_DisplayName := Some "ci"; Cred_StartDateTime := None;
           Cred_EndDateTime := None; Cred_KeyId := None; Cred_SecretText := None |},
   None).

(** The planned data of a password of the sample application. *)
Definition plannedPasswordData : ResourceData :=
  {| rd_id := ""; rd_state := ∅;
     rd_attrs := <["application_object_id" := VString sampleId]> ∅ |}.

(** A tenant with a verified domain, an unverified one, one whose
    verification is unknown, and a record without identifier. *)
Definition domainNamed (id : option string) (verified : option bool) : Domain :=
  {| Domain_ID := id; Domain_AuthenticationType := Some "Managed";
     Domain_IsAdminManaged := None; Domain_IsDefault := None;
     Domain_IsInitial := None; Domain_IsRoot := None;
     Domain_IsVerified := verified; Domain_SupportedServices := None |}.

Definition tenantDomains : list Domain :=
  [domainNamed (Some "contoso.com") (Some true);
   domainNamed (Some "pending.example") (Some false);
   domainNamed (Some "unknown.example") None;
   domainNamed None (Some true)].

Definition sampleDomains : DomainsClient unit :=
  {| Domains_TenantId := "tenant";
     Domains_List := fun w => ((Some tenantDomains, 200, None), w) |}.

(** Conversions that drop everything. *)
Definition noConversions : Applications.Conversions :=
  {| Applications.expandApplicationApi := fun _ => None;
     Applications.expandApplicationAppRoles := fun _ => None;
     Applications.expandApplicationOAuth2PermissionScope := fun _ => None;
     Applications.expandApplicationGroupMembershipClaims := fun _ => None;
     Applications.expandApplicationOptionalClaims := fun _ => None;
     Applications.expandApplicationRequiredResourceAccess := fun _ => None;
     Applications.expandApplicationWeb := fun _ => None;
     Applications.flattenApplicationApi := fun _ _ => VNil;
     Applications.flattenApplicationAppRoles := fun _ => VNil;
     Applications.flattenApplicationGroupMembershipClaims := fun _ => VNil;
     Applications.flattenApplicationOptionalClaims := fun _ => VNil;
     Applications.flattenApplicationRequiredResourceAccess := fun _ => VNil;
     Applications.flattenApplicationWeb := fun _ _ _ => VNil |}.

End Samples.

(** ** Further samples *)

Module MoreSamples.
Import Samples.

(** Only verified domains that are admin managed and support e-mail, and
    no restriction at all. *)
Definition strictFilters : Domains.Filters :=
  {| Domains.adminManaged := true; Domains.onlyDefault := false;
     Domains.onlyInitial := false; Domains.onlyRoot := false;
     Domains.includeUnverified := false; Domains.supportsServices := ["Email"] |}.

Definition laxFilters : Domains.Filters :=
  {| Domains.adminManaged := false; Domains.onlyDefault := false;
     Domains.onlyInitial := false; Domains.onlyRoot := false;
     Domains.includeUnverified := true; Domains.supportsServices := [] |}.

(** A domain that supports e-mail only. *)
Definition mailDomain : Domain :=
  {| Domain_ID := Some "mail.example"; Domain_AuthenticationType := None;
     Domain_IsAdminManaged := Some true; Domain_IsDefault := None;
     Domain_IsInitial := None; Domain_IsRoot := None;
     Domain_IsVerified := Some true; Domain_SupportedServices := Some ["Email"] |}.


(** A small directory of users: the world is the list of the users that
    exist.  Every created user is Alice. *)
Definition alice : User :=
  {| User_ID := Some sampleId; User_AccountEnabled := Some true;
     User_City := Some "Paris"; User_CompanyName := None; User_Country := None;
     User_Department := None; User_DisplayName := Some "Alice";
     User_GivenName := None; User_JobTitle := None; User_Mail := None;
     User_MailNickname := Some "alice"; User_MobilePhone := None;
     User_OfficeLocation := None; User_OnPremisesImmutableId := None;
     User_OnPremisesSamAccountName := None;
     User_OnPremisesUserPrincipalName := None; User_PostalCode := None;
     User_State := None; User_StreetAddress := None; User_Surname := None;
     User_UsageLocation := None;
     User_UserPrincipalName := Some "alice@example.com";
     User_UserType := Some "Member"; User_PasswordProfile := None |}.

Definition userHasID (id : string) (u : User) : bool :=
  match User_ID u with
  | Some i => String.eqb i id
  | None => false
  end.

Definition userStore : UsersClient (list User) :=
  {| Users_Get := fun id w =>
       match List.find (userHasID id) w with
       | Some u => ((Some u, 200, None), w)
       | None => ((None, 404, Some "404 Not Found"), w)
       end;
     Users_Update := fun _ w => ((204, None), w);
     Users_Delete := fun id w =>
       if existsb (userHasID id) w
       then ((204, None), List.filter (fun x => negb (userHasID id x)) w)
       else ((404, Some "404 Not Found"), w) |}.

Definition userDirectory : UsersDirectoryClient (list User) :=
  {| Users_Create := fun _ w => ((Some alice, 201, None), alice :: w);
     Users_List := fun _ w => ((Some w, 200, None), w) |}.

Definition noUsers : Remote (list User) := mkRemote [] [].
Definition oneUser : Remote (list User) := mkRemote [alice] [].

(** The planned data of a user that does not exist yet. *)
Definition plannedUser : ResourceData :=
  {| rd_id := ""; rd_state := ∅;
     rd_attrs := <["user_principal_name" := VString "alice@example.com"]>
                   (<["display_name" := VString "Alice"]>
                      (<["password" := VString "pw"]> ∅)) |}.

(** A directory of access package resource requests in which every
    request exists and can be deleted. *)
Definition sampleRequest : AccessPackageResourceRequest :=
  {| APRR_CatalogId := Some "catalog"; APRR_ExpirationDateTime := None;
     APRR_ID := Some sampleId; APRR_IsValidationOnly := Some false;
     APRR_Justification := None; APRR_RequestState := Some "Delivered";
     APRR_RequestStatus := Some "Fulfilled"; APRR_RequestType := Some "AdminAdd" |}.

Definition requestStore : AccessPackageResourceRequestClient unit :=
  {| APRR_Get := fun _ w => ((Some sampleRequest, 200, None), w);
     APRR_Delete := fun _ w => ((204, None), w) |}.


(** A data source configured with a mail nickname only. *)
Definition byNickname : ResourceData :=
  {| rd_id := ""; rd_state := ∅;
     rd_attrs := <["mail_nickname" := VString "bob"]> ∅ |}.


(** The plan of a new application named "app" with the duplicate name
    guard on, and a validation of roles and scopes that accepts
    everything. *)
Definition guardedPlan : ResourceData :=
  {| rd_id := ""; rd_state := ∅;
     rd_attrs := <["prevent_duplicate_names" := VBool true]>
                   (<["display_name" := VString "app"]> ∅) |}.

Definition rolesScopesValid (_ _ : Value) : option error := None.

(** A search by display name that finds one other application. *)
Definition findOneOther {W : Type} (_ : string)
  : Helper W (option (list Application) * option error) :=
  fun w => (Ret (Some [withID otherId anonymousApplication], None), w, []).


(** The sample application with two passwords, and the stored state of
    the second one. *)
Definition firstPassword : PasswordCredential :=
  {| Cred_DisplayName := Some "old"; Cred_StartDateTime := Some "2020-01-01T00:00:00Z";
     Cred_EndDateTime := Some "2021-01-01T00:00:00Z"; Cred_KeyId := Some otherId;
     Cred_SecretText := None |}.

Definition secondPassword : PasswordCredential :=
  {| Cred_DisplayName := Some "ci"; Cred_StartDateTime := Some "2021-01-01T00:00:00Z";
     Cred_EndDateTime := None; Cred_KeyId := Some sampleKeyId;
     Cred_SecretText := None |}.

Definition applicationWithPasswords : Application :=
  {| App_ID := Some sampleId; App_AppId := None; App_Api := None;
     App_AppRoles := None; App_DisplayName := Some "app";
     App_IsFallbackPublicClient := None; App_GroupMembershipClaims := None;
     App_IdentifierUris := None; App_OptionalClaims := None;
     App_RequiredResourceAccess := None; App_SignInAudience := "";
     App_Web := None;
     App_PasswordCredentials := Some [firstPassword; secondPassword] |}.

Definition withPasswords : Remote (list Application) :=
  mkRemote [applicationWithPasswords] [].

Definition storedPassword : ResourceData :=
  {| rd_id := sampleId +:+ "/password/" +:+ sampleKeyId; rd_state := ∅;
     rd_attrs := <["value" := VString "secret"]> ∅ |}.

End MoreSamples.

(** * Properties *)

(** Runs a program of the embedding on an explicit state. *)
Ltac run_prog :=
  repeat match goal with
         | r : Remote _ |- _ => destruct r as [? ?]; simpl in *
         end;
  cbv beta iota zeta delta
    [bind ret lift call getD SetId modifyD tf_Set emit deref panic
     LockByName UnlockByName defer runHelper asHelper after];
  simpl.

(** ** Domains data source *)

Module DomainsFacts.
Import Domains.

Lemma excluded_test (filterOn : bool) (field : option bool) :
  filterOn && presentAndFalse field = true <-> excludedBy filterOn field.
Proof.
  unfold excludedBy, presentAndFalse.
  destruct filterOn, field as [[|]|]; simpl; split; intros H;
    try discriminate; try (destruct H; discriminate); auto.
Qed.

Lemma not_excluded_test (filterOn : bool) (field : option bool) :
  ~ excludedBy filterOn field -> filterOn && presentAndFalse field = false.
Proof.
  intros H. destruct (filterOn && presentAndFalse field) eqn:E; [|reflexivity].
  apply excluded_test in E. contradiction.
Qed.

Lemma domainsStep_passes f acc v :
  passesFilters f v ->
  domainsStep f acc v =
    match Domain_ID v with
    | Some id => (fst acc ++ [domainEntry v], snd acc ++ [id])
    | None => acc
    end.
Proof.
  intros (H1 & H2 & H3 & H4 & H5 & H6). unfold domainsStep.
  rewrite (not_excluded_test _ _ H1), (not_excluded_test _ _ H2),
    (not_excluded_test _ _ H3), (not_excluded_test _ _ H4),
    (not_excluded_test _ _ H5), H6.
  reflexivity.
Qed.

Lemma domainsStep_excluded f acc v :
  ~ passesFilters f v -> domainsStep f acc v = acc.
Proof.
  intros Hn. unfold domainsStep.
  destruct (adminManaged f && _) eqn:E1; [reflexivity|].
  destruct (onlyDefault f && _) eqn:E2; [reflexivity|].
  destruct (onlyInitial f && _) eqn:E3; [reflexivity|].
  destruct (onlyRoot f && _) eqn:E4; [reflexivity|].
  destruct (negb (includeUnverified f) && _) eqn:E5; [reflexivity|].
  destruct (skipServices f v) eqn:E6; [reflexivity|].
  exfalso. apply Hn. unfold passesFilters.
  repeat split; try assumption;
    intros Hx; apply excluded_test in Hx; congruence.
Qed.

Lemma domainsStep_listed f acc v :
  domainsStep f acc v =
    (fst acc ++ map domainEntry (listed f [v]),
     snd acc ++ omap Domain_ID (listed f [v])).
Proof.
  unfold listed. rewrite filter_cons, filter_nil.
  destruct (decide (passesFilters f v /\ is_Some (Domain_ID v))) as [[Hp [id Hid]]|Hn].
  - rewrite (domainsStep_passes _ _ _ Hp), Hid. simpl. rewrite Hid. reflexivity.
  - simpl. rewrite !app_nil_r.
    destruct (decide (passesFilters f v)) as [Hp|Hp].
    + rewrite (domainsStep_passes _ _ _ Hp).
      destruct (Domain_ID v) eqn:Hid; [|by destruct acc].
      exfalso. apply Hn. split; [assumption|]. eauto.
    + rewrite (domainsStep_excluded _ _ _ Hp). by destruct acc.
Qed.

Lemma fold_domainsStep f result : forall acc,
  fold_left (domainsStep f) result acc =
    (fst acc ++ map domainEntry (listed f result),
     snd acc ++ omap Domain_ID (listed f result)).
Proof.
  induction result as [|v rest IH]; intros acc.
  - simpl. rewrite !app_nil_r. by destruct acc.
  - simpl fold_left. rewrite IH, domainsStep_listed. simpl fst. simpl snd.
    unfold listed. rewrite (filter_cons _ v rest), filter_cons, filter_nil.
    destruct (decide _); simpl.
    + destruct (Domain_ID v) eqn:Hid; simpl; rewrite <- !app_assoc; reflexivity.
    + rewrite !app_nil_r. reflexivity.
Qed.

(** What the data source returns once the domains are listed. *)
Lemma domainsDataSourceRead_listed {W : Type} (client : DomainsClient W)
    (sha1_base64 : string -> string) d (w : W) tr l st w' :
  Domains_List client w = ((Some l, st, None), w') ->
  domainsDataSourceRead client sha1_base64 (mkSt d (mkRemote w tr)) =
    let kept := listed (readFilters d) l in
    let id := "domains#" +:+ Domains_TenantId client +:+ "#"
              +:+ sha1_base64 (strings_Join (omap Domain_ID kept) "/") in
    match kept with
    | [] =>
        (Ret [ErrorDiagF None "No domains found for the provided filters" []],
         mkSt d (mkRemote w' (tr ++ [ECall DomainsList])))
    | _ :: _ =>
        (Ret [],
         mkSt (rd_Set "domains" (VList (map domainEntry kept)) (rd_SetId id d))
           (mkRemote w' ((tr ++ [ECall DomainsList]) ++ [ESetId id])))
    end.
Proof.
  intros H. unfold domainsDataSourceRead. run_prog. rewrite H. simpl.
  unfold domainsLoop. rewrite fold_domainsStep. simpl.
  destruct (listed (readFilters d) l) as [|v kept]; reflexivity.
Qed.

(** C10. In the domains data source, each boolean filter ([admin_managed],
    [only_default], [only_initial], [only_root], and the verified check
    made when [include_unverified] is false) excludes a domain only when
    the corresponding field of the record is present and contradicts the
    filter; a nil field passes the filter; and the list that the data source
    returns holds, in order, exactly the records that pass the filters and
    have a non-nil ID. *)
Theorem domains_filters_exclude_only_present_false f result :
  domainsLoop f result =
    (map domainEntry (listed f result), omap Domain_ID (listed f result)) /\
  (forall v, v ∈ listed f result <->
             v ∈ result /\ passesFilters f v /\ is_Some (Domain_ID v)) /\
  (forall filterOn, ~ excludedBy filterOn None) /\
  (forall filterOn b, excludedBy filterOn (Some b) <-> filterOn = true /\ b = false) /\
  (forall (W : Type) (client : DomainsClient W) sha1_base64 d (r : Remote W) st w',
      readFilters d = f ->
      Domains_List client (world r) = ((Some result, st, None), w') ->
      let out := domainsDataSourceRead client sha1_base64 (mkSt d r) in
      match listed f result with
      | [] => exists ds, fst out = Ret ds /\ HasError ds = true
      | _ :: _ =>
          fst out = Ret [] /\
          rd_attrs (st_d (snd out)) !! "domains"
          = Some (VList (map domainEntry (listed f result)))
      end).
Proof.
  split; [|split; [|split; [|split]]].
  - unfold domainsLoop. rewrite fold_domainsStep. reflexivity.
  - intros v. unfold listed. rewrite list_elem_of_filter. tauto.
  - intros filterOn [_ H]. discriminate.
  - intros filterOn b. unfold excludedBy. split.
    + intros [H1 H2]. split; [assumption|congruence].
    + intros [H1 H2]. subst. auto.
  - intros W client sha1_base64 d [w tr] st w' <- Hl out. subst out.
    rewrite (domainsDataSourceRead_listed _ _ _ _ _ _ _ _ Hl). cbv zeta.
    destruct (listed (readFilters d) result) as [|v kept]; simpl.
    + eauto.
    + split; [reflexivity|]. unfold rd_Set. simpl. apply lookup_insert_eq.
Qed.

(** The sample tenant without any filter set: the unverified domain and the
    record without identifier are left out. *)
Lemma domains_filters_exclude_only_present_false_witness :
  let out := domainsDataSourceRead Samples.sampleDomains (fun names => names)
               (mkSt Samples.sampleData Samples.emptyRemote) in
  fst out = Ret [] /\
  rd_attrs (st_d (snd out)) !! "domains"
  = Some (VList [domainEntry (Samples.domainNamed (Some "contoso.com") (Some true));
                 domainEntry (Samples.domainNamed (Some "unknown.example") None)]).
Proof.
  destruct (domains_filters_exclude_only_present_false
              (readFilters Samples.sampleData) Samples.tenantDomains)
    as (_ & _ & _ & _ & H).
  exact (H unit Samples.sampleDomains (fun names => names) Samples.sampleData
           Samples.emptyRemote 200 tt eq_refl eq_refl).
Defined.
End DomainsFacts.

(** ** Read and Delete on a missing remote object *)


Module NotFoundFacts.
Section Facts.
Context {W : Type}.
Variable apps : ApplicationsClient W.
Variable conv : Applications.Conversions.
Variable users : UsersClient W.
Variable requests : AccessPackageResourceRequestClient W.

Lemma applicationResourceRead_get_failed d r a st e w' :
  Applications_Get apps (rd_id d) (world r) = ((a, st, Some e), w') ->
  Applications.applicationResourceRead apps conv (mkSt d r) =
    if st =? StatusNotFound then
      (Ret [], mkSt (rd_SetId "" d)
                 (mkRemote w' ((trace r ++ [ECall (ApplicationsGet (rd_id d))])
                               ++ [ESetId ""])))
    else
      (Ret [ErrorDiagPathF (Some e) "id" "Retrieving Application with object ID %q"
              [VString (rd_id d)]],
       mkSt d (after r (ApplicationsGet (rd_id d)) w')).
Proof.
  intros H. unfold Applications.applicationResourceRead, after. run_prog.
  rewrite H. simpl. destruct (st =? StatusNotFound); reflexivity.
Qed.

Lemma userResourceRead_get_failed d r u st e w' :
  Users_Get users (rd_id d) (world r) = ((u, st, Some e), w') ->
  Users.userResourceRead users (mkSt d r) =
    if st =? StatusNotFound then
      (Ret [], mkSt (rd_SetId "" d)
                 (mkRemote w' ((trace r ++ [ECall (UsersGet (rd_id d))]) ++ [ESetId ""])))
    else
      (Ret [ErrorDiagF (Some e) "Retrieving user with object ID: %q" [VString (rd_id d)]],
       mkSt d (after r (UsersGet (rd_id d)) w')).
Proof.
  intros H. unfold Users.userResourceRead, after. run_prog.
  rewrite H. simpl. destruct (st =? StatusNotFound); reflexivity.
Qed.

Lemma accessPackageResourceRequestResourceRead_get_failed d r a st e w' :
  APRR_Get requests (rd_id d) (world r) = ((a, st, Some e), w') ->
  IdentityGovernance.accessPackageResourceRequestResourceRead requests (mkSt d r) =
    if st =? StatusNotFound then
      (Ret [], mkSt (rd_SetId "" d)
                 (mkRemote w' ((trace r ++ [ECall (AccessPackageResourceRequestGet (rd_id d))])
                               ++ [ESetId ""])))
    else
      (Ret [ErrorDiagPathF (Some e) "id" "Retrieving AP ResourceRequest with object ID %q"
              [VString (rd_id d)]],
       mkSt d (after r (AccessPackageResourceRequestGet (rd_id d)) w')).
Proof.
  intros H. unfold IdentityGovernance.accessPackageResourceRequestResourceRead, after.
  run_prog. rewrite H. simpl. destruct (st =? StatusNotFound); reflexivity.
Qed.

Lemma applicationPasswordResourceRead_get_failed d r id a st e w' :
  Parse.PasswordID (rd_id d) = inl id ->
  Applications_Get apps (Parse.ObjectId id) (world r) = ((a, st, Some e), w') ->
  ApplicationPassword.applicationPasswordResourceRead apps (mkSt d r) =
    if st =? StatusNotFound then
      (Ret [], mkSt (rd_SetId "" d)
                 (mkRemote w' ((trace r ++ [ECall (ApplicationsGet (Parse.ObjectId id))])
                               ++ [ESetId ""])))
    else
      (Ret [ErrorDiagPathF (Some e) "application_object_id"
              "Retrieving application with object ID %q" [VString (Parse.ObjectId id)]],
       mkSt d (after r (ApplicationsGet (Parse.ObjectId id)) w')).
Proof.
  intros Hid H. unfold ApplicationPassword.applicationPasswordResourceRead, after.
  run_prog. rewrite Hid. simpl. rewrite H. simpl.
  destruct (st =? StatusNotFound); reflexivity.
Qed.

Lemma applicationResourceDelete_get_failed d r a st e w' :
  Applications_Get apps (rd_id d) (world r) = ((a, st, Some e), w') ->
  Applications.applicationResourceDelete apps (mkSt d r) =
    (Ret [ErrorDiagPathF
            (Some (if st =? StatusNotFound then "Application was not found" else e)) "id"
            (if st =? StatusNotFound then "Retrieving Application with object ID %q"
             else "Retrieving application with object ID %q")
            [VString (rd_id d)]],
     mkSt d (after r (ApplicationsGet (rd_id d)) w')).
Proof.
  intros H. unfold Applications.applicationResourceDelete, after. run_prog.
  rewrite H. simpl. destruct (st =? StatusNotFound); reflexivity.
Qed.

Lemma userResourceDelete_get_failed d r u st e w' :
  Users_Get users (rd_id d) (world r) = ((u, st, Some e), w') ->
  Users.userResourceDelete users (mkSt d r) =
    (Ret [ErrorDiagPathF
            (Some (if st =? StatusNotFound then "User was not found" else e)) "id"
            "Retrieving user with object ID %q" [VString (rd_id d)]],
     mkSt d (after r (UsersGet (rd_id d)) w')).
Proof.
  intros H. unfold Users.userResourceDelete, after. run_prog.
  rewrite H. simpl. destruct (st =? StatusNotFound); reflexivity.
Qed.

Lemma accessPackageResourceRequestResourceDelete_get_failed d r a st e w' :
  APRR_Get requests (rd_id d) (world r) = ((a, st, Some e), w') ->
  IdentityGovernance.accessPackageResourceRequestResourceDelete requests (mkSt d r) =
    (Ret (if st =? StatusNotFound then []
          else [ErrorDiagPathF (Some e) "id" "Retrieving AP ResourceRequest with ID %q"
                  [VString (rd_id d)]]),
     mkSt d (after r (AccessPackageResourceRequestGet (rd_id d)) w')).
Proof.
  intros H. unfold IdentityGovernance.accessPackageResourceRequestResourceDelete, after.
  run_prog. rewrite H. simpl. destruct (st =? StatusNotFound); reflexivity.
Qed.
End Facts.
End NotFoundFacts.

Module ReadDeleteClaims.
Import Samples NotFoundFacts.

Lemma ReadContract_intro {W : Type} (read : Prog (St W) Diagnostics) d r st
    (w' : W) (c : Call) (ds : Diagnostics) :
  HasError ds = true ->
  read (mkSt d r) =
    (if st =? StatusNotFound then
       (Ret [], mkSt (rd_SetId "" d) (mkRemote w' ((trace r ++ [ECall c]) ++ [ESetId ""])))
     else (Ret ds, mkSt d (after r c w'))) ->
  ReadContract read d r st.
Proof.
  intros Hds H. unfold ReadContract. cbv zeta. rewrite H. split.
  - intros ->. rewrite Z.eqb_refl. simpl. auto.
  - intros Hne. apply Z.eqb_neq in Hne. rewrite Hne. simpl. eauto.
Qed.

(** C3. For every resource type, when the Get call of Read fails with
    HTTP 404, Read returns no error and clears the stored identity; when it
    fails with any other status, Read returns an error and leaves the
    resource data, hence the identity, unchanged. *)
Theorem read_not_found_clears_identity {W : Type}
    (apps : ApplicationsClient W) (conv : Applications.Conversions)
    (users : UsersClient W) (requests : AccessPackageResourceRequestClient W)
    (d : ResourceData) (r : Remote W) :
  (forall a st e w',
      Applications_Get apps (rd_id d) (world r) = ((a, st, Some e), w') ->
      ReadContract (Applications.applicationResourceRead apps conv) d r st) /\
  (forall u st e w',
      Users_Get users (rd_id d) (world r) = ((u, st, Some e), w') ->
      ReadContract (Users.userResourceRead users) d r st) /\
  (forall a st e w',
      APRR_Get requests (rd_id d) (world r) = ((a, st, Some e), w') ->
      ReadContract
        (IdentityGovernance.accessPackageResourceRequestResourceRead requests) d r st) /\
  (forall id a st e w',
      Parse.PasswordID (rd_id d) = inl id ->
      Applications_Get apps (Parse.ObjectId id) (world r) = ((a, st, Some e), w') ->
      ReadContract (ApplicationPassword.applicationPasswordResourceRead apps) d r st).
Proof.
  refine (conj _ (conj _ (conj _ _))); intros.
  - eapply ReadContract_intro with (w' := w');
      [|eapply applicationResourceRead_get_failed; eassumption]; reflexivity.
  - eapply ReadContract_intro with (w' := w');
      [|eapply userResourceRead_get_failed; eassumption]; reflexivity.
  - eapply ReadContract_intro with (w' := w');
      [|eapply accessPackageResourceRequestResourceRead_get_failed; eassumption];
      reflexivity.
  - eapply ReadContract_intro with (w' := w');
      [|eapply applicationPasswordResourceRead_get_failed; eassumption]; reflexivity.
Qed.

(** The four Read functions on a directory that answers 404, and the
    application Read on a directory that is out of order. *)
Lemma read_not_found_clears_identity_witness :
  ReadContract (Applications.applicationResourceRead goneApplications noConversions)
    sampleData emptyRemote 404 /\
  ReadContract (Users.userResourceRead goneUsers) sampleData emptyRemote 404 /\
  ReadContract (IdentityGovernance.accessPackageResourceRequestResourceRead goneRequests)
    sampleData emptyRemote 404 /\
  ReadContract (ApplicationPassword.applicationPasswordResourceRead goneApplications)
    samplePasswordData emptyRemote 404 /\
  ReadContract (Applications.applicationResourceRead downApplications noConversions)
    sampleData emptyRemote 503.
Proof.
  destruct (read_not_found_clears_identity goneApplications noConversions goneUsers
              goneRequests sampleData emptyRemote) as (Ha & Hu & Hr & _).
  destruct (read_not_found_clears_identity goneApplications noConversions goneUsers
              goneRequests samplePasswordData emptyRemote) as (_ & _ & _ & Hp).
  destruct (read_not_found_clears_identity downApplications noConversions downUsers
              downRequests sampleData emptyRemote) as (Hd & _).
  split; [exact (Ha None 404 "404 Not Found" tt eq_refl)|].
  split; [exact (Hu None 404 "404 Not Found" tt eq_refl)|].
  split; [exact (Hr None 404 "404 Not Found" tt eq_refl)|].
  split; [exact (Hp (Parse.NewCredentialID sampleId "password" sampleKeyId)
                   None 404 "404 Not Found" tt eq_refl eq_refl)|].
  exact (Hd None 503 "503 Service Unavailable" tt eq_refl).
Defined.

(** Delete of an application whose Get answers 404 returns an error. *)
Lemma application_delete_not_found_fails :
  fst (Applications_Get goneApplications (rd_id sampleData) tt)
    = (None, StatusNotFound, Some "404 Not Found") /\
  fst (Applications.applicationResourceDelete goneApplications (mkSt sampleData emptyRemote))
    = Ret [ErrorDiagPathF (Some "Application was not found") "id"
             "Retrieving Application with object ID %q" [VString sampleId]] /\
  HasError [ErrorDiagPathF (Some "Application was not found") "id"
              "Retrieving Application with object ID %q" [VString sampleId]] = true.
Proof. repeat split. Qed.

(** C1, amended. When the Get call that opens Delete fails with HTTP 404,
    Delete of an access package resource request succeeds as a no-op: it
    returns no error, leaves the resource data alone and makes no further
    call.  Delete of an application or of a user returns a "was not found"
    error instead, also without any further call. *)
Theorem delete_on_not_found {W : Type}
    (apps : ApplicationsClient W) (users : UsersClient W)
    (requests : AccessPackageResourceRequestClient W)
    (d : ResourceData) (r : Remote W) :
  (forall a e w',
      APRR_Get requests (rd_id d) (world r) = ((a, StatusNotFound, Some e), w') ->
      IdentityGovernance.accessPackageResourceRequestResourceDelete requests (mkSt d r)
      = (Ret [], mkSt d (after r (AccessPackageResourceRequestGet (rd_id d)) w'))) /\
  (forall a e w',
      Applications_Get apps (rd_id d) (world r) = ((a, StatusNotFound, Some e), w') ->
      Applications.applicationResourceDelete apps (mkSt d r)
      = (Ret [ErrorDiagPathF (Some "Application was not found") "id"
                "Retrieving Application with object ID %q" [VString (rd_id d)]],
         mkSt d (after r (ApplicationsGet (rd_id d)) w'))) /\
  (forall u e w',
      Users_Get users (rd_id d) (world r) = ((u, StatusNotFound, Some e), w') ->
      Users.userResourceDelete users (mkSt d r)
      = (Ret [ErrorDiagPathF (Some "User was not found") "id"
                "Retrieving user with object ID %q" [VString (rd_id d)]],
         mkSt d (after r (UsersGet (rd_id d)) w'))).
Proof.
  repeat split; intros.
  - erewrite accessPackageResourceRequestResourceDelete_get_failed by eassumption.
    reflexivity.
  - erewrite applicationResourceDelete_get_failed by eassumption. reflexivity.
  - erewrite userResourceDelete_get_failed by eassumption. reflexivity.
Qed.

Lemma delete_on_not_found_witness :
  IdentityGovernance.accessPackageResourceRequestResourceDelete goneRequests
    (mkSt sampleData emptyRemote)
  = (Ret [], mkSt sampleData
               (after emptyRemote (AccessPackageResourceRequestGet sampleId) tt)) /\
  HasError
    (match fst (Applications.applicationResourceDelete goneApplications
                  (mkSt sampleData emptyRemote)) with
     | Ret ds => ds
     | Panic => []
     end) = true /\
  HasError
    (match fst (Users.userResourceDelete goneUsers (mkSt sampleData emptyRemote)) with
     | Ret ds => ds
     | Panic => []
     end) = true.
Proof.
  destruct (delete_on_not_found goneApplications goneUsers goneRequests
              sampleData emptyRemote) as (Hr & Ha & Hu).
  split; [exact (Hr None "404 Not Found" tt eq_refl)|].
  split.
  - rewrite (Ha None "404 Not Found" tt eq_refl). reflexivity.
  - rewrite (Hu None "404 Not Found" tt eq_refl). reflexivity.
Defined.
End ReadDeleteClaims.

(** ** Identifier codec *)

Module ParseFacts.
Import Parse.

Lemma split_nonempty sep s : strings_Split sep s <> [].
Proof.
  destruct s as [|c s]; simpl; [discriminate|].
  destruct (Ascii.eqb c sep); [discriminate|].
  destruct (strings_Split sep s); discriminate.
Qed.

Lemma split_noSeparator s :
  noSeparator s = true -> strings_Split separator s = [s].
Proof.
  induction s as [|c s IH]; simpl; [reflexivity|].
  intros H. apply andb_prop in H as [Hc Hs].
  apply negb_true_iff in Hc. rewrite Hc, (IH Hs). reflexivity.
Qed.

Lemma split_append p rest :
  noSeparator p = true ->
  strings_Split separator (p +:+ String separator rest)
  = p :: strings_Split separator rest.
Proof.
  induction p as [|c p IH]; simpl.
  - intros _. reflexivity.
  - intros H. apply andb_prop in H as [Hc Hp].
    apply negb_true_iff in Hc. rewrite Hc, (IH Hp). reflexivity.
Qed.

(** What a split says about the string it came from. *)
Lemma split_cons_inv s : forall a l,
  strings_Split separator s = a :: l ->
  noSeparator a = true /\
  match l with
  | [] => s = a
  | b :: l' =>
      exists rest, s = a +:+ String separator rest /\
                   strings_Split separator rest = b :: l'
  end.
Proof.
  induction s as [|c s IH]; intros a l; simpl.
  - intros [= <- <-]. auto.
  - destruct (Ascii.eqb c separator) eqn:Hc.
    + apply Ascii.eqb_eq in Hc. subst c. intros [= <- <-]. split; [reflexivity|].
      destruct (strings_Split separator s) as [|b l'] eqn:Hs.
      * exfalso. exact (split_nonempty _ _ Hs).
      * exists s. auto.
    + destruct (strings_Split separator s) as [|p ps] eqn:Hs.
      * exfalso. exact (split_nonempty _ _ Hs).
      * intros [= <- <-]. destruct (IH p ps eq_refl) as [Hp Hrest].
        split; [simpl; rewrite Hc, Hp; reflexivity|].
        destruct ps as [|b l'].
        -- congruence.
        -- destruct Hrest as (rest & -> & Hr). exists rest. auto.
Qed.

Lemma validField_noSeparator s : validField s = true -> noSeparator s = true.
Proof. unfold validField. intros H. apply andb_prop in H. tauto. Qed.

Lemma validKind_cases k : validKind k = true -> k = "password" \/ k = "key".
Proof.
  unfold validKind, knownKinds. simpl. intros H.
  apply orb_prop in H as [H|H]; [left; apply String.eqb_eq; exact H|].
  apply orb_prop in H as [H|H]; [right; apply String.eqb_eq; exact H|discriminate].
Qed.

Lemma validKind_noSeparator k : validKind k = true -> noSeparator k = true.
Proof. intros H. destruct (validKind_cases _ H) as [-> | ->]; reflexivity. Qed.

Lemma CredentialId_String_eq id :
  CredentialId_String id
  = ObjectId id +:+ String separator (KeyType id +:+ String separator (KeyId id)).
Proof. reflexivity. Qed.

Lemma CredentialID_encode objectId keyType keyId :
  validField objectId = true -> validKind keyType = true -> validField keyId = true ->
  CredentialID (CredentialId_String (NewCredentialID objectId keyType keyId))
  = inl (NewCredentialID objectId keyType keyId).
Proof.
  intros Ho Hk Hi. unfold CredentialID. rewrite CredentialId_String_eq. simpl.
  rewrite (split_append _ _ (validField_noSeparator _ Ho)).
  rewrite (split_append _ _ (validKind_noSeparator _ Hk)).
  rewrite (split_noSeparator _ (validField_noSeparator _ Hi)).
  rewrite Ho, Hk, Hi. reflexivity.
Qed.

Lemma CredentialID_decode x id :
  CredentialID x = inl id ->
  CredentialId_String id = x /\
  validField (ObjectId id) = true /\ validKind (KeyType id) = true /\
  validField (KeyId id) = true.
Proof.
  unfold CredentialID.
  destruct (strings_Split separator x) as [|a [|b [|c [|? ?]]]] eqn:Hs;
    try discriminate.
  destruct (validField a) eqn:Ha; [|discriminate].
  destruct (validKind b) eqn:Hb; [|discriminate].
  destruct (validField c) eqn:Hc; [|discriminate].
  simpl. intros [= <-]. simpl. repeat split; try assumption.
  apply split_cons_inv in Hs as [_ (r1 & -> & Hs)].
  apply split_cons_inv in Hs as [_ (r2 & -> & Hs)].
  apply split_cons_inv in Hs as [_ ->].
  reflexivity.
Qed.

Lemma CredentialID_error x e : CredentialID x = inr e -> e = MalformedIdentifier x.
Proof.
  unfold CredentialID.
  destruct (strings_Split separator x) as [|a [|b [|c [|? ?]]]];
    try (intros [= <-]; reflexivity).
  destruct (_ && _); [discriminate|]. intros [= <-]. reflexivity.
Qed.

(** C8. The Identifier Codec round-trips: decoding the encoding of a
    valid triple of parent ID, kind and key ID gives the triple back;
    encoding what was decoded gives the identifier back; and decoding
    fails with a parse error on every string that is not the encoding of a
    valid triple.  The password decoder used by the application password
    resource reads back what its Create stores. *)
Theorem credential_id_round_trip :
  (forall objectId keyType keyId,
      validField objectId = true -> validKind keyType = true ->
      validField keyId = true ->
      CredentialID (CredentialId_String (NewCredentialID objectId keyType keyId))
      = inl (NewCredentialID objectId keyType keyId)) /\
  (forall x id, CredentialID x = inl id -> CredentialId_String id = x) /\
  (forall x, ~ wellFormed x -> CredentialID x = inr (MalformedIdentifier x)) /\
  (forall objectId keyId,
      validField objectId = true -> validField keyId = true ->
      PasswordID (CredentialId_String (NewCredentialID objectId "password" keyId))
      = inl (NewCredentialID objectId "password" keyId)).
Proof.
  split; [exact CredentialID_encode|].
  split; [intros x id H; apply (CredentialID_decode _ _ H)|].
  split.
  - intros x Hx. destruct (CredentialID x) as [id|e] eqn:E.
    + exfalso. apply Hx. apply CredentialID_decode in E as (<- & Ho & Hk & Hi).
      exists (ObjectId id), (KeyType id), (KeyId id). destruct id. auto.
    + apply CredentialID_error in E. congruence.
  - intros objectId keyId Ho Hi. unfold PasswordID.
    rewrite (CredentialID_encode _ "password" _ Ho eq_refl Hi). reflexivity.
Qed.

Lemma credential_id_round_trip_witness :
  CredentialID (CredentialId_String
                  (NewCredentialID Samples.sampleId "key" Samples.sampleKeyId))
  = inl (NewCredentialID Samples.sampleId "key" Samples.sampleKeyId) /\
  CredentialId_String (NewCredentialID Samples.sampleId "password" Samples.sampleKeyId)
  = rd_id Samples.samplePasswordData /\
  CredentialID "abc123" = inr (MalformedIdentifier "abc123") /\
  PasswordID (rd_id Samples.samplePasswordData)
  = inl (NewCredentialID Samples.sampleId "password" Samples.sampleKeyId).
Proof.
  destruct credential_id_round_trip as (Henc & Hdec & Hbad & Hpw).
  split; [apply Henc; reflexivity|].
  split; [apply Hdec; reflexivity|].
  split.
  - apply Hbad. intros (o & k & i & Ho & Hk & Hi & E).
    pose proof (Henc o k i Ho Hk Hi) as H. rewrite <- E in H.
    vm_compute in H. discriminate H.
  - apply (Hpw Samples.sampleId Samples.sampleKeyId); reflexivity.
Defined.

(** *** State upgrade *)

Lemma noSeparator_append a b : noSeparator (a +:+ String separator b) = false.
Proof.
  induction a as [|c a IH]; simpl; [reflexivity|].
  rewrite IH. apply andb_false_r.
Qed.

Lemma validField_encoded id : validField (CredentialId_String id) = false.
Proof.
  unfold validField. rewrite CredentialId_String_eq.
  rewrite noSeparator_append. apply andb_false_r.
Qed.

Lemma OldPasswordID_current legacyKeyId id :
  OldPasswordID legacyKeyId (CredentialId_String id)
  = inr (MalformedIdentifier (CredentialId_String id)).
Proof. unfold OldPasswordID. rewrite validField_encoded. reflexivity. Qed.

(** C9. The state upgrade from version 0 to version 1 is idempotent under
    double application: on a stored state whose identifier is a string it
    returns; if the identifier is already of the current form it fails and
    returns the stored state unmodified; and running it again on its own
    result returns that result unchanged. *)
Theorem state_upgrade_twice (legacyKeyId : string -> string)
    (rawState : gmap string Value) (id : string) :
  rawState !! "id" = Some (VString id) ->
  let upgrade :=
    ApplicationPassword.resourceApplicationPasswordInstanceStateUpgradeV0 legacyKeyId in
  exists once err,
    upgrade rawState = Ret (once, err) /\
    (wellFormed id -> once = rawState /\ is_Some err) /\
    (exists err', upgrade once = Ret (once, err')).
Proof.
  intros Hid upgrade. subst upgrade.
  unfold ApplicationPassword.resourceApplicationPasswordInstanceStateUpgradeV0.
  rewrite Hid.
  destruct (OldPasswordID legacyKeyId id) as [newId|e] eqn:E.
  - eexists _, _. split; [reflexivity|]. split.
    + intros (o & k & i & _ & _ & _ & ->).
      rewrite OldPasswordID_current in E. discriminate.
    + rewrite lookup_insert_eq.
      rewrite OldPasswordID_current. eauto.
  - eexists _, _. split; [reflexivity|]. split; [eauto|].
    rewrite Hid, E. eauto.
Qed.

(** The legacy identifier of the sample state is rewritten once, and the
    second run leaves the result alone. *)
Example state_upgrade_sample :
  let upgrade :=
    ApplicationPassword.resourceApplicationPasswordInstanceStateUpgradeV0
      (fun _ => Samples.sampleKeyId) in
  let upgraded :=
    <["id" := VString ("abc123/password/" +:+ Samples.sampleKeyId)]> Samples.legacyState in
  upgrade Samples.legacyState = Ret (upgraded, None) /\
  exists err, upgrade upgraded = Ret (upgraded, Some err).
Proof. cbv zeta. split; [reflexivity|]. eexists. reflexivity. Qed.

Lemma state_upgrade_twice_witness :
  let upgrade :=
    ApplicationPassword.resourceApplicationPasswordInstanceStateUpgradeV0
      (fun _ => Samples.sampleKeyId) in
  exists once err,
    upgrade Samples.legacyState = Ret (once, err) /\
    (wellFormed "abc123" -> once = Samples.legacyState /\ is_Some err) /\
    (exists err', upgrade once = Ret (once, err')).
Proof.
  apply (state_upgrade_twice (fun _ => Samples.sampleKeyId) Samples.legacyState "abc123").
  reflexivity.
Defined.
End ParseFacts.

(** ** Create and Update of an application *)

Module ApplicationFacts.
Section Facts.
Context {W : Type}.
Variable client : ApplicationsClient W.
Variable conv : Applications.Conversions.
Variable findByName : string -> Helper W (option (list Application) * option error).
Variable setOwners : Application -> list string -> Helper W (option error).
Variable disableRoles : Application -> option (list AppRole) -> Helper W (option error).
Variable disableScopes :
  Application -> option (list PermissionScope) -> Helper W (option error).

Abbreviation Read := (Applications.applicationResourceRead client conv).
Abbreviation Create :=
  (Applications.applicationResourceCreate client conv findByName setOwners).
Abbreviation Update :=
  (Applications.applicationResourceUpdate client conv findByName setOwners
     disableRoles disableScopes).

Arguments Applications.applicationResourceRead : simpl never.

(** Read only adds to the trace and never reports a duplicate. *)
Lemma applicationResourceRead_trace d r :
  exists evs, trace (st_remote (snd (Read (mkSt d r)))) = trace r ++ evs.
Proof.
  unfold Applications.applicationResourceRead. run_prog.
  destruct (Applications_Get client _ _) as [[[a st] [e|]] w1]; simpl.
  - destruct (st =? StatusNotFound); simpl; rewrite <- ?app_assoc; simpl; eauto.
  - destruct a as [a|]; simpl; [|eauto].
    destruct (App_ID a) as [appId|]; simpl; [|eauto].
    destruct (Applications_ListOwners client appId w1) as [[[o st'] [e|]] w2];
      simpl; rewrite <- ?app_assoc; simpl; eauto.
Qed.

Lemma applicationResourceRead_not_duplicate d r ds id :
  fst (Read (mkSt d r)) = Ret ds -> isDuplicateDiag ds id = false.
Proof.
  unfold Applications.applicationResourceRead. run_prog.
  destruct (Applications_Get client _ _) as [[[a st] [e|]] w1]; simpl.
  - destruct (st =? StatusNotFound); simpl; intros [= <-]; reflexivity.
  - destruct a as [a|]; simpl; [|discriminate].
    destruct (App_ID a) as [appId|]; simpl; [|discriminate].
    destruct (Applications_ListOwners client appId w1) as [[[o st'] [e|]] w2];
      simpl; intros [= <-]; reflexivity.
Qed.

(** The course of Create, one remote step after the other. *)
Lemma applicationResourceCreate_steps d r0 :
  Create (mkSt d r0) =
    match Applications.createDuplicateCheck findByName d r0 with
    | (Panic, r1) => (Panic, mkSt d r1)
    | (Ret (Some ds), r1) => (Ret ds, mkSt d r1)
    | (Ret None, r1) =>
        let properties := Applications.createProperties conv d in
        let r2 w := after r1 (ApplicationsCreate properties) w in
        match Applications_Create client properties (world r1) with
        | ((_, _, Some e), w2) =>
            (Ret [ErrorDiagF (Some e) "Could not create application" []], mkSt d (r2 w2))
        | ((None, _, None), w2) => (Panic, mkSt d (r2 w2))
        | ((Some app, _, None), w2) =>
            let bad :=
              [ErrorDiagF (Some "Bad API response")
                 "Object ID returned for application is nil/empty" []] in
            match App_ID app with
            | None => (Ret bad, mkSt d (r2 w2))
            | Some appId =>
                if String.eqb appId "" then (Ret bad, mkSt d (r2 w2))
                else
                  match setOwners app (Applications.desiredOwners d) w2 with
                  | (res, w3, evs) =>
                      let r3 :=
                        mkRemote w3
                          (trace r1
                           ++ [ECall (ApplicationsCreate properties); ESetId appId]
                           ++ evs) in
                      match res with
                      | Panic => (Panic, mkSt (rd_SetId appId d) r3)
                      | Ret (Some e) =>
                          (Ret [ErrorDiagPathF (Some e) "owners"
                                  "Could not set owners for application with object ID: %q"
                                  [VString appId]],
                           mkSt (rd_SetId appId d) r3)
                      | Ret None => Read (mkSt (rd_SetId appId d) r3)
                      end
                  end
            end
        end
    end.
Proof.
  unfold Applications.applicationResourceCreate. run_prog.
  destruct (Applications.createDuplicateCheck findByName d _) as [[[ds|]|] [w1 tr1]];
    simpl; try reflexivity.
  destruct (Applications_Create client _ w1) as [[[[app|] st] [e|]] w2];
    simpl; try reflexivity.
  destruct (App_ID app) as [appId|]; simpl; [|reflexivity].
  destruct (String.eqb appId ""); simpl; [reflexivity|].
  unfold Applications.desiredOwners. simpl.
  destruct (setOwners app _ w2) as [[res w3] evs]. simpl.
  rewrite <- !app_assoc. simpl.
  destruct res as [[e|]|]; reflexivity.
Qed.

(** The course of Update. *)
Lemma applicationResourceUpdate_steps d r0 :
  Update (mkSt d r0) =
    match Applications.updateDuplicateCheck findByName d r0 with
    | (Panic, r1) => (Panic, mkSt d r1)
    | (Ret (Some ds), r1) => (Ret ds, mkSt d r1)
    | (Ret None, r1) =>
        let properties := Applications.updateProperties conv d in
        match disableRoles properties
                (Applications.expandApplicationAppRoles conv (rd_Get d "app_role"))
                (world r1) with
        | (Panic, w2, evs2) => (Panic, mkSt d (mkRemote w2 (trace r1 ++ evs2)))
        | (Ret (Some e), w2, evs2) =>
            (Ret [ErrorDiagPathF (Some e) "app_role"
                    "Could not disable App Roles for application with object ID %q"
                    [VString (rd_id d)]],
             mkSt d (mkRemote w2 (trace r1 ++ evs2)))
        | (Ret None, w2, evs2) =>
            match disableScopes properties
                    (Applications.expandApplicationOAuth2PermissionScope conv
                       (rd_GetPath d "api" [Idx 0; Attr "oauth2_permission_scope"]))
                    w2 with
            | (Panic, w3, evs3) =>
                (Panic, mkSt d (mkRemote w3 (trace r1 ++ evs2 ++ evs3)))
            | (Ret (Some e), w3, evs3) =>
                (Ret [ErrorDiagPathF (Some e) "api.0.oauth2_permission_scope"
                        "Could not disable OAuth2 Permission Scopes for application with object ID %q"
                        [VString (rd_id d)]],
                 mkSt d (mkRemote w3 (trace r1 ++ evs2 ++ evs3)))
            | (Ret None, w3, evs3) =>
                let sent := trace r1 ++ evs2 ++ evs3
                            ++ [ECall (ApplicationsUpdate properties)] in
                match Applications_Update client properties w3 with
                | ((_, Some e), w4) =>
                    (Ret [ErrorDiagF (Some e) "Could not update application with ID: %q"
                            [VString (rd_id d)]],
                     mkSt d (mkRemote w4 sent))
                | ((_, None), w4) =>
                    match setOwners properties (Applications.desiredOwners d) w4 with
                    | (Panic, w5, evs5) => (Panic, mkSt d (mkRemote w5 (sent ++ evs5)))
                    | (Ret (Some e), w5, evs5) =>
                        (Ret [ErrorDiagPathF (Some e) "owners"
                                "Could not set owners for application with object ID: %q"
                                [VString (rd_id d)]],
                         mkSt d (mkRemote w5 (sent ++ evs5)))
                    | (Ret None, w5, evs5) =>
                        Read (mkSt d (mkRemote w5 (sent ++ evs5)))
                    end
                end
            end
        end
    end.
Proof.
  unfold Applications.applicationResourceUpdate. run_prog.
  destruct (Applications.updateDuplicateCheck findByName d _) as [[[ds|]|] [w1 tr1]];
    simpl; try reflexivity.
  destruct (disableRoles _ _ w1) as [[[[e|]|] w2] evs2]; simpl; try reflexivity.
  destruct (disableScopes _ _ w2) as [[[[e|]|] w3] evs3]; simpl;
    rewrite <- ?app_assoc; try reflexivity.
  destruct (Applications_Update client _ w3) as [[st [e|]] w4]; simpl;
    rewrite <- ?app_assoc; try reflexivity.
  unfold Applications.desiredOwners. simpl.
  destruct (setOwners _ _ w4) as [[[[e|]|] w5] evs5]; simpl;
    rewrite <- ?app_assoc; simpl; rewrite <- ?app_assoc; reflexivity.
Qed.

(** *** The duplicate name guard *)

Lemma createDuplicateCheck_off d r0 :
  rd_GetBool d "prevent_duplicate_names" = false ->
  Applications.createDuplicateCheck findByName d r0 = (Ret None, r0).
Proof. intros H. unfold Applications.createDuplicateCheck. rewrite H. reflexivity. Qed.

Lemma updateDuplicateCheck_off d r0 :
  rd_GetBool d "prevent_duplicate_names" = false ->
  Applications.updateDuplicateCheck findByName d r0 = (Ret None, r0).
Proof. intros H. unfold Applications.updateDuplicateCheck. rewrite H. reflexivity. Qed.

Lemma createDuplicateCheck_found d r0 existing rest w1 evs cid :
  rd_GetBool d "prevent_duplicate_names" = true ->
  findByName (rd_GetString d "display_name") (world r0)
    = (Ret (Some (existing :: rest), None), w1, evs) ->
  App_ID existing = Some cid ->
  Applications.createDuplicateCheck findByName d r0
    = (Ret (Some [ImportAsDuplicateDiag "azuread_application" cid
                    (rd_GetString d "display_name")]),
       mkRemote w1 (trace r0 ++ evs)).
Proof.
  intros Hg Hf Hid. unfold Applications.createDuplicateCheck. rewrite Hg.
  run_prog. rewrite Hf. simpl. rewrite Hid. reflexivity.
Qed.

Lemma updateDuplicateCheck_found d r0 l w1 evs :
  rd_GetBool d "prevent_duplicate_names" = true ->
  findByName (rd_GetString d "display_name") (world r0) = (Ret (Some l, None), w1, evs) ->
  Applications.updateDuplicateCheck findByName d r0
    = (Ret (Applications.updateDuplicateLoop (rd_id d) (rd_GetString d "display_name") l),
       mkRemote w1 (trace r0 ++ evs)).
Proof.
  intros Hg Hf. unfold Applications.updateDuplicateCheck. rewrite Hg.
  run_prog. rewrite Hf. reflexivity.
Qed.

Lemma updateDuplicateLoop_conflict id name pre a post cid :
  Forall (fun x => App_ID x = Some id) pre ->
  App_ID a = Some cid -> String.eqb cid id = false ->
  Applications.updateDuplicateLoop id name (pre ++ a :: post)
    = Some [ImportAsDuplicateDiag "azuread_application" cid name].
Proof.
  intros Hpre Ha Hne. induction Hpre as [|x pre Hx _ IH]; simpl.
  - rewrite Ha, Hne. reflexivity.
  - rewrite Hx, String.eqb_refl. simpl. exact IH.
Qed.

Lemma updateDuplicateLoop_pass id name l :
  Forall (fun x => App_ID x = Some id) l ->
  Applications.updateDuplicateLoop id name l = None.
Proof.
  induction 1 as [|x l Hx _ IH]; simpl; [reflexivity|].
  rewrite Hx, String.eqb_refl. simpl. exact IH.
Qed.

Lemma createDuplicateCheck_nil d r0 existing rest w1 evs :
  rd_GetBool d "prevent_duplicate_names" = true ->
  findByName (rd_GetString d "display_name") (world r0)
    = (Ret (Some (existing :: rest), None), w1, evs) ->
  App_ID existing = None ->
  Applications.createDuplicateCheck findByName d r0
    = (Ret (Some [ErrorDiagF
                    (Some "API returned application with nil object ID during duplicate name check")
                    "Bad API response" []]),
       mkRemote w1 (trace r0 ++ evs)).
Proof.
  intros Hg Hf Hid. unfold Applications.createDuplicateCheck. rewrite Hg.
  run_prog. rewrite Hf. simpl. rewrite Hid. reflexivity.
Qed.

Lemma updateDuplicateLoop_nil id name pre a post :
  Forall (fun x => App_ID x = Some id) pre ->
  App_ID a = None ->
  Applications.updateDuplicateLoop id name (pre ++ a :: post)
    = Some [ErrorDiagF
              (Some "API returned application with nil object ID during duplicate name check")
              "Bad API response" []].
Proof.
  intros Hpre Ha. induction Hpre as [|x pre Hx _ IH]; simpl.
  - rewrite Ha. reflexivity.
  - rewrite Hx, String.eqb_refl. simpl. exact IH.
Qed.

(** Once its guard has let it through, Update reports no duplicate. *)
Lemma applicationResourceUpdate_not_duplicate d r0 r1 ds id :
  Applications.updateDuplicateCheck findByName d r0 = (Ret None, r1) ->
  fst (Update (mkSt d r0)) = Ret ds -> isDuplicateDiag ds id = false.
Proof.
  intros Hg. rewrite applicationResourceUpdate_steps, Hg. cbv zeta.
  destruct (disableRoles _ _ (world r1)) as [[[[e|]|] w2] evs2]; simpl;
    try discriminate; try (intros [= <-]; reflexivity).
  destruct (disableScopes _ _ w2) as [[[[e|]|] w3] evs3]; simpl;
    try discriminate; try (intros [= <-]; reflexivity).
  destruct (Applications_Update client _ w3) as [[st [e|]] w4]; simpl;
    try (intros [= <-]; reflexivity).
  destruct (setOwners _ _ w4) as [[[[e|]|] w5] evs5]; simpl;
    try discriminate; try (intros [= <-]; reflexivity).
  apply applicationResourceRead_not_duplicate.
Qed.

(** After the guard, Create first calls the Create primitive. *)
Lemma applicationResourceCreate_proceeds d r0 r1 :
  Applications.createDuplicateCheck findByName d r0 = (Ret None, r1) ->
  exists evs,
    trace (st_remote (snd (Create (mkSt d r0))))
    = trace r1 ++ ECall (ApplicationsCreate (Applications.createProperties conv d)) :: evs.
Proof.
  intros Hg. rewrite applicationResourceCreate_steps, Hg. cbv zeta.
  destruct (Applications_Create client _ (world r1)) as [[[[app|] st] [e|]] w2];
    simpl; eauto.
  destruct (App_ID app) as [appId|]; simpl; eauto.
  destruct (String.eqb appId ""); simpl; eauto.
  destruct (setOwners app _ w2) as [[[[e|]|] w3] evs]; simpl; eauto.
  match goal with
  | |- context [Read (mkSt ?d' ?r')] =>
      destruct (applicationResourceRead_trace d' r') as [evs' ->]
  end.
  simpl. rewrite <- app_assoc. simpl. eauto.
Qed.

(** C5. During Create, the identity returned by the service is stored
    before the follow-up write of the owners is attempted; when that write
    fails, its error is returned, the stored identity stays, and Create
    makes no further call, so nothing is rolled back. *)
Theorem create_persists_identity_before_follow_up
    d r0 r1 app st w2 appId e w3 evs :
  Applications.createDuplicateCheck findByName d r0 = (Ret None, r1) ->
  Applications_Create client (Applications.createProperties conv d) (world r1)
    = ((Some app, st, None), w2) ->
  App_ID app = Some appId ->
  String.eqb appId "" = false ->
  setOwners app (Applications.desiredOwners d) w2 = (Ret (Some e), w3, evs) ->
  Create (mkSt d r0) =
    (Ret [ErrorDiagPathF (Some e) "owners"
            "Could not set owners for application with object ID: %q" [VString appId]],
     mkSt (rd_SetId appId d)
       (mkRemote w3
          (trace r1
           ++ [ECall (ApplicationsCreate (Applications.createProperties conv d));
               ESetId appId]
           ++ evs))).
Proof.
  intros Hg Hc Hid Hne Ho.
  rewrite applicationResourceCreate_steps, Hg. cbv zeta.
  rewrite Hc, Hid, Hne, Ho. reflexivity.
Qed.

(** C6, amended. With the duplicate name guard on and a successful search
    by display name: Create fails with the duplicate resource error
    carrying the identity of the first match, whenever there is a match
    and the first one has an identity; Update fails with the duplicate
    resource error carrying the identity of the first match that differs
    from the application being updated, when the matches before it carry
    that application's own identity, and reports no duplicate when every
    match carries its own identity.  With the guard off, the search is not
    called and the operation proceeds.  With the guard on, a match without
    identity that is met first (for Update: after matches that carry its
    own identity only) makes the operation fail with the bad response
    error, and nothing further is called. *)
Theorem duplicate_name_guard d r0 :
  let name := rd_GetString d "display_name" in
  (rd_GetBool d "prevent_duplicate_names" = true ->
   forall existing rest w1 evs cid,
     findByName name (world r0) = (Ret (Some (existing :: rest), None), w1, evs) ->
     App_ID existing = Some cid ->
     Create (mkSt d r0)
     = (Ret [ImportAsDuplicateDiag "azuread_application" cid name],
        mkSt d (mkRemote w1 (trace r0 ++ evs)))) /\
  (rd_GetBool d "prevent_duplicate_names" = true ->
   forall pre a post w1 evs cid,
     findByName name (world r0) = (Ret (Some (pre ++ a :: post), None), w1, evs) ->
     Forall (fun x => App_ID x = Some (rd_id d)) pre ->
     App_ID a = Some cid -> String.eqb cid (rd_id d) = false ->
     Update (mkSt d r0)
     = (Ret [ImportAsDuplicateDiag "azuread_application" cid name],
        mkSt d (mkRemote w1 (trace r0 ++ evs)))) /\
  (rd_GetBool d "prevent_duplicate_names" = true ->
   forall l w1 evs,
     findByName name (world r0) = (Ret (Some l, None), w1, evs) ->
     Forall (fun x => App_ID x = Some (rd_id d)) l ->
     forall ds cid, fst (Update (mkSt d r0)) = Ret ds -> isDuplicateDiag ds cid = false) /\
  (rd_GetBool d "prevent_duplicate_names" = false ->
   (forall findByName',
       Applications.applicationResourceCreate client conv findByName' setOwners (mkSt d r0)
       = Create (mkSt d r0)) /\
   (forall findByName',
       Applications.applicationResourceUpdate client conv findByName' setOwners
         disableRoles disableScopes (mkSt d r0)
       = Update (mkSt d r0)) /\
   (exists evs,
       trace (st_remote (snd (Create (mkSt d r0))))
       = trace r0 ++ ECall (ApplicationsCreate (Applications.createProperties conv d))
                     :: evs) /\
   (forall ds cid, fst (Update (mkSt d r0)) = Ret ds -> isDuplicateDiag ds cid = false)) /\
  (rd_GetBool d "prevent_duplicate_names" = true ->
   forall existing rest w1 evs,
     findByName name (world r0) = (Ret (Some (existing :: rest), None), w1, evs) ->
     App_ID existing = None ->
     Create (mkSt d r0)
     = (Ret [ErrorDiagF
               (Some "API returned application with nil object ID during duplicate name check")
               "Bad API response" []],
        mkSt d (mkRemote w1 (trace r0 ++ evs)))) /\
  (rd_GetBool d "prevent_duplicate_names" = true ->
   forall pre a post w1 evs,
     findByName name (world r0) = (Ret (Some (pre ++ a :: post), None), w1, evs) ->
     Forall (fun x => App_ID x = Some (rd_id d)) pre ->
     App_ID a = None ->
     Update (mkSt d r0)
     = (Ret [ErrorDiagF
               (Some "API returned application with nil object ID during duplicate name check")
               "Bad API response" []],
        mkSt d (mkRemote w1 (trace r0 ++ evs)))).
Proof.
  cbv zeta. refine (conj _ (conj _ (conj _ (conj _ (conj _ _))))).
  - intros Hg existing rest w1 evs cid Hf Hid.
    rewrite applicationResourceCreate_steps.
    rewrite (createDuplicateCheck_found _ _ _ _ _ _ _ Hg Hf Hid). reflexivity.
  - intros Hg pre a post w1 evs cid Hf Hpre Ha Hne.
    rewrite applicationResourceUpdate_steps.
    rewrite (updateDuplicateCheck_found _ _ _ _ _ Hg Hf).
    rewrite (updateDuplicateLoop_conflict _ _ _ _ _ _ Hpre Ha Hne). reflexivity.
  - intros Hg l w1 evs Hf Hl ds cid.
    eapply applicationResourceUpdate_not_duplicate.
    rewrite (updateDuplicateCheck_found _ _ _ _ _ Hg Hf).
    rewrite (updateDuplicateLoop_pass _ _ _ Hl). reflexivity.
  - intros Hg. refine (conj _ (conj _ (conj _ _))).
    + intros findByName'. unfold Applications.applicationResourceCreate. run_prog.
      unfold Applications.createDuplicateCheck. rewrite Hg. reflexivity.
    + intros findByName'. unfold Applications.applicationResourceUpdate. run_prog.
      unfold Applications.updateDuplicateCheck. rewrite Hg. reflexivity.
    + apply applicationResourceCreate_proceeds. apply createDuplicateCheck_off, Hg.
    + intros ds cid. eapply applicationResourceUpdate_not_duplicate.
      apply updateDuplicateCheck_off, Hg.
  - intros Hg existing rest w1 evs Hf Hid.
    rewrite applicationResourceCreate_steps.
    rewrite (createDuplicateCheck_nil _ _ _ _ _ _ Hg Hf Hid). reflexivity.
  - intros Hg pre a post w1 evs Hf Hpre Ha.
    rewrite applicationResourceUpdate_steps.
    rewrite (updateDuplicateCheck_found _ _ _ _ _ Hg Hf).
    rewrite (updateDuplicateLoop_nil _ _ _ _ _ Hpre Ha). reflexivity.
Qed.
End Facts.

Import Samples.

Lemma create_persists_identity_before_follow_up_witness :
  Applications.applicationResourceCreate directory noConversions findAnonymous
    ownersForbidden (mkSt plannedData emptyDirectory)
  = (Ret [ErrorDiagPathF (Some "403 Forbidden") "owners"
            "Could not set owners for application with object ID: %q" [VString sampleId]],
     mkSt (rd_SetId sampleId plannedData)
       (mkRemote
          [withID sampleId (Applications.createProperties noConversions plannedData)]
          [ECall (ApplicationsCreate
                    (Applications.createProperties noConversions plannedData));
           ESetId sampleId;
           ECall (ApplicationsListOwners sampleId)])).
Proof.
  apply (create_persists_identity_before_follow_up directory noConversions
           findAnonymous ownersForbidden plannedData emptyDirectory emptyDirectory
           (withID sampleId (Applications.createProperties noConversions plannedData))
           201
           [withID sampleId (Applications.createProperties noConversions plannedData)]
           sampleId "403 Forbidden"
           [withID sampleId (Applications.createProperties noConversions plannedData)]
           [ECall (ApplicationsListOwners sampleId)]);
    reflexivity.
Defined.

(** With the guard on, a first match without identity makes Create and
    Update fail with a bad response error, not with the duplicate resource
    error, although for Update a later match has another identity. *)
Lemma duplicate_guard_match_without_identity :
  rd_GetBool guardedData "prevent_duplicate_names" = true /\
  fst (Applications.applicationResourceCreate directory noConversions findAnonymous
         ownersUntouched (mkSt guardedData emptyDirectory))
  = Ret [ErrorDiagF
           (Some "API returned application with nil object ID during duplicate name check")
           "Bad API response" []] /\
  fst (Applications.applicationResourceUpdate directory noConversions
         findAnonymousThenOther ownersUntouched nothingToDisable nothingToDisable
         (mkSt guardedData emptyDirectory))
  = Ret [ErrorDiagF
           (Some "API returned application with nil object ID during duplicate name check")
           "Bad API response" []].
Proof. vm_compute. repeat split. Qed.

Lemma duplicate_name_guard_witness :
  Applications.applicationResourceCreate directory noConversions findOther
    ownersUntouched (mkSt guardedData emptyDirectory)
  = (Ret [ImportAsDuplicateDiag "azuread_application" sampleId "app"],
     mkSt guardedData emptyDirectory) /\
  Applications.applicationResourceUpdate directory noConversions findOther
    ownersUntouched nothingToDisable nothingToDisable (mkSt guardedData emptyDirectory)
  = (Ret [ImportAsDuplicateDiag "azuread_application" otherId "app"],
     mkSt guardedData emptyDirectory) /\
  Applications.applicationResourceCreate directory noConversions findOther
    ownersUntouched (mkSt unguardedData emptyDirectory)
  = Applications.applicationResourceCreate directory noConversions findAnonymous
      ownersUntouched (mkSt unguardedData emptyDirectory) /\
  Applications.applicationResourceCreate directory noConversions findAnonymous
    ownersUntouched (mkSt guardedData emptyDirectory)
  = (Ret [ErrorDiagF
            (Some "API returned application with nil object ID during duplicate name check")
            "Bad API response" []],
     mkSt guardedData emptyDirectory) /\
  Applications.applicationResourceUpdate directory noConversions findAnonymousThenOther
    ownersUntouched nothingToDisable nothingToDisable (mkSt guardedData emptyDirectory)
  = (Ret [ErrorDiagF
            (Some "API returned application with nil object ID during duplicate name check")
            "Bad API response" []],
     mkSt guardedData emptyDirectory).
Proof.
  destruct (duplicate_name_guard directory noConversions findOther ownersUntouched
              nothingToDisable nothingToDisable guardedData emptyDirectory)
    as (Hc & Hu & _ & _ & _ & _).
  destruct (duplicate_name_guard directory noConversions findAnonymous ownersUntouched
              nothingToDisable nothingToDisable unguardedData emptyDirectory)
    as (_ & _ & _ & Hoff & _ & _).
  destruct (duplicate_name_guard directory noConversions findAnonymous ownersUntouched
              nothingToDisable nothingToDisable guardedData emptyDirectory)
    as (_ & _ & _ & _ & Hcn & _).
  destruct (duplicate_name_guard directory noConversions findAnonymousThenOther
              ownersUntouched nothingToDisable nothingToDisable guardedData emptyDirectory)
    as (_ & _ & _ & _ & _ & Hun).
  split.
  { exact (Hc eq_refl (withID sampleId anonymousApplication)
             [withID otherId anonymousApplication] [] [] sampleId eq_refl eq_refl). }
  split.
  { apply (Hu eq_refl [withID sampleId anonymousApplication]
             (withID otherId anonymousApplication) [] [] [] otherId);
      [reflexivity | repeat constructor | reflexivity | reflexivity]. }
  split.
  { destruct (Hoff eq_refl) as (H & _). exact (H findOther). }
  split.
  { exact (Hcn eq_refl anonymousApplication [] [] [] eq_refl eq_refl). }
  exact (Hun eq_refl [] anonymousApplication [withID otherId anonymousApplication]
           [] [] eq_refl (Forall_nil_2 _) eq_refl).
Defined.
End ApplicationFacts.

(** ** The payload of Update *)

Module UpdatePayloadClaims.
Import Samples.

Lemma userResourceRead_trace {W : Type} (users : UsersClient W) d r :
  exists evs,
    trace (st_remote (snd (Users.userResourceRead users (mkSt d r)))) = trace r ++ evs.
Proof.
  unfold Users.userResourceRead. run_prog.
  destruct (Users_Get users _ _) as [[[u st'] [e|]] w2]; simpl.
  - destruct (st' =? StatusNotFound); simpl; rewrite <- ?app_assoc; simpl; eauto.
  - destruct u; simpl; eauto.
Qed.

Lemma userResourceUpdate_sends {W : Type} (users : UsersClient W) d r :
  exists evs,
    trace (st_remote (snd (Users.userResourceUpdate users (mkSt d r))))
    = trace r ++ ECall (UsersUpdate (Users.userUpdateProperties d)) :: evs.
Proof.
  unfold Users.userResourceUpdate.
  run_prog.
  destruct (Users_Update users _ _) as [[st [e|]] w1]; simpl.
  - exists []. reflexivity.
  - match goal with
    | |- context [Users.userResourceRead users (mkSt ?d' ?r')] =>
        destruct (userResourceRead_trace users d' r') as [evs ->]
    end.
    simpl. rewrite <- app_assoc. simpl. eauto.
Qed.

(** An update of a user in which only the city changed still sends the
    display name. *)
Lemma user_update_sends_unchanged_display_name :
  rd_HasChange cityChangedData "display_name" = false /\
  trace (st_remote (snd (Users.userResourceUpdate goneUsers
                           (mkSt cityChangedData emptyRemote))))
  = [ECall (UsersUpdate (Users.userUpdateProperties cityChangedData))] /\
  User_DisplayName (Users.userUpdateProperties cityChangedData) = Some "Alice".
Proof. vm_compute. repeat split. Qed.

(** C4, amended. The payload of Update is built from the desired
    attributes and not as a delta.  The user update always carries the
    identity and the sixteen profile attributes, changed or not; only the
    password profile and the on-premises immutable ID are included exactly
    when their attribute is marked as changed; and this payload is what is
    sent.  The application update carries its identity, display name,
    fallback flag and identifier URIs in every case, each of its other
    fields is the expansion of the attribute it is named after, none of
    its fields depends on the state read last, and, once the duplicate
    name guard and the two disabling steps have let Update through, this
    payload is what is sent to the Update primitive. *)
Theorem update_payload_is_not_a_delta {W : Type} (users : UsersClient W)
    (apps : ApplicationsClient W) (conv : Applications.Conversions)
    (findByName : string -> Helper W (option (list Application) * option error))
    (setOwners : Application -> list string -> Helper W (option error))
    (disableRoles : Application -> option (list AppRole) -> Helper W (option error))
    (disableScopes :
       Application -> option (list PermissionScope) -> Helper W (option error))
    (d : ResourceData) (r : Remote W) :
  let p := Users.userUpdateProperties d in
  (exists evs,
      trace (st_remote (snd (Users.userResourceUpdate users (mkSt d r))))
      = trace r ++ ECall (UsersUpdate p) :: evs) /\
  (User_ID p = Some (rd_id d) /\
   User_AccountEnabled p = Some (rd_GetBool d "account_enabled") /\
   User_City p = Some (rd_GetString d "city") /\
   User_CompanyName p = Some (rd_GetString d "company_name") /\
   User_Country p = Some (rd_GetString d "country") /\
   User_Department p = Some (rd_GetString d "department") /\
   User_DisplayName p = Some (rd_GetString d "display_name") /\
   User_GivenName p = Some (rd_GetString d "given_name") /\
   User_JobTitle p = Some (rd_GetString d "job_title") /\
   User_MailNickname p = Some (rd_GetString d "mail_nickname") /\
   User_MobilePhone p = Some (rd_GetString d "mobile_phone") /\
   User_OfficeLocation p = Some (rd_GetString d "office_location") /\
   User_PostalCode p = Some (rd_GetString d "postal_code") /\
   User_State p = Some (rd_GetString d "state") /\
   User_StreetAddress p = Some (rd_GetString d "street_address") /\
   User_Surname p = Some (rd_GetString d "surname") /\
   User_UsageLocation p = Some (rd_GetString d "usage_location")) /\
  (is_Some (User_PasswordProfile p) <-> rd_HasChange d "password" = true) /\
  (is_Some (User_OnPremisesImmutableId p)
   <-> rd_HasChange d "onpremises_immutable_id" = true) /\
  (let a := Applications.updateProperties conv d in
   App_ID a = Some (rd_id d) /\
   App_DisplayName a = Some (rd_GetString d "display_name") /\
   App_IsFallbackPublicClient a = Some (rd_GetBool d "fallback_public_client_enabled") /\
   is_Some (App_IdentifierUris a) /\
   (forall state',
     Applications.updateProperties conv
       {| rd_id := rd_id d; rd_state := state'; rd_attrs := rd_attrs d |} = a) /\
   (App_AppId a = None /\
    App_Api a = Applications.expandApplicationApi conv (rd_Get d "api") /\
    App_AppRoles a = Applications.expandApplicationAppRoles conv (rd_Get d "app_role") /\
    App_GroupMembershipClaims a
    = Applications.expandApplicationGroupMembershipClaims conv
        (rd_Get d "group_membership_claims") /\
    App_IdentifierUris a
    = Applications.tf_ExpandStringSlicePtr (rd_Get d "identifier_uris") /\
    App_OptionalClaims a
    = Applications.expandApplicationOptionalClaims conv (rd_Get d "optional_claims") /\
    App_RequiredResourceAccess a
    = Applications.expandApplicationRequiredResourceAccess conv
        (rd_Get d "required_resource_access") /\
    App_SignInAudience a = rd_GetString d "sign_in_audience" /\
    App_Web a = Applications.expandApplicationWeb conv (rd_Get d "web") /\
    App_PasswordCredentials a = None) /\
   (forall r1 w2 evs2 w3 evs3,
       Applications.updateDuplicateCheck findByName d r = (Ret None, r1) ->
       disableRoles a (Applications.expandApplicationAppRoles conv (rd_Get d "app_role"))
         (world r1) = (Ret None, w2, evs2) ->
       disableScopes a
         (Applications.expandApplicationOAuth2PermissionScope conv
            (rd_GetPath d "api" [Idx 0; Attr "oauth2_permission_scope"]))
         w2 = (Ret None, w3, evs3) ->
       exists evs,
         trace (st_remote (snd (Applications.applicationResourceUpdate apps conv
                                  findByName setOwners disableRoles disableScopes
                                  (mkSt d r))))
         = trace r1 ++ evs2 ++ evs3 ++ ECall (ApplicationsUpdate a) :: evs)).
Proof.
  cbv zeta. split; [apply userResourceUpdate_sends|].
  split.
  { unfold Users.userUpdateProperties.
    destruct (rd_HasChange d "password"), (rd_HasChange d "onpremises_immutable_id");
      simpl; repeat split. }
  split.
  { unfold Users.userUpdateProperties.
    destruct (rd_HasChange d "password"), (rd_HasChange d "onpremises_immutable_id");
      simpl; split; intros H; try reflexivity; try discriminate; eauto;
      destruct H; discriminate. }
  split.
  { unfold Users.userUpdateProperties.
    destruct (rd_HasChange d "password"), (rd_HasChange d "onpremises_immutable_id");
      simpl; split; intros H; try reflexivity; try discriminate; eauto;
      destruct H; discriminate. }
  split; [reflexivity|]. split; [reflexivity|]. split; [reflexivity|].
  split; [simpl; eauto|]. split; [reflexivity|].
  split; [repeat split|].
  intros r1 w2 evs2 w3 evs3 Hg Hr Hs.
  rewrite ApplicationFacts.applicationResourceUpdate_steps, Hg. cbv zeta.
  rewrite Hr, Hs.
  destruct (Applications_Update apps _ w3) as [[st [e|]] w4]; simpl.
  { exists []. reflexivity. }
  destruct (setOwners _ _ w4) as [[[[e|]|] w5] evs5]; simpl;
    try (exists evs5; rewrite <- ?app_assoc; reflexivity).
  match goal with
  | |- context [Applications.applicationResourceRead apps conv (mkSt ?d' ?r')] =>
      destruct (ApplicationFacts.applicationResourceRead_trace apps conv d' r')
        as [evs' Hevs]
  end.
  exists (evs5 ++ evs'). etransitivity; [exact Hevs|].
  simpl. rewrite <- ?app_assoc. reflexivity.
Qed.

(** An update of the sample application that sends its payload and then
    refreshes the state. *)
Lemma update_payload_is_not_a_delta_witness :
  exists evs,
    trace (st_remote (snd (Applications.applicationResourceUpdate directory noConversions
                             findOther ownersUntouched nothingToDisable nothingToDisable
                             (mkSt unguardedData oneApplication))))
    = ECall (ApplicationsUpdate (Applications.updateProperties noConversions unguardedData))
        :: evs.
Proof.
  destruct (update_payload_is_not_a_delta
              {| Users_Get := fun _ (w : list Application) =>
                                ((None, 404, Some "404 Not Found"), w);
                 Users_Update := fun _ w => ((404, Some "404 Not Found"), w);
                 Users_Delete := fun _ w => ((404, Some "404 Not Found"), w) |}
              directory noConversions findOther ownersUntouched
              nothingToDisable nothingToDisable unguardedData oneApplication)
    as (_ & _ & _ & _ & _ & _ & _ & _ & _ & _ & Hsends).
  exact (Hsends oneApplication [remoteApplication] [] [remoteApplication] []
           eq_refl eq_refl eq_refl).
Defined.
End UpdatePayloadClaims.

(** ** Disable before delete *)

Module DisableFacts.
Import ApplicationHelpers.

Section Facts.
Context {W : Type}.
Variable client : ApplicationsClient W.
Variable conv : Applications.Conversions.
Variable findByName : string -> Helper W (option (list Application) * option error).
Variable setOwners : Application -> list string -> Helper W (option error).

(** Update with the disabling steps of the reconciler. *)
Abbreviation Update :=
  (Applications.applicationResourceUpdate client conv findByName setOwners
     (fun a l => asHelper (applicationDisableAppRoles client a l))
     (fun a l => asHelper (applicationDisableOauth2PermissionScopes client a l))).

Lemma applicationDisableAppRoles_run app id newRoles w :
  App_ID app = Some id ->
  asHelper (applicationDisableAppRoles client app newRoles) w =
    match Applications_Get client id w with
    | ((_, _, Some e), w1) => (Ret (Some e), w1, [ECall (ApplicationsGet id)])
    | ((None, _, None), w1) => (Panic, w1, [ECall (ApplicationsGet id)])
    | ((Some remote, _, None), w1) =>
        let existing := default [] (App_AppRoles remote) in
        let desired := default [] newRoles in
        if existsb (roleRemovedOrChanged desired) existing then
          let payload := rolesPayload id (rolesDisabled existing desired) in
          match Applications_Update client payload w1 with
          | ((_, err), w2) =>
              (Ret err, w2,
               [ECall (ApplicationsGet id); ECall (ApplicationsUpdate payload)])
          end
        else (Ret None, w1, [ECall (ApplicationsGet id)])
    end.
Proof.
  intros Hid. unfold applicationDisableAppRoles. rewrite Hid. run_prog.
  destruct (Applications_Get client id w) as [[[[remote|] st] [e|]] w1]; simpl;
    try reflexivity.
  destruct (existsb _ _); simpl; [|reflexivity].
  destruct (Applications_Update client _ w1) as [[st' err] w2]. reflexivity.
Qed.

Lemma applicationDisableOauth2PermissionScopes_run app id newScopes w :
  App_ID app = Some id ->
  asHelper (applicationDisableOauth2PermissionScopes client app newScopes) w =
    match Applications_Get client id w with
    | ((_, _, Some e), w1) => (Ret (Some e), w1, [ECall (ApplicationsGet id)])
    | ((None, _, None), w1) => (Panic, w1, [ECall (ApplicationsGet id)])
    | ((Some remote, _, None), w1) =>
        let existing := remoteScopes remote in
        let desired := default [] newScopes in
        if existsb (scopeRemovedOrChanged desired) existing then
          let payload := scopesPayload id (scopesDisabled existing desired) in
          match Applications_Update client payload w1 with
          | ((_, err), w2) =>
              (Ret err, w2,
               [ECall (ApplicationsGet id); ECall (ApplicationsUpdate payload)])
          end
        else (Ret None, w1, [ECall (ApplicationsGet id)])
    end.
Proof.
  intros Hid. unfold applicationDisableOauth2PermissionScopes. rewrite Hid. run_prog.
  destruct (Applications_Get client id w) as [[[[remote|] st] [e|]] w1]; simpl;
    try reflexivity.
  destruct (existsb _ _); simpl; [|reflexivity].
  destruct (Applications_Update client _ w1) as [[st' err] w2]. reflexivity.
Qed.

(** The disabling steps never send the full update. *)
Lemma applicationDisableAppRoles_no_removal d newRoles w res w' evs :
  asHelper (applicationDisableAppRoles client (Applications.updateProperties conv d)
              newRoles) w = (res, w', evs) ->
  ~ In (ECall (ApplicationsUpdate (Applications.updateProperties conv d))) evs.
Proof.
  rewrite (applicationDisableAppRoles_run _ (rd_id d)) by reflexivity.
  destruct (Applications_Get client _ w) as [[[[remote|] st] [e|]] w1]; simpl;
    try (intros [= <- <- <-]; simpl; intros [H|[]]; discriminate).
  destruct (existsb _ _); simpl;
    [|intros [= <- <- <-]; simpl; intros [H|[]]; discriminate].
  destruct (Applications_Update client _ w1) as [[st' err] w2].
  intros [= <- <- <-]. simpl. intros [H|[H|[]]]; discriminate.
Qed.

Lemma applicationDisableOauth2PermissionScopes_no_removal d newScopes w res w' evs :
  asHelper (applicationDisableOauth2PermissionScopes client
              (Applications.updateProperties conv d) newScopes) w = (res, w', evs) ->
  ~ In (ECall (ApplicationsUpdate (Applications.updateProperties conv d))) evs.
Proof.
  rewrite (applicationDisableOauth2PermissionScopes_run _ (rd_id d)) by reflexivity.
  destruct (Applications_Get client _ w) as [[[[remote|] st] [e|]] w1]; simpl;
    try (intros [= <- <- <-]; simpl; intros [H|[]]; discriminate).
  destruct (existsb _ _); simpl;
    [|intros [= <- <- <-]; simpl; intros [H|[]]; discriminate].
  destruct (Applications_Update client _ w1) as [[st' err] w2].
  intros [= <- <- <-]. simpl. intros [H|[H|[]]]; discriminate.
Qed.

Lemma rolesDisabled_lookup existing desired (i : nat) r :
  existing !! i = Some r ->
  rolesDisabled existing desired !! i
  = Some (if roleRemovedOrChanged desired r then disableRole r else r).
Proof. intros H. unfold rolesDisabled. rewrite list_lookup_fmap, H. reflexivity. Qed.

Lemma scopesDisabled_lookup existing desired (i : nat) s :
  existing !! i = Some s ->
  scopesDisabled existing desired !! i
  = Some (if scopeRemovedOrChanged desired s then disableScope s else s).
Proof. intros H. unfold scopesDisabled. rewrite list_lookup_fmap, H. reflexivity. Qed.

(** C7. During Update, once the duplicate name guard has passed, each
    disabling step (app roles, then permission scopes) reads the remote
    record and, when entries present remotely are absent or changed in the
    desired state, sends an update in which exactly those entries are
    disabled.  The update that removes them is sent only after both steps
    have succeeded, right after them; when either step fails, Update
    returns that error and the removing update is never sent. *)
Theorem update_disables_before_removing d r0 r1 :
  Applications.updateDuplicateCheck findByName d r0 = (Ret None, r1) ->
  let properties := Applications.updateProperties conv d in
  let removal := ECall (ApplicationsUpdate properties) in
  let newRoles := Applications.expandApplicationAppRoles conv (rd_Get d "app_role") in
  let newScopes :=
    Applications.expandApplicationOAuth2PermissionScope conv
      (rd_GetPath d "api" [Idx 0; Attr "oauth2_permission_scope"]) in
  let rolesStep := asHelper (applicationDisableAppRoles client properties newRoles) in
  let scopesStep :=
    asHelper (applicationDisableOauth2PermissionScopes client properties newScopes) in
  let out := Update (mkSt d r0) in
  (forall w remote st w1,
      Applications_Get client (rd_id d) w = ((Some remote, st, None), w1) ->
      let existing := default [] (App_AppRoles remote) in
      let desired := default [] newRoles in
      existsb (roleRemovedOrChanged desired) existing = true ->
      let payload := rolesPayload (rd_id d) (rolesDisabled existing desired) in
      rolesStep w
      = (Ret (snd (fst (Applications_Update client payload w1))),
         snd (Applications_Update client payload w1),
         [ECall (ApplicationsGet (rd_id d)); ECall (ApplicationsUpdate payload)])) /\
  (forall w remote st w1,
      Applications_Get client (rd_id d) w = ((Some remote, st, None), w1) ->
      let existing := remoteScopes remote in
      let desired := default [] newScopes in
      existsb (scopeRemovedOrChanged desired) existing = true ->
      let payload := scopesPayload (rd_id d) (scopesDisabled existing desired) in
      scopesStep w
      = (Ret (snd (fst (Applications_Update client payload w1))),
         snd (Applications_Update client payload w1),
         [ECall (ApplicationsGet (rd_id d)); ECall (ApplicationsUpdate payload)])) /\
  (forall existing desired (i : nat) r,
      existing !! i = Some r ->
      rolesDisabled existing desired !! i
      = Some (if roleRemovedOrChanged desired r then disableRole r else r)) /\
  (forall existing desired (i : nat) s,
      existing !! i = Some s ->
      scopesDisabled existing desired !! i
      = Some (if scopeRemovedOrChanged desired s then disableScope s else s)) /\
  (forall e w2 evs2,
      rolesStep (world r1) = (Ret (Some e), w2, evs2) ->
      out = (Ret [ErrorDiagPathF (Some e) "app_role"
                    "Could not disable App Roles for application with object ID %q"
                    [VString (rd_id d)]],
             mkSt d (mkRemote w2 (trace r1 ++ evs2))) /\
      ~ In removal evs2) /\
  (forall w2 evs2 e w3 evs3,
      rolesStep (world r1) = (Ret None, w2, evs2) ->
      scopesStep w2 = (Ret (Some e), w3, evs3) ->
      out = (Ret [ErrorDiagPathF (Some e) "api.0.oauth2_permission_scope"
                    "Could not disable OAuth2 Permission Scopes for application with object ID %q"
                    [VString (rd_id d)]],
             mkSt d (mkRemote w3 (trace r1 ++ evs2 ++ evs3))) /\
      ~ In removal (evs2 ++ evs3)) /\
  (forall w2 evs2 w3 evs3,
      rolesStep (world r1) = (Ret None, w2, evs2) ->
      scopesStep w2 = (Ret None, w3, evs3) ->
      ~ In removal (evs2 ++ evs3) /\
      exists evs,
        trace (st_remote (snd out)) = trace r1 ++ evs2 ++ evs3 ++ removal :: evs).
Proof.
  intros Hg properties removal newRoles newScopes rolesStep scopesStep out.
  refine (conj _ (conj _ (conj _ (conj _ (conj _ (conj _ _)))))).
  - intros w remote st w1 Hget existing desired Hex payload.
    subst rolesStep. rewrite (applicationDisableAppRoles_run _ (rd_id d)) by reflexivity.
    rewrite Hget. cbv zeta. fold existing desired. rewrite Hex. fold payload.
    destruct (Applications_Update client payload w1) as [[st' err] w2]. reflexivity.
  - intros w remote st w1 Hget existing desired Hex payload.
    subst scopesStep.
    rewrite (applicationDisableOauth2PermissionScopes_run _ (rd_id d)) by reflexivity.
    rewrite Hget. cbv zeta. fold existing desired. rewrite Hex. fold payload.
    destruct (Applications_Update client payload w1) as [[st' err] w2]. reflexivity.
  - apply rolesDisabled_lookup.
  - apply scopesDisabled_lookup.
  - intros e w2 evs2 Hr. split.
    + subst out. rewrite ApplicationFacts.applicationResourceUpdate_steps, Hg.
      cbv zeta. fold properties newRoles. fold rolesStep. rewrite Hr. reflexivity.
    + eapply applicationDisableAppRoles_no_removal. exact Hr.
  - intros w2 evs2 e w3 evs3 Hr Hs. split.
    + subst out. rewrite ApplicationFacts.applicationResourceUpdate_steps, Hg.
      cbv zeta. fold properties newRoles. fold rolesStep. rewrite Hr.
      fold newScopes. fold scopesStep. rewrite Hs. reflexivity.
    + intros Hin. apply in_app_or in Hin as [Hin|Hin].
      * eapply applicationDisableAppRoles_no_removal; [exact Hr|exact Hin].
      * eapply applicationDisableOauth2PermissionScopes_no_removal; [exact Hs|exact Hin].
  - intros w2 evs2 w3 evs3 Hr Hs. split.
    + intros Hin. apply in_app_or in Hin as [Hin|Hin].
      * eapply applicationDisableAppRoles_no_removal; [exact Hr|exact Hin].
      * eapply applicationDisableOauth2PermissionScopes_no_removal; [exact Hs|exact Hin].
    + subst out. rewrite ApplicationFacts.applicationResourceUpdate_steps, Hg.
      cbv zeta. fold properties newRoles. fold rolesStep. rewrite Hr.
      fold newScopes. fold scopesStep. rewrite Hs. fold removal.
      destruct (Applications_Update client properties w3) as [[st [e|]] w4]; simpl.
      { exists []. reflexivity. }
      destruct (setOwners properties _ w4) as [[[[e|]|] w5] evs5]; simpl;
        try (exists evs5; rewrite <- ?app_assoc; reflexivity).
      match goal with
      | |- context [Applications.applicationResourceRead client conv (mkSt ?d' ?r')] =>
          destruct (ApplicationFacts.applicationResourceRead_trace client conv d' r')
            as [evs' ->]
      end.
      simpl. exists (evs5 ++ evs'). rewrite <- ?app_assoc. reflexivity.
Qed.
End Facts.

Import Samples.

(** The sample application loses its only role: the role is disabled in a
    first update, and removed in a second one. *)
Lemma update_disables_before_removing_witness :
  let properties := Applications.updateProperties noConversions sampleData in
  let disabling := rolesPayload sampleId [disableRole readerRole] in
  asHelper (applicationDisableAppRoles directory properties None) [remoteApplication]
  = (Ret None, [disabling],
     [ECall (ApplicationsGet sampleId); ECall (ApplicationsUpdate disabling)]) /\
  exists evs,
    trace (st_remote (snd (Applications.applicationResourceUpdate directory noConversions
                             findAnonymous ownersUntouched
                             (fun a l => asHelper (applicationDisableAppRoles directory a l))
                             (fun a l => asHelper
                                           (applicationDisableOauth2PermissionScopes
                                              directory a l))
                             (mkSt sampleData oneApplication))))
    = trace oneApplication
      ++ [ECall (ApplicationsGet sampleId); ECall (ApplicationsUpdate disabling)]
      ++ [ECall (ApplicationsGet sampleId)]
      ++ ECall (ApplicationsUpdate properties) :: evs.
Proof.
  destruct (update_disables_before_removing directory noConversions findAnonymous
              ownersUntouched sampleData oneApplication oneApplication eq_refl)
    as (Hroles & _ & _ & _ & _ & _ & Hboth).
  split.
  - exact (Hroles [remoteApplication] remoteApplication 200 [remoteApplication]
             eq_refl eq_refl).
  - refine (proj2 (Hboth _ _ _ _ _ _)); reflexivity.
Defined.
End DisableFacts.

(** ** The Name Lock *)

Module LockFacts.
Import ApplicationHelpers.

Lemma lockDiscipline_quiet n k evs : forall held rest,
  quietEvents evs = true ->
  lockDiscipline n k held (evs ++ rest) = lockDiscipline n k held rest.
Proof.
  induction evs as [|e evs IH]; intros held rest; simpl; [reflexivity|].
  intros H. apply andb_prop in H as [He Hq].
  destruct e as [c| | |]; try discriminate; simpl.
  - apply negb_true_iff in He. rewrite He. simpl. apply IH, Hq.
  - apply IH, Hq.
Qed.

Lemma lockDiscipline_quiet_free n k evs :
  quietEvents evs = true -> lockDiscipline n k false evs = true.
Proof.
  intros H. rewrite <- (app_nil_r evs), lockDiscipline_quiet by assumption. reflexivity.
Qed.

Lemma lockDiscipline_app n k a : forall held b,
  lockDiscipline n k held a = true ->
  lockDiscipline n k false b = true ->
  lockDiscipline n k held (a ++ b) = true.
Proof.
  induction a as [|e a IH]; intros held b; simpl.
  - intros H. apply negb_true_iff in H. subst held. auto.
  - destruct e as [c|n' k'|n' k'|id]; intros Ha Hb.
    + apply andb_prop in Ha as [H1 H2]. rewrite H1. simpl. auto.
    + apply andb_prop in Ha as [H1 H2]. rewrite H1. simpl. auto.
    + apply andb_prop in Ha as [H1 H2]. rewrite H1. simpl. auto.
    + auto.
Qed.

Section Facts.
Context {W : Type}.
Variable client : ApplicationsClient W.

Ltac quiet_shape :=
  simpl; rewrite <- ?app_assoc; simpl;
  first [ eexists _, _, _, _; split; [reflexivity|reflexivity]
        | eexists _, _, _, []; split; [rewrite app_nil_r; reflexivity|reflexivity] ].

Lemma applicationPasswordResourceRead_quiet :
  growsQuietly (ApplicationPassword.applicationPasswordResourceRead client).
Proof.
  intros d w tr. unfold ApplicationPassword.applicationPasswordResourceRead. run_prog.
  destruct (Parse.PasswordID (rd_id d)) as [id|err]; [|quiet_shape].
  destruct (Applications_Get client _ w) as [[[app st] [e|]] w1]; simpl.
  - destruct (st =? StatusNotFound); quiet_shape.
  - destruct app as [app|]; [|quiet_shape]. simpl.
    destruct (App_PasswordCredentials app) as [creds|]; [|quiet_shape].
    destruct (ApplicationPassword.findCredential (Parse.KeyId id) creds); quiet_shape.
Qed.

Lemma applicationResourceRead_quiet conv :
  growsQuietly (Applications.applicationResourceRead client conv).
Proof.
  intros d w tr. unfold Applications.applicationResourceRead. run_prog.
  destruct (Applications_Get client _ w) as [[[app st] [e|]] w1]; simpl.
  - destruct (st =? StatusNotFound); quiet_shape.
  - destruct app as [app|]; [|quiet_shape]. simpl.
    destruct (App_ID app) as [appId|]; [|quiet_shape]. simpl.
    destruct (Applications_ListOwners client appId w1) as [[[o st'] [e|]] w2];
      quiet_shape.
Qed.

Ltac disciplined :=
  simpl; rewrite <- ?app_assoc; simpl;
  eexists; split; [reflexivity|];
  simpl; rewrite ?String.eqb_refl; simpl;
  rewrite ?lockDiscipline_quiet by assumption;
  simpl; rewrite ?String.eqb_refl; reflexivity.

Ltac untouched :=
  exists []; rewrite app_nil_r; split; reflexivity.

Lemma applicationPasswordResourceCreate_disciplined credentialFor d w tr :
  exists evs,
    trace (st_remote (snd (ApplicationPassword.applicationPasswordResourceCreate client
                             credentialFor (mkSt d (mkRemote w tr)))))
    = tr ++ evs /\
    lockDiscipline Applications.applicationResourceName
      (rd_GetString d "application_object_id") false evs = true.
Proof.
  unfold ApplicationPassword.applicationPasswordResourceCreate. run_prog.
  destruct (credentialFor d) as [[credential|] [[e kerr]|]]; simpl; try untouched.
  destruct (Applications_Get client _ w) as [[[app st] [e|]] w1]; simpl.
  { destruct (st =? StatusNotFound); disciplined. }
  destruct app as [app|]; simpl; [|disciplined].
  destruct (App_ID app) as [appId|]; simpl; [|disciplined].
  destruct (Applications_AddPassword client appId credential w1)
    as [[[newCredential st'] [e|]] w2]; simpl; [disciplined|].
  destruct newCredential as [newCredential|]; simpl; [|disciplined].
  destruct (Cred_KeyId newCredential) as [keyId|]; simpl; [|disciplined].
  destruct (Cred_SecretText newCredential) as [[|c secret]|]; simpl;
    [disciplined| |disciplined].
  match goal with
  | |- context [ApplicationPassword.applicationPasswordResourceRead client
                  (mkSt ?d' (mkRemote ?w' ?tr'))] =>
      destruct (applicationPasswordResourceRead_quiet d' w' tr')
        as (res & d'' & w'' & evs' & -> & Hq)
  end.
  disciplined.
Qed.

Lemma applicationPasswordResourceDelete_disciplined d w tr :
  exists evs,
    trace (st_remote (snd (ApplicationPassword.applicationPasswordResourceDelete client
                             (mkSt d (mkRemote w tr)))))
    = tr ++ evs /\
    lockDiscipline Applications.applicationResourceName
      (match Parse.PasswordID (rd_id d) with
       | inl id => Parse.ObjectId id
       | inr _ => ""
       end) false evs = true.
Proof.
  unfold ApplicationPassword.applicationPasswordResourceDelete. run_prog.
  destruct (Parse.PasswordID (rd_id d)) as [id|err]; simpl; [|untouched].
  destruct (Applications_RemovePassword client _ _ w) as [[st [e|]] w1]; disciplined.
Qed.

Lemma applicationSetOwners_disciplined app id owners w :
  App_ID app = Some id ->
  lockDiscipline Applications.applicationResourceName id false
    (snd (asHelper (applicationSetOwners client app owners) w)) = true.
Proof.
  intros Hid. unfold applicationSetOwners. rewrite Hid. run_prog.
  destruct (Applications_ListOwners client id w) as [[[existing st] [e|]] w1]; simpl;
    [rewrite !String.eqb_refl; reflexivity|].
  destruct existing as [existing|]; simpl; [|rewrite !String.eqb_refl; reflexivity].
  destruct (stringsDifference existing owners) as [|x removal]; simpl.
  - destruct (stringsDifference owners existing) as [|y addition]; simpl;
      [rewrite !String.eqb_refl; reflexivity|].
    destruct (Applications_AddOwners client id _ w1) as [[st' err] w2]; simpl.
    rewrite !String.eqb_refl. reflexivity.
  - destruct (Applications_RemoveOwners client id _ w1) as [[st' [e|]] w2]; simpl;
      [rewrite !String.eqb_refl; reflexivity|].
    destruct (stringsDifference owners existing) as [|y addition]; simpl;
      [rewrite !String.eqb_refl; reflexivity|].
    destruct (Applications_AddOwners client id _ w2) as [[st'' err] w3]; simpl.
    rewrite !String.eqb_refl. reflexivity.
Qed.

(** C2. The Name Lock of the parent application is taken before the
    remote call that changes one of its sub-collections and is released on
    every exit path.  For adding and for removing a password credential,
    and for setting the owners during Create, the events of the operation
    satisfy the lock discipline for the parent: the lock is free when the
    operation ends, whether it returns diagnostics or panics, and every
    change of a sub-collection happens while it is held. *)
Theorem name_lock_held_around_sub_collection_writes :
  (forall credentialFor d r,
      exists evs,
        trace (st_remote (snd (ApplicationPassword.applicationPasswordResourceCreate
                                 client credentialFor (mkSt d r))))
        = trace r ++ evs /\
        lockDiscipline Applications.applicationResourceName
          (rd_GetString d "application_object_id") false evs = true) /\
  (forall d r,
      exists evs,
        trace (st_remote (snd (ApplicationPassword.applicationPasswordResourceDelete
                                 client (mkSt d r))))
        = trace r ++ evs /\
        lockDiscipline Applications.applicationResourceName
          (match Parse.PasswordID (rd_id d) with
           | inl id => Parse.ObjectId id
           | inr _ => ""
           end) false evs = true) /\
  (forall app id owners w,
      App_ID app = Some id ->
      lockDiscipline Applications.applicationResourceName id false
        (snd (asHelper (applicationSetOwners client app owners) w)) = true) /\
  (forall conv findByName d r0 r1 app st w2 appId,
      Applications.createDuplicateCheck findByName d r0 = (Ret None, r1) ->
      Applications_Create client (Applications.createProperties conv d) (world r1)
        = ((Some app, st, None), w2) ->
      App_ID app = Some appId ->
      String.eqb appId "" = false ->
      exists evs,
        trace (st_remote (snd (Applications.applicationResourceCreate client conv
                                 findByName
                                 (fun a l => asHelper (applicationSetOwners client a l))
                                 (mkSt d r0))))
        = trace r1 ++ evs /\
        lockDiscipline Applications.applicationResourceName appId false evs = true).
Proof.
  refine (conj _ (conj _ (conj _ _))).
  - intros credentialFor d [w tr]. apply applicationPasswordResourceCreate_disciplined.
  - intros d [w tr]. apply applicationPasswordResourceDelete_disciplined.
  - apply applicationSetOwners_disciplined.
  - intros conv findByName d r0 r1 app st w2 appId Hg Hc Hid Hne.
    rewrite ApplicationFacts.applicationResourceCreate_steps, Hg. cbv beta zeta.
    rewrite Hc, Hid, Hne.
    pose proof (applicationSetOwners_disciplined app appId
                  (Applications.desiredOwners d) w2 Hid) as Hld.
    destruct (asHelper (applicationSetOwners client app (Applications.desiredOwners d)) w2)
      as [[res w3] evs]. simpl in Hld.
    destruct res as [[e|]|]; simpl; try (eexists; split; [reflexivity|exact Hld]).
    match goal with
    | |- context [Applications.applicationResourceRead client conv
                    (mkSt ?d0 (mkRemote ?w0 ?tr0))] =>
        destruct (applicationResourceRead_quiet conv d0 w0 tr0)
          as (res & d' & w' & evs' & -> & Hq)
    end.
    simpl. rewrite <- ?app_assoc. simpl. eexists. split; [reflexivity|].
    simpl. apply lockDiscipline_app; [exact Hld|].
    apply lockDiscipline_quiet_free, Hq.
Qed.
End Facts.

Import Samples.

(** Adding a password to the sample application, removing it again, and
    creating an application whose owners are then set. *)
Lemma name_lock_held_around_sub_collection_writes_witness :
  (exists evs,
      trace (st_remote (snd (ApplicationPassword.applicationPasswordResourceCreate
                               directory sampleCredential
                               (mkSt plannedPasswordData oneApplication))))
      = trace oneApplication ++ evs /\
      lockDiscipline Applications.applicationResourceName sampleId false evs = true) /\
  lockDiscipline Applications.applicationResourceName sampleId false
    (snd (asHelper (applicationSetOwners directory remoteApplication ["owner"]) [])) = true /\
  (exists evs,
      trace (st_remote (snd (Applications.applicationResourceCreate directory
                               noConversions findAnonymous
                               (fun a l => asHelper (applicationSetOwners directory a l))
                               (mkSt plannedData emptyDirectory))))
      = trace emptyDirectory ++ evs /\
      lockDiscipline Applications.applicationResourceName sampleId false evs = true).
Proof.
  destruct (name_lock_held_around_sub_collection_writes directory)
    as (Hadd & _ & Howners & Hcreate).
  split; [exact (Hadd sampleCredential plannedPasswordData oneApplication)|].
  split; [exact (Howners remoteApplication sampleId ["owner"] [] eq_refl)|].
  exact (Hcreate noConversions findAnonymous plannedData emptyDirectory emptyDirectory
           (withID sampleId (Applications.createProperties noConversions plannedData))
           201
           [withID sampleId (Applications.createProperties noConversions plannedData)]
           sampleId eq_refl eq_refl eq_refl eq_refl).
Defined.

(** The events of adding a password to the sample application, and of
    removing it when the service refuses. *)
Example password_create_events :
  trace (st_remote (snd (ApplicationPassword.applicationPasswordResourceCreate
                           directory sampleCredential
                           (mkSt plannedPasswordData oneApplication))))
  = [ELock "azuread_application" sampleId;
     ECall (ApplicationsGet sampleId);
     ECall (ApplicationsAddPassword sampleId
              {| Cred_DisplayName := Some "ci"; Cred_StartDateTime := None;
                 Cred_EndDateTime := None; Cred_KeyId := None;
                 Cred_SecretText := None |});
     ESetId (rd_id samplePasswordData);
     ECall (ApplicationsGet sampleId);
     ESetId "";
     EUnlock "azuread_application" sampleId].
Proof. vm_compute. reflexivity. Qed.

Example password_delete_events_on_failure :
  ApplicationPassword.applicationPasswordResourceDelete goneApplications
    (mkSt samplePasswordData emptyRemote)
  = (Ret [ErrorDiagF (Some "404 Not Found")
            "Removing password credential %q from application with object ID %q"
            [VString sampleKeyId; VString sampleId]],
     mkSt samplePasswordData
       (mkRemote tt [ELock "azuread_application" sampleId;
                     ECall (ApplicationsRemovePassword sampleId sampleKeyId);
                     EUnlock "azuread_application" sampleId])).
Proof. vm_compute. reflexivity. Qed.
End LockFacts.


(** * Further properties *)

(** ** Domains data source: the services filter and the failures *)

Module DomainsMore.
Import Domains.

Lemma serviceFound_In serviceNeeded services :
  serviceFound serviceNeeded services = true <-> In serviceNeeded services.
Proof.
  induction services as [|s rest IH]; simpl; [split; [discriminate|tauto]|].
  destruct (String.eqb serviceNeeded s) eqn:E.
  - apply String.eqb_eq in E. subst. tauto.
  - apply String.eqb_neq in E. rewrite IH. split; [tauto|].
    intros [H|H]; [congruence|assumption].
Qed.

Lemma countSupported_le needed services :
  (countSupported needed services <= length needed)%nat.
Proof.
  induction needed as [|s rest IH]; simpl; [lia|].
  destruct (serviceFound s services); lia.
Qed.

Lemma countSupported_short needed services :
  (countSupported needed services < length needed)%nat <->
  exists s, In s needed /\ ~ In s services.
Proof.
  induction needed as [|s rest IH]; simpl.
  - split; [lia|intros (s & [] & _)].
  - pose proof (countSupported_le rest services) as Hle.
    destruct (serviceFound s services) eqn:E.
    + apply serviceFound_In in E. split.
      * intros H. assert (Hlt : (countSupported rest services < length rest)%nat) by lia.
        apply IH in Hlt as (x & Hx & Hn). eauto.
      * intros (x & [->|Hx] & Hn); [contradiction|].
        assert (countSupported rest services < length rest)%nat by (apply IH; eauto).
        lia.
    + split; [|lia]. intros _. exists s. split; [auto|].
      intros Hin. apply serviceFound_In in Hin. congruence.
Qed.

(** X1. The services filter drops a domain exactly when services were
    requested, the record lists its supported services, and one of the
    requested services is not among them.  A record without a list of
    services is never dropped by this filter. *)
Theorem services_filter_drops_on_missing_service f v :
  skipServices f v = true <->
  supportsServices f <> [] /\
  exists services,
    Domain_SupportedServices v = Some services /\
    exists s, In s (supportsServices f) /\ ~ In s services.
Proof.
  unfold skipServices.
  destruct (supportsServices f) as [|s0 needed] eqn:Hf.
  - split; [discriminate|]. intros [H _]. congruence.
  - destruct (Domain_SupportedServices v) as [services|].
    + rewrite Nat.ltb_lt, countSupported_short. split.
      * intros H. split; [discriminate|]. eauto.
      * intros (_ & services' & [= <-] & H). exact H.
    + split; [discriminate|]. intros (_ & services & H & _). discriminate.
Qed.

Lemma filter_narrows {A : Type} (P Q : A -> Prop)
    `{!forall x, Decision (P x)} `{!forall x, Decision (Q x)} (l : list A) :
  (forall x, P x -> Q x) -> filter P l `sublist_of` filter Q l.
Proof.
  intros HPQ. induction l as [|x l IH]; [constructor|].
  rewrite !filter_cons.
  destruct (decide (P x)) as [Hp|Hp], (decide (Q x)) as [Hq|Hq].
  - by constructor.
  - exfalso. auto.
  - by constructor.
  - exact IH.
Qed.

Lemma stricter_excluded (on on' : bool) field :
  (on = true -> on' = true) -> ~ excludedBy on' field -> ~ excludedBy on field.
Proof. unfold excludedBy. intros H Hn [H1 H2]. auto. Qed.

Lemma skipServices_stricter f' f v :
  (forall s, In s (supportsServices f) -> In s (supportsServices f')) ->
  skipServices f' v = false -> skipServices f v = false.
Proof.
  intros Hs. unfold skipServices.
  destruct (Domain_SupportedServices v) as [services|];
    [|destruct (supportsServices f); reflexivity].
  destruct (supportsServices f) as [|s0 needed] eqn:Hf; [reflexivity|].
  intros H'. apply Nat.ltb_ge. apply Nat.nlt_ge. intros Hlt.
  apply countSupported_short in Hlt as (s & Hin & Hnot).
  apply Hs in Hin.
  destruct (supportsServices f') as [|s1 needed'] eqn:Hf'; [destruct Hin|].
  apply Nat.ltb_ge in H'.
  assert (countSupported (s1 :: needed') services < length (s1 :: needed'))%nat
    by (apply countSupported_short; eauto).
  lia.
Qed.

Lemma stricter_passes f' f v :
  stricterFilters f' f -> passesFilters f' v -> passesFilters f v.
Proof.
  intros (Ha & Hd & Hi & Hr & Hu & Hs) (P1 & P2 & P3 & P4 & P5 & P6).
  unfold passesFilters.
  refine (conj _ (conj _ (conj _ (conj _ (conj _ _))))).
  - eapply stricter_excluded; eassumption.
  - eapply stricter_excluded; eassumption.
  - eapply stricter_excluded; eassumption.
  - eapply stricter_excluded; eassumption.
  - eapply stricter_excluded; [|exact P5].
    destruct (includeUnverified f) eqn:E1, (includeUnverified f') eqn:E2; simpl; auto.
  - apply (skipServices_stricter f' f v Hs P6).
Qed.

(** X2. Filters only narrow the result: with stricter filters (more filters
    on, more services requested, unverified domains no longer included) the
    domains kept are a sub-list, in the same order, of the domains kept with
    the laxer ones. *)
Theorem stricter_filters_keep_fewer_domains f' f result :
  stricterFilters f' f ->
  listed f' result `sublist_of` listed f result /\
  snd (domainsLoop f' result) `sublist_of` snd (domainsLoop f result).
Proof.
  intros Hs.
  assert (Hl : listed f' result `sublist_of` listed f result).
  { unfold listed. apply filter_narrows. intros v [Hp Hid].
    split; [eapply stricter_passes; eassumption|assumption]. }
  split; [exact Hl|].
  unfold domainsLoop. rewrite !DomainsFacts.fold_domainsStep.
  simpl. clear Hs. induction Hl as [|x l1 l2 _ IH|x l1 l2 _ IH]; simpl.
  - constructor.
  - destruct (Domain_ID x); simpl; [by constructor|exact IH].
  - destruct (Domain_ID x); simpl; [by constructor|exact IH].
Qed.

Lemma stricter_filters_keep_fewer_domains_witness :
  stricterFilters MoreSamples.strictFilters MoreSamples.laxFilters /\
  listed MoreSamples.strictFilters (MoreSamples.mailDomain :: Samples.tenantDomains)
    `sublist_of`
  listed MoreSamples.laxFilters (MoreSamples.mailDomain :: Samples.tenantDomains).
Proof.
  assert (H : stricterFilters MoreSamples.strictFilters MoreSamples.laxFilters).
  { unfold stricterFilters. simpl. repeat split; try discriminate. intros s []. }
  split; [exact H|].
  exact (proj1 (stricter_filters_keep_fewer_domains _ _
                  (MoreSamples.mailDomain :: Samples.tenantDomains) H)).
Defined.

(** X3. The domains data source never panics and makes exactly one call,
    the listing.  When it returns an error (the listing failed, or no
    domain is left after filtering, which includes a nil listing) the
    resource data is untouched.  When it succeeds, at least one listed
    domain passed the filters, the identity is built from the tenant and
    the hash of the kept names joined by a slash, and the [domains]
    attribute holds the kept domains in the order of the listing. *)
Theorem domains_read_all_or_nothing {W : Type} (client : DomainsClient W)
    (sha1_base64 : string -> string) (d : ResourceData) (r : Remote W) :
  exists ds d',
    domainsDataSourceRead client sha1_base64 (mkSt d r)
    = (Ret ds,
       mkSt d' (mkRemote (snd (Domains_List client (world r)))
                  (trace r ++ ECall DomainsList
                           :: (if HasError ds then [] else [ESetId (rd_id d')])))) /\
    (HasError ds = true -> d' = d) /\
    (HasError ds = false ->
     exists result st,
       fst (Domains_List client (world r)) = (Some result, st, None) /\
       listed (readFilters d) result <> [] /\
       rd_id d' = "domains#" +:+ Domains_TenantId client +:+ "#"
                  +:+ sha1_base64
                        (strings_Join (omap Domain_ID (listed (readFilters d) result)) "/") /\
       rd_attrs d' !! "domains"
       = Some (VList (map domainEntry (listed (readFilters d) result))) /\
       rd_state d' = rd_state d).
Proof.
  destruct r as [w tr]. simpl world. simpl trace.
  destruct (Domains_List client w) as [[[[l|] st] [e|]] w'] eqn:Hl; simpl fst; simpl snd.
  - exists [ErrorDiagF (Some e) "Could not list domains" []], d.
    unfold domainsDataSourceRead. run_prog. rewrite Hl. simpl.
    split; [reflexivity|]. split; [reflexivity|intros [=]].
  - rewrite (DomainsFacts.domainsDataSourceRead_listed client sha1_base64 d w tr l st w' Hl).
    cbv zeta.
    destruct (listed (readFilters d) l) as [|v kept] eqn:Hk.
    + exists [ErrorDiagF None "No domains found for the provided filters" []], d.
      split; [reflexivity|]. split; [reflexivity|intros [=]].
    + exists [], (rd_Set "domains" (VList (map domainEntry (v :: kept)))
                   (rd_SetId
                      ("domains#" +:+ Domains_TenantId client +:+ "#"
                       +:+ sha1_base64 (strings_Join (omap Domain_ID (v :: kept)) "/"))
                      d)).
      split; [rewrite <- app_assoc; reflexivity|].
      split; [intros [=]|]. intros _. exists l, st. rewrite Hk.
      split; [reflexivity|]. split; [discriminate|].
      split; [reflexivity|]. split; [|reflexivity].
      unfold rd_Set. simpl. apply lookup_insert_eq.
  - exists [ErrorDiagF (Some e) "Could not list domains" []], d.
    unfold domainsDataSourceRead. run_prog. rewrite Hl. simpl.
    split; [reflexivity|]. split; [reflexivity|intros [=]].
  - exists [ErrorDiagF None "No domains found for the provided filters" []], d.
    unfold domainsDataSourceRead. run_prog. rewrite Hl. simpl.
    split; [reflexivity|]. split; [reflexivity|intros [=]].
Qed.

Lemma domains_read_all_or_nothing_witness :
  exists ds d',
    domainsDataSourceRead Samples.sampleDomains (fun s => s)
      (mkSt Samples.sampleData Samples.emptyRemote)
    = (Ret ds, mkSt d' (mkRemote tt (ECall DomainsList
                                       :: (if HasError ds then []
                                           else [ESetId (rd_id d')])))) /\
    HasError ds = false /\
    rd_id d' = "domains#tenant#contoso.com/unknown.example".
Proof.
  destruct (domains_read_all_or_nothing Samples.sampleDomains (fun s => s)
              Samples.sampleData Samples.emptyRemote) as (ds & d' & Hrun & Herr & Hok).
  exists ds, d'. split; [exact Hrun|].
  assert (Hds : HasError ds = false).
  { vm_compute in Hrun. injection Hrun as Hds _. subst ds. reflexivity. }
  split; [exact Hds|].
  destruct (Hok Hds) as (result & st & Hl & _ & Hid & _).
  injection Hl as <- _. exact Hid.
Defined.
End DomainsMore.

(** ** Resource data *)

Module ResourceDataFacts.

Lemma rd_id_Set k v d : rd_id (rd_Set k v d) = rd_id d.
Proof. reflexivity. Qed.

Lemma rd_state_Set k v d : rd_state (rd_Set k v d) = rd_state d.
Proof. reflexivity. Qed.

Lemma rd_GetString_Set_ptr k p d :
  rd_GetString (rd_Set k (ptrString p) d) k = default "" p.
Proof.
  unfold rd_GetString, rd_Set. simpl. rewrite lookup_insert_eq.
  destruct p; reflexivity.
Qed.

Lemma rd_GetString_Set_eq k s d : rd_GetString (rd_Set k (VString s) d) k = s.
Proof. unfold rd_GetString, rd_Set. simpl. rewrite lookup_insert_eq. reflexivity. Qed.

Lemma rd_GetBool_Set_eq k b d : rd_GetBool (rd_Set k (VBool b) d) k = b.
Proof. unfold rd_GetBool, rd_Set. simpl. rewrite lookup_insert_eq. reflexivity. Qed.

Lemma rd_Get_Set_eq k v d : rd_Get (rd_Set k v d) k = v.
Proof. unfold rd_Get, rd_Set. simpl. rewrite lookup_insert_eq. reflexivity. Qed.

Lemma rd_Get_Set_ne k k' v d : k <> k' -> rd_Get (rd_Set k v d) k' = rd_Get d k'.
Proof.
  intros H. unfold rd_Get, rd_Set. simpl.
  rewrite lookup_insert_ne by exact H. reflexivity.
Qed.

(** Expanding a flattened list of strings gives the list back; a nil
    list comes back empty. *)
Lemma expand_ptrStrings p :
  Applications.tf_ExpandStringSlicePtr (ptrStrings p) = Some (default [] p).
Proof.
  destruct p as [l|]; [|reflexivity]. unfold Applications.tf_ExpandStringSlicePtr.
  simpl. f_equal. induction l as [|x l IH]; [reflexivity|].
  change (x :: omap (fun v => match v with VString s => Some s | _ => None end)
                 (map VString l) = x :: l).
  f_equal. exact IH.
Qed.

Lemma rd_GetBool_Set_ptr k p d :
  rd_GetBool (rd_Set k (ptrBool p) d) k = default false p.
Proof.
  unfold rd_GetBool, rd_Set. simpl. rewrite lookup_insert_eq.
  destruct p; reflexivity.
Qed.

Lemma rd_GetString_Set_ne k k' v d :
  k <> k' -> rd_GetString (rd_Set k v d) k' = rd_GetString d k'.
Proof.
  intros H. unfold rd_GetString, rd_Set. simpl.
  rewrite lookup_insert_ne by exact H. reflexivity.
Qed.

Lemma rd_GetBool_Set_ne k k' v d :
  k <> k' -> rd_GetBool (rd_Set k v d) k' = rd_GetBool d k'.
Proof.
  intros H. unfold rd_GetBool, rd_Set. simpl.
  rewrite lookup_insert_ne by exact H. reflexivity.
Qed.

(** The part of a string before the first separator. *)
Lemma split_head sep s :
  exists p rest,
    strings_Split sep s = p :: rest /\ lacksChar sep p = true /\
    (s = p \/ exists t, s = p +:+ String sep t).
Proof.
  induction s as [|c s (p & rest & Hs & Hp & Hrest)]; simpl.
  - exists "", []. auto.
  - destruct (Ascii.eqb c sep) eqn:Hc.
    + apply Ascii.eqb_eq in Hc. subst c.
      exists "", (strings_Split sep s). split; [reflexivity|].
      split; [reflexivity|]. right. exists s. reflexivity.
    + rewrite Hs. exists (String c p), rest. split; [reflexivity|].
      split; [simpl; rewrite Hc, Hp; reflexivity|].
      destruct Hrest as [->|[t ->]]; [left; reflexivity|right; exists t; reflexivity].
Qed.
End ResourceDataFacts.

(** Reads an attribute back through the writes made after it. *)
Ltac read_back :=
  repeat (rewrite ResourceDataFacts.rd_GetString_Set_ne by discriminate);
  repeat (rewrite ResourceDataFacts.rd_GetBool_Set_ne by discriminate);
  rewrite ?ResourceDataFacts.rd_GetString_Set_ptr,
    ?ResourceDataFacts.rd_GetString_Set_eq,
    ?ResourceDataFacts.rd_GetBool_Set_ptr.

(** ** User resource: Create, the plan-time check, and Read followed by Update *)

Module UsersMore.
Import ResourceDataFacts.
Section Facts.
Context {W : Type}.
Variable client : UsersClient W.
Variable directory : UsersDirectoryClient W.

Abbreviation Read := (Users.userResourceRead client).
Abbreviation Create := (UserCreate.userResourceCreate client directory).

Arguments Users.userResourceRead : simpl never.

Lemma createMailNickname_returns d (s : St W) :
  exists nick,
    UserCreate.createMailNickname d s = (Ret nick, s) /\ isCreateNickname d nick.
Proof.
  unfold UserCreate.createMailNickname, isCreateNickname.
  destruct (String.eqb (rd_GetString d "mail_nickname") "") eqn:E.
  - apply String.eqb_eq in E.
    destruct (split_head "@" (rd_GetString d "user_principal_name"))
      as (p & rest & Hs & Hp & Hrest).
    rewrite Hs. exists p. split; [reflexivity|]. right. auto.
  - apply String.eqb_neq in E. exists (rd_GetString d "mail_nickname").
    split; [reflexivity|]. left. auto.
Qed.

(** The course of Create. *)
Lemma userResourceCreate_steps d r :
  exists nick,
    isCreateNickname d nick /\
    Create (mkSt d r) =
      let p := UserCreate.userCreateProperties d nick in
      let bad :=
        [ErrorDiagF (Some "API returned group with nil object ID") "Bad API Response" []] in
      match Users_Create directory p (world r) with
      | ((_, _, Some e), w1) =>
          (Ret [ErrorDiagF (Some e) "Creating user %q"
                  [VString (rd_GetString d "user_principal_name")]],
           mkSt d (after r (UsersCreate p) w1))
      | ((None, _, None), w1) => (Panic, mkSt d (after r (UsersCreate p) w1))
      | ((Some u, _, None), w1) =>
          match User_ID u with
          | None => (Ret bad, mkSt d (after r (UsersCreate p) w1))
          | Some id =>
              if String.eqb id "" then (Ret bad, mkSt d (after r (UsersCreate p) w1))
              else
                Read (mkSt (rd_SetId id d)
                        (mkRemote w1 (trace r ++ [ECall (UsersCreate p); ESetId id])))
          end
      end.
Proof.
  destruct r as [w tr].
  destruct (createMailNickname_returns d (mkSt d (mkRemote w tr))) as (nick & Hn & Hnick).
  exists nick. split; [exact Hnick|].
  unfold UserCreate.userResourceCreate. run_prog. rewrite Hn. simpl.
  destruct (Users_Create directory _ w) as [[[[u|] st] [e|]] w1]; simpl;
    try reflexivity.
  destruct (User_ID u) as [id|]; simpl; [|reflexivity].
  destruct (String.eqb id ""); simpl; [reflexivity|].
  rewrite <- app_assoc. reflexivity.
Qed.

(** Read leaves the identity alone unless the user is gone. *)
Lemma userResourceRead_identity d r :
  rd_id (st_d (snd (Read (mkSt d r)))) = rd_id d \/
  (rd_id (st_d (snd (Read (mkSt d r)))) = "" /\
   fst (Read (mkSt d r)) = Ret [] /\
   exists u e w',
     Users_Get client (rd_id d) (world r) = ((u, StatusNotFound, Some e), w')).
Proof.
  unfold Users.userResourceRead. run_prog.
  destruct (Users_Get client _ _) as [[[u st] [e|]] w1] eqn:H; simpl.
  - destruct (st =? StatusNotFound) eqn:E; simpl; [|left; reflexivity].
    apply Z.eqb_eq in E. subst st. right.
    split; [reflexivity|]. split; [reflexivity|]. eauto.
  - destruct u; simpl; left; reflexivity.
Qed.

(** Create first calls the service, with the payload built from the
    resource data and the nickname. *)
Lemma userResourceCreate_sends d r :
  exists nick evs,
    isCreateNickname d nick /\
    trace (st_remote (snd (Create (mkSt d r))))
    = trace r ++ ECall (UsersCreate (UserCreate.userCreateProperties d nick)) :: evs.
Proof.
  destruct (userResourceCreate_steps d r) as (nick & Hnick & ->). cbv zeta.
  exists nick.
  destruct (Users_Create directory _ (world r)) as [[[[u|] st] [e|]] w1]; simpl;
    try (exists []; split; [exact Hnick|reflexivity]).
  destruct (User_ID u) as [id|]; simpl; [|exists []; split; [exact Hnick|reflexivity]].
  destruct (String.eqb id ""); simpl; [exists []; split; [exact Hnick|reflexivity]|].
  match goal with
  | |- context [Read (mkSt ?d' ?r')] =>
      destruct (UpdatePayloadClaims.userResourceRead_trace client d' r') as [evs Hevs]
  end.
  exists (ESetId id :: evs). split; [exact Hnick|].
  etransitivity; [exact Hevs|].
  simpl. rewrite <- app_assoc. reflexivity.
Qed.

(** X4. Create of a user never panics before it calls the service: its
    first call is the Create call, and the mail nickname of the payload
    is the configured nickname or, when none is configured, the part of
    the user principal name before its first [@] (the whole name when it
    has none). *)
Theorem user_create_defaults_mail_nickname d r :
  exists nick evs,
    trace (st_remote (snd (Create (mkSt d r))))
    = trace r ++ ECall (UsersCreate (UserCreate.userCreateProperties d nick)) :: evs /\
    User_MailNickname (UserCreate.userCreateProperties d nick) = Some nick /\
    ((rd_GetString d "mail_nickname" <> "" /\ nick = rd_GetString d "mail_nickname") \/
     (rd_GetString d "mail_nickname" = "" /\ lacksChar "@" nick = true /\
      (rd_GetString d "user_principal_name" = nick \/
       exists t, rd_GetString d "user_principal_name" = nick +:+ String "@" t))).
Proof.
  destruct (userResourceCreate_sends d r) as (nick & evs & Hnick & Htr).
  exists nick, evs. split; [exact Htr|]. split; [|exact Hnick].
  unfold UserCreate.userCreateProperties.
  destruct (rd_GetOkString d "onpremises_immutable_id") as [v []]; reflexivity.
Qed.

(** X5. A plan for a new user that the plan-time check accepts leads to
    a Create payload whose password profile carries a non-empty
    password, together with the configured flag to force a change. *)
Theorem accepted_new_user_is_created_with_password d r :
  rd_id d = "" ->
  UserCreate.userResourceCustomizeDiff d = None ->
  exists nick evs pw,
    trace (st_remote (snd (Create (mkSt d r))))
    = trace r ++ ECall (UsersCreate (UserCreate.userCreateProperties d nick)) :: evs /\
    User_PasswordProfile (UserCreate.userCreateProperties d nick)
    = Some {| ForceChangePasswordNextSignIn := Some (rd_GetBool d "force_password_change");
              Password := Some pw |} /\
    pw = rd_GetString d "password" /\ pw <> "".
Proof.
  intros Hid Hplan.
  destruct (userResourceCreate_sends d r) as (nick & evs & _ & Htr).
  exists nick, evs, (rd_GetString d "password").
  split; [exact Htr|]. split.
  - unfold UserCreate.userCreateProperties.
    destruct (rd_GetOkString d "onpremises_immutable_id") as [v []]; reflexivity.
  - split; [reflexivity|].
    unfold UserCreate.userResourceCustomizeDiff in Hplan.
    rewrite Hid in Hplan. simpl in Hplan.
    destruct (String.eqb (rd_GetString d "password") "") eqn:E; [discriminate|].
    apply String.eqb_neq in E. exact E.
Qed.

(** X6. Create of a user stores an identity only when the service
    returned a user with a non-empty ID.  Either Create stops at the
    service call (it failed, or answered with a nil or empty ID): then
    it does not succeed, the resource data is exactly as before and the
    Create call is the only call.  Or the returned ID is stored and the
    outcome is that of Read, so that the final identity is the returned
    ID, or empty when Read found the user gone. *)
Theorem user_create_identity d r :
  let out := Create (mkSt d r) in
  (st_d (snd out) = d /\
   (fst out = Panic \/ exists ds, fst out = Ret ds /\ HasError ds = true) /\
   exists p w1, st_remote (snd out) = after r (UsersCreate p) w1) \/
  (exists p u st w1 id,
     Users_Create directory p (world r) = ((Some u, st, None), w1) /\
     User_ID u = Some id /\ id <> "" /\
     out = Read (mkSt (rd_SetId id d)
                   (mkRemote w1 (trace r ++ [ECall (UsersCreate p); ESetId id]))) /\
     (rd_id (st_d (snd out)) = id \/
      (rd_id (st_d (snd out)) = "" /\ fst out = Ret []))).
Proof.
  cbv zeta. destruct (userResourceCreate_steps d r) as (nick & _ & ->). cbv zeta.
  destruct (Users_Create directory _ (world r)) as [[[[u|] st] [e|]] w1] eqn:Hc.
  - left. simpl. split; [reflexivity|]. split; [right; eexists; split; reflexivity|eauto].
  - destruct (User_ID u) as [id|] eqn:Hid.
    + destruct (String.eqb id "") eqn:Hne.
      * left. simpl. split; [reflexivity|].
        split; [right; eexists; split; reflexivity|eauto].
      * right. apply String.eqb_neq in Hne.
        exists (UserCreate.userCreateProperties d nick), u, st, w1, id.
        split; [exact Hc|]. split; [exact Hid|]. split; [exact Hne|].
        split; [reflexivity|].
        match goal with
        | |- context [Read (mkSt ?d' ?r')] =>
            destruct (userResourceRead_identity d' r') as [H|(H1 & H2 & _)]
        end.
        -- left. exact H.
        -- right. auto.
    + left. simpl. split; [reflexivity|].
      split; [right; eexists; split; reflexivity|eauto].
  - left. simpl. split; [reflexivity|]. split; [right; eexists; split; reflexivity|eauto].
  - left. simpl. split; [reflexivity|]. split; [left; reflexivity|eauto].
Qed.

(** X7. Read followed by Update sends back what was read: after a Read
    that found the user, the payload that Update builds carries the
    identity and, for each of the sixteen profile attributes, the value
    of the remote user, a nil field being sent as the zero value. *)
Theorem user_read_then_update_round_trip d r u st w' :
  Users_Get client (rd_id d) (world r) = ((Some u, st, None), w') ->
  exists d',
    Read (mkSt d r) = (Ret [], mkSt d' (after r (UsersGet (rd_id d)) w')) /\
    let p := Users.userUpdateProperties d' in
    User_ID p = Some (rd_id d) /\
    User_AccountEnabled p = Some (default false (User_AccountEnabled u)) /\
    User_City p = Some (default "" (User_City u)) /\
    User_CompanyName p = Some (default "" (User_CompanyName u)) /\
    User_Country p = Some (default "" (User_Country u)) /\
    User_Department p = Some (default "" (User_Department u)) /\
    User_DisplayName p = Some (default "" (User_DisplayName u)) /\
    User_GivenName p = Some (default "" (User_GivenName u)) /\
    User_JobTitle p = Some (default "" (User_JobTitle u)) /\
    User_MailNickname p = Some (default "" (User_MailNickname u)) /\
    User_MobilePhone p = Some (default "" (User_MobilePhone u)) /\
    User_OfficeLocation p = Some (default "" (User_OfficeLocation u)) /\
    User_PostalCode p = Some (default "" (User_PostalCode u)) /\
    User_State p = Some (default "" (User_State u)) /\
    User_StreetAddress p = Some (default "" (User_StreetAddress u)) /\
    User_Surname p = Some (default "" (User_Surname u)) /\
    User_UsageLocation p = Some (default "" (User_UsageLocation u)).
Proof.
  intros H. destruct r as [w tr]. simpl in H.
  eexists. split.
  - unfold Users.userResourceRead, after. run_prog. rewrite H. simpl. reflexivity.
  - cbv zeta. unfold Users.userUpdateProperties.
    match goal with
    | |- context [rd_HasChange ?d' "password"] =>
        generalize (rd_HasChange d' "password");
        generalize (rd_HasChange d' "onpremises_immutable_id")
    end.
    intros [] []; cbn [User_ID User_AccountEnabled User_City User_CompanyName
      User_Country User_Department User_DisplayName User_GivenName User_JobTitle
      User_MailNickname User_MobilePhone User_OfficeLocation User_PostalCode
      User_State User_StreetAddress User_Surname User_UsageLocation
      Users.setPasswordProfile Users.setOnPremisesImmutableId];
      unfold utils_String, utils_Bool, utils_NullableString;
      repeat split; read_back; reflexivity.
Qed.
End Facts.

Import Samples MoreSamples.

Lemma accepted_new_user_is_created_with_password_witness :
  exists nick evs pw,
    trace (st_remote (snd (UserCreate.userResourceCreate userStore userDirectory
                             (mkSt plannedUser noUsers))))
    = ECall (UsersCreate (UserCreate.userCreateProperties plannedUser nick)) :: evs /\
    User_PasswordProfile (UserCreate.userCreateProperties plannedUser nick)
    = Some {| ForceChangePasswordNextSignIn := Some false; Password := Some pw |} /\
    pw = "pw" /\ pw <> "".
Proof.
  exact (accepted_new_user_is_created_with_password userStore userDirectory
           plannedUser noUsers eq_refl eq_refl).
Defined.

Lemma user_read_then_update_round_trip_witness :
  exists d',
    Users.userResourceRead userStore (mkSt sampleData oneUser)
    = (Ret [], mkSt d' (after oneUser (UsersGet sampleId) [alice])) /\
    User_City (Users.userUpdateProperties d') = Some "Paris" /\
    User_Country (Users.userUpdateProperties d') = Some "".
Proof.
  destruct (user_read_then_update_round_trip userStore sampleData oneUser
              alice 200 [alice] eq_refl) as (d' & Hr & Hp).
  exists d'. split; [exact Hr|]. cbv zeta in Hp.
  split; [exact (proj1 (proj2 (proj2 Hp)))|].
  exact (proj1 (proj2 (proj2 (proj2 (proj2 Hp))))).
Defined.
End UsersMore.

(** ** Read and Delete: what they leave alone *)

Module ReadDeleteMore.
Import ResourceDataFacts.
Section Facts.
Context {W : Type}.
Variable apps : ApplicationsClient W.
Variable conv : Applications.Conversions.
Variable users : UsersClient W.
Variable requests : AccessPackageResourceRequestClient W.

(** X8. Read clears the identity only when the object is gone.  After
    Read of an application, a user or an access package resource request,
    the identity is the one Read started with, unless the Get call failed
    with HTTP 404: then it is empty and Read reports no error.  No Read
    stores any other identity, and none touches the prior state. *)
Theorem read_clears_identity_only_on_not_found (d : ResourceData) (r : Remote W) :
  (let out := Applications.applicationResourceRead apps conv (mkSt d r) in
   rd_state (st_d (snd out)) = rd_state d /\
   (rd_id (st_d (snd out)) = rd_id d \/
    (rd_id (st_d (snd out)) = "" /\ fst out = Ret [] /\
     exists a e w',
       Applications_Get apps (rd_id d) (world r) = ((a, StatusNotFound, Some e), w')))) /\
  (let out := Users.userResourceRead users (mkSt d r) in
   rd_state (st_d (snd out)) = rd_state d /\
   (rd_id (st_d (snd out)) = rd_id d \/
    (rd_id (st_d (snd out)) = "" /\ fst out = Ret [] /\
     exists u e w',
       Users_Get users (rd_id d) (world r) = ((u, StatusNotFound, Some e), w')))) /\
  (let out :=
     IdentityGovernance.accessPackageResourceRequestResourceRead requests (mkSt d r) in
   rd_state (st_d (snd out)) = rd_state d /\
   (rd_id (st_d (snd out)) = rd_id d \/
    (rd_id (st_d (snd out)) = "" /\ fst out = Ret [] /\
     exists a e w',
       APRR_Get requests (rd_id d) (world r) = ((a, StatusNotFound, Some e), w')))).
Proof.
  cbv zeta. refine (conj _ (conj _ _)).
  - unfold Applications.applicationResourceRead. run_prog.
    destruct (Applications_Get apps _ _) as [[[a st] [e|]] w1] eqn:H; simpl.
    + destruct (st =? StatusNotFound) eqn:E; simpl; [|auto].
      apply Z.eqb_eq in E. subst st. split; [reflexivity|]. right.
      split; [reflexivity|]. split; [reflexivity|]. eauto.
    + destruct a as [a|]; simpl; [|auto].
      destruct (App_ID a) as [appId|]; simpl; [|auto].
      destruct (Applications_ListOwners apps appId w1) as [[[o st'] [e|]] w2];
        simpl; auto.
  - unfold Users.userResourceRead. run_prog.
    destruct (Users_Get users _ _) as [[[u st] [e|]] w1] eqn:H; simpl.
    + destruct (st =? StatusNotFound) eqn:E; simpl; [|auto].
      apply Z.eqb_eq in E. subst st. split; [reflexivity|]. right.
      split; [reflexivity|]. split; [reflexivity|]. eauto.
    + destruct u; simpl; auto.
  - unfold IdentityGovernance.accessPackageResourceRequestResourceRead. run_prog.
    destruct (APRR_Get requests _ _) as [[[a st] [e|]] w1] eqn:H; simpl.
    + destruct (st =? StatusNotFound) eqn:E; simpl; [|auto].
      apply Z.eqb_eq in E. subst st. split; [reflexivity|]. right.
      split; [reflexivity|]. split; [reflexivity|]. eauto.
    + destruct a; simpl; auto.
Qed.

(** X9. Delete never writes to the resource data, and it sends the delete
    request only after its Get call succeeded.  For an application and
    for a user, Delete never panics: either Get failed, and Delete
    returns an error after that single call, or the delete request is the
    second and last call, and Delete succeeds exactly when that request
    did.  Delete of an access package resource request passes the object
    that Get returned to the delete request, and panics when Get returned
    neither an object nor an error. *)
Theorem delete_only_after_successful_get (d : ResourceData) (r : Remote W) :
  (let out := Applications.applicationResourceDelete apps (mkSt d r) in
   st_d (snd out) = d /\
   ((exists e ds,
       snd (fst (Applications_Get apps (rd_id d) (world r))) = Some e /\
       fst out = Ret ds /\ HasError ds = true /\
       st_remote (snd out)
       = after r (ApplicationsGet (rd_id d))
           (snd (Applications_Get apps (rd_id d) (world r)))) \/
    (exists ds st2 e2 w2,
       snd (fst (Applications_Get apps (rd_id d) (world r))) = None /\
       Applications_Delete apps (rd_id d)
         (snd (Applications_Get apps (rd_id d) (world r))) = ((st2, e2), w2) /\
       fst out = Ret ds /\
       HasError ds = match e2 with Some _ => true | None => false end /\
       st_remote (snd out)
       = mkRemote w2 (trace r ++ [ECall (ApplicationsGet (rd_id d));
                                  ECall (ApplicationsDelete (rd_id d))])))) /\
  (let out := Users.userResourceDelete users (mkSt d r) in
   st_d (snd out) = d /\
   ((exists e ds,
       snd (fst (Users_Get users (rd_id d) (world r))) = Some e /\
       fst out = Ret ds /\ HasError ds = true /\
       st_remote (snd out)
       = after r (UsersGet (rd_id d)) (snd (Users_Get users (rd_id d) (world r)))) \/
    (exists ds st2 e2 w2,
       snd (fst (Users_Get users (rd_id d) (world r))) = None /\
       Users_Delete users (rd_id d) (snd (Users_Get users (rd_id d) (world r)))
       = ((st2, e2), w2) /\
       fst out = Ret ds /\
       HasError ds = match e2 with Some _ => true | None => false end /\
       st_remote (snd out)
       = mkRemote w2 (trace r ++ [ECall (UsersGet (rd_id d));
                                  ECall (UsersDelete (rd_id d))])))) /\
  (let out :=
     IdentityGovernance.accessPackageResourceRequestResourceDelete requests (mkSt d r) in
   let get := APRR_Get requests (rd_id d) (world r) in
   st_d (snd out) = d /\
   ((exists e ds,
       snd (fst get) = Some e /\ fst out = Ret ds /\
       HasError ds = negb (snd (fst (fst get)) =? StatusNotFound) /\
       st_remote (snd out)
       = after r (AccessPackageResourceRequestGet (rd_id d)) (snd get)) \/
    (fst (fst (fst get)) = None /\ snd (fst get) = None /\ fst out = Panic /\
     st_remote (snd out)
     = after r (AccessPackageResourceRequestGet (rd_id d)) (snd get)) \/
    (exists a ds st2 e2 w2,
       fst (fst (fst get)) = Some a /\ snd (fst get) = None /\
       APRR_Delete requests a (snd get) = ((st2, e2), w2) /\
       fst out = Ret ds /\
       HasError ds = match e2 with Some _ => true | None => false end /\
       st_remote (snd out)
       = mkRemote w2 (trace r ++ [ECall (AccessPackageResourceRequestGet (rd_id d));
                                  ECall (AccessPackageResourceRequestDelete a)])))).
Proof.
  cbv zeta. refine (conj _ (conj _ _)).
  - unfold Applications.applicationResourceDelete, after. run_prog.
    destruct (Applications_Get apps _ _) as [[[a st] [e|]] w1]; simpl.
    + split; [destruct (st =? StatusNotFound); reflexivity|]. left.
      destruct (st =? StatusNotFound); simpl; eauto 10.
    + destruct (Applications_Delete apps _ w1) as [[st2 [e2|]] w2] eqn:Hd; simpl;
        (split; [reflexivity|]); right; rewrite <- app_assoc; simpl;
        eexists _, st2, _, w2; eauto 10.
  - unfold Users.userResourceDelete, after. run_prog.
    destruct (Users_Get users _ _) as [[[a st] [e|]] w1]; simpl.
    + split; [destruct (st =? StatusNotFound); reflexivity|]. left.
      destruct (st =? StatusNotFound); simpl; eauto 10.
    + destruct (Users_Delete users _ w1) as [[st2 [e2|]] w2] eqn:Hd; simpl;
        (split; [reflexivity|]); right; rewrite <- app_assoc; simpl;
        eexists _, st2, _, w2; eauto 10.
  - unfold IdentityGovernance.accessPackageResourceRequestResourceDelete, after.
    run_prog.
    destruct (APRR_Get requests _ _) as [[[a st] [e|]] w1]; simpl.
    + split; [destruct (st =? StatusNotFound); reflexivity|]. left.
      destruct (st =? StatusNotFound); simpl; eauto 10.
    + destruct a as [a|]; simpl; [|split; [reflexivity|]; right; left; auto].
      destruct (APRR_Delete requests a w1) as [[st2 [e2|]] w2] eqn:Hd; simpl;
        (split; [reflexivity|]); right; right; rewrite <- app_assoc; simpl;
        eexists a, _, st2, _, w2; eauto 10.
Qed.
End Facts.
End ReadDeleteMore.

(** ** User data source *)

Module UserDataSourceMore.
Import ResourceDataFacts.
Section Facts.
Context {W : Type}.
Variable client : UsersClient W.
Variable directory : UsersDirectoryClient W.

Abbreviation Lookup := (UserDataSource.userDataSourceRead client directory).

(** Where a user that the lookup found came from: it is the only entry of
    a listing, or the answer of the Get call by object ID. *)
Lemma singleUser_cases attr found notFound arg users :
  (exists ds, UserDataSource.singleUser attr found notFound arg users = inl ds /\
              HasError ds = true /\ forall user, users <> Some [user]) \/
  (exists user, UserDataSource.singleUser attr found notFound arg users = inr user /\
                users = Some [user]).
Proof.
  destruct users as [[|u [|u2 us]]|]; simpl.
  - left. eexists. split; [reflexivity|]. split; [reflexivity|]. intros ? [=].
  - right. eauto.
  - left. eexists. split; [reflexivity|]. split; [reflexivity|]. intros ? [=].
  - left. eexists. split; [reflexivity|]. split; [reflexivity|]. intros ? [=].
Qed.

(** Where the user found comes from, by the attribute that is set. *)
Lemma findUser_returns d r :
  exists res rem',
    UserDataSource.findUser client directory d (mkSt d r) = (Ret res, mkSt d rem') /\
    match res with
    | inl ds => HasError ds = true
    | inr user =>
        (rd_GetString d "user_principal_name" <> "" /\
         exists st w',
           Users_List directory
             ("userPrincipalName eq '" +:+ rd_GetString d "user_principal_name" +:+ "'")
             (world r) = ((Some [user], st, None), w')) \/
        (rd_GetString d "user_principal_name" = "" /\
         rd_GetString d "object_id" <> "" /\
         exists st w',
           Users_Get client (rd_GetString d "object_id") (world r)
           = ((Some user, st, None), w')) \/
        (rd_GetString d "user_principal_name" = "" /\
         rd_GetString d "object_id" = "" /\
         rd_GetString d "mail_nickname" <> "" /\
         exists st w',
           Users_List directory
             ("mailNickname eq '" +:+ rd_GetString d "mail_nickname" +:+ "'")
             (world r) = ((Some [user], st, None), w'))
    end.
Proof.
  unfold UserDataSource.findUser. destruct r as [w tr]. cbn [world].
  destruct (String.eqb (rd_GetString d "user_principal_name") "") eqn:Eu;
    cbn [negb].
  2: { apply String.eqb_neq in Eu.
       cbv beta iota zeta delta [bind lift query ret].
       destruct (Users_List directory _ w) as [[[users st] [e|]] w1] eqn:Hl.
       - eexists (inl _), _. split; reflexivity.
       - match goal with
         | |- context [UserDataSource.singleUser ?a ?f ?n ?x users] =>
             destruct (singleUser_cases a f n x users)
               as [(ds & -> & Hds & _)|(user & -> & ->)]
         end.
         + eexists (inl ds), _. split; [reflexivity|exact Hds].
         + eexists (inr user), _. split; [reflexivity|]. left. eauto. }
  apply String.eqb_eq in Eu.
  destruct (String.eqb (rd_GetString d "object_id") "") eqn:Eo; cbn [negb].
  2: { apply String.eqb_neq in Eo.
       cbv beta iota zeta delta [bind lift call ret].
       destruct (Users_Get client _ w) as [[[u st] [e|]] w1] eqn:Hg.
       - destruct (st =? StatusNotFound); eexists (inl _), _; split; reflexivity.
       - destruct u as [user|].
         + eexists (inr user), _. split; [reflexivity|]. right. left. eauto.
         + eexists (inl _), _. split; reflexivity. }
  apply String.eqb_eq in Eo.
  destruct (String.eqb (rd_GetString d "mail_nickname") "") eqn:Em; cbn [negb].
  2: { apply String.eqb_neq in Em.
       cbv beta iota zeta delta [bind lift query ret].
       destruct (Users_List directory _ w) as [[[users st] [e|]] w1] eqn:Hl.
       - eexists (inl _), _. split; reflexivity.
       - match goal with
         | |- context [UserDataSource.singleUser ?a ?f ?n ?x users] =>
             destruct (singleUser_cases a f n x users)
               as [(ds & -> & Hds & _)|(user & -> & ->)]
         end.
         + eexists (inl ds), _. split; [reflexivity|exact Hds].
         + eexists (inr user), _. split; [reflexivity|]. right. right. eauto 10. }
  cbv beta iota zeta delta [ret]. eexists (inl _), _. split; reflexivity.
Qed.

(** X10. The user data source never panics, and it is all or nothing.
    When it returns an error, the resource data is untouched.  When it
    succeeds, the user it describes is the only entry of the listing it
    asked for (by user principal name when that is set, else by mail
    nickname when no object ID is set either, with the filter built
    from that attribute) or the answer of the Get call by the object ID
    (when no user principal name is set); the identity and the
    [object_id] attribute are the ID of that user, and the
    [user_principal_name] and [mail_nickname] attributes are those of
    that user. *)
Theorem user_data_source_all_or_nothing d r :
  exists ds d' rem',
    Lookup (mkSt d r) = (Ret ds, mkSt d' rem') /\
    ((HasError ds = true /\ d' = d) \/
     (ds = [] /\
      exists user id,
        ((rd_GetString d "user_principal_name" <> "" /\
          exists st w',
            Users_List directory
              ("userPrincipalName eq '" +:+ rd_GetString d "user_principal_name" +:+ "'")
              (world r) = ((Some [user], st, None), w')) \/
         (rd_GetString d "user_principal_name" = "" /\
          rd_GetString d "object_id" <> "" /\
          exists st w',
            Users_Get client (rd_GetString d "object_id") (world r)
            = ((Some user, st, None), w')) \/
         (rd_GetString d "user_principal_name" = "" /\
          rd_GetString d "object_id" = "" /\
          rd_GetString d "mail_nickname" <> "" /\
          exists st w',
            Users_List directory
              ("mailNickname eq '" +:+ rd_GetString d "mail_nickname" +:+ "'")
              (world r) = ((Some [user], st, None), w'))) /\
        User_ID user = Some id /\
        rd_id d' = id /\
        rd_GetString d' "object_id" = id /\
        rd_GetString d' "user_principal_name" = default "" (User_UserPrincipalName user) /\
        rd_GetString d' "mail_nickname" = default "" (User_MailNickname user) /\
        rd_state d' = rd_state d)).
Proof.
  destruct (findUser_returns d r) as (res & [w1 tr1] & Hf & Hres).
  unfold UserDataSource.userDataSourceRead.
  cbv beta iota zeta delta [bind getD]. rewrite Hf.
  destruct res as [ds|user].
  - exists ds, d, (mkRemote w1 tr1). split; [reflexivity|]. left. auto.
  - destruct (User_ID user) as [id|] eqn:Hid.
    + run_prog. eexists [], _, _. split; [reflexivity|]. right.
      split; [reflexivity|]. exists user, id.
      split; [exact Hres|]. split; [exact Hid|]. split; [reflexivity|].
      split; [read_back; reflexivity|].
      split; [read_back; reflexivity|].
      split; [read_back; reflexivity|reflexivity].
    + run_prog. eexists _, d, _. split; [reflexivity|]. left. auto.
Qed.

(** X11. A lookup by mail nickname that finds no user, or more than one,
    reports it on the [mail_nickname] attribute with a message that is
    formatted with the user principal name, which is empty in this
    branch, and not with the mail nickname that was looked up.  The
    resource data is left untouched. *)
Theorem mail_nickname_lookup_reports_empty_alias d r users st w' :
  rd_GetString d "user_principal_name" = "" ->
  rd_GetString d "object_id" = "" ->
  rd_GetString d "mail_nickname" <> "" ->
  Users_List directory ("mailNickname eq '" +:+ rd_GetString d "mail_nickname" +:+ "'")
    (world r) = ((Some users, st, None), w') ->
  length users <> 1%nat ->
  exists summary,
    Lookup (mkSt d r)
    = (Ret [ErrorDiagPathF None "mail_nickname" summary [VString ""]],
       mkSt d (mkRemote w' (trace r))).
Proof.
  intros Hupn Hoid Hmn Hl Hlen. apply String.eqb_neq in Hmn.
  unfold UserDataSource.userDataSourceRead, UserDataSource.findUser.
  destruct r as [w tr]. cbn [world] in Hl.
  cbv beta iota zeta delta [bind getD]. rewrite Hupn, Hoid, Hmn.
  cbn [String.eqb negb]. cbv beta iota zeta delta [bind lift query ret]. rewrite Hl.
  destruct users as [|u [|u2 us]]; simpl.
  - eexists. reflexivity.
  - exfalso. apply Hlen. reflexivity.
  - eexists. reflexivity.
Qed.
End Facts.

Import Samples MoreSamples.

Lemma mail_nickname_lookup_reports_empty_alias_witness :
  exists summary,
    UserDataSource.userDataSourceRead userStore userDirectory (mkSt byNickname noUsers)
    = (Ret [ErrorDiagPathF None "mail_nickname" summary [VString ""]],
       mkSt byNickname noUsers).
Proof.
  refine (mail_nickname_lookup_reports_empty_alias userStore userDirectory
            byNickname noUsers [] 200 [] eq_refl eq_refl _ eq_refl _).
  - vm_compute. discriminate.
  - simpl. lia.
Defined.
End UserDataSourceMore.

(** ** The plan-time check of an application *)

Module ApplicationPlanFacts.
Import ApplicationPlan.

(** X12. What the plan-time loop over the applications found under the new
    display name reports.  It passes only for a resource that exists
    already, and only when every match has an ID that differs from the
    resource's own.  A duplicate is reported, with the ID of a match, for
    a new resource or when that match is the resource itself.  A match
    without ID is an error. *)
Theorem plan_check_duplicate_outcomes (diffId name : string) (l : list Application) :
  match customizeDiffLoop diffId name l with
  | None =>
      l = [] \/
      (diffId <> "" /\
       Forall (fun a => exists id, App_ID a = Some id /\ id <> diffId) l)
  | Some (ImportAsDuplicateError rn eid nm) =>
      rn = "azuread_application" /\ nm = name /\
      (exists a, In a l /\ App_ID a = Some eid) /\
      (diffId = "" \/ diffId = eid)
  | Some NilObjectIDInCheck => exists a, In a l /\ App_ID a = None
  | Some _ => False
  end.
Proof.
  induction l as [|a l IH]; simpl; [left; reflexivity|].
  destruct (App_ID a) as [eid|] eqn:Ha; [|exists a; auto].
  destruct (String.eqb diffId "") eqn:E1; simpl.
  { apply String.eqb_eq in E1. split; [reflexivity|]. split; [reflexivity|].
    split; [exists a; auto|left; exact E1]. }
  destruct (String.eqb diffId eid) eqn:E2.
  { apply String.eqb_eq in E2. split; [reflexivity|]. split; [reflexivity|].
    split; [exists a; auto|right; exact E2]. }
  apply String.eqb_neq in E1. apply String.eqb_neq in E2.
  destruct (customizeDiffLoop diffId name l) as [[e| |rn eid' nm|e]|].
  - exact IH.
  - destruct IH as (b & Hb & Hid). exists b. auto.
  - destruct IH as (Hrn & Hnm & (b & Hb & Hid) & Hd).
    split; [exact Hrn|]. split; [exact Hnm|]. split; [exists b; auto|exact Hd].
  - exact IH.
  - right. split; [exact E1|]. constructor.
    + exists eid. split; [exact Ha|]. congruence.
    + destruct IH as [->|[_ IH]]; [constructor|exact IH].
Qed.

Section Plan.
Context {W : Type}.
Variable findByName : string -> Helper W (option (list Application) * option error).
Variable validate : Value -> Value -> option error.

(** X13. When the plan-time check searches the directory (the duplicate
    name guard is on and the display name is new or changed), it and
    the check that Update makes at apply time never both pass on a name
    that is in use.  For a resource that exists, on the same directory
    and a search that finds at least one application: when the
    plan-time check reports nothing about duplicates, so that its result
    is that of the validation of roles and scopes, the check of Update
    refuses with the duplicate error that names the first match, which
    is another application; and when the check of Update passes, the
    plan-time check reports the resource itself as the duplicate. *)
Theorem plan_and_update_checks_never_both_pass (d : ResourceData) (r : Remote W)
    (a : Application) (l : list Application) (w1 : W) (evs : list Event) :
  rd_id d <> "" ->
  searchesAtPlanTime d = true ->
  findByName (rd_GetString d "display_name") (world r)
  = (Ret (Some (a :: l), None), w1, evs) ->
  let name := rd_GetString d "display_name" in
  let plan := applicationResourceCustomizeDiff findByName validate d r in
  let update := Applications.updateDuplicateCheck findByName d r in
  (fst plan = Ret (validateRolesScopes validate d) ->
   exists cid,
     App_ID a = Some cid /\ cid <> rd_id d /\
     fst update = Ret (Some [ImportAsDuplicateDiag "azuread_application" cid name])) /\
  (fst update = Ret None ->
   fst plan = Ret (Some (ImportAsDuplicateError "azuread_application" (rd_id d) name))).
Proof.
  intros Hid Hs Hf. cbv zeta.
  assert (Hg : rd_GetBool d "prevent_duplicate_names" = true).
  { unfold searchesAtPlanTime in Hs. apply andb_prop in Hs. tauto. }
  assert (Hplan : fst (applicationResourceCustomizeDiff findByName validate d r)
                  = Ret (match customizeDiffLoop (rd_id d) (rd_GetString d "display_name")
                                 (a :: l) with
                         | Some e => Some e
                         | None => validateRolesScopes validate d
                         end)).
  { unfold applicationResourceCustomizeDiff. rewrite Hs.
    destruct r as [w tr]. cbn [world] in Hf.
    cbv beta iota zeta delta [bind ret runHelper]. rewrite Hf.
    destruct (customizeDiffLoop _ _ (a :: l)); reflexivity. }
  assert (Hupd : fst (Applications.updateDuplicateCheck findByName d r)
                 = Ret (Applications.updateDuplicateLoop (rd_id d)
                          (rd_GetString d "display_name") (a :: l))).
  { unfold Applications.updateDuplicateCheck. rewrite Hg.
    destruct r as [w tr]. cbn [world] in Hf.
    cbv beta iota zeta delta [bind ret runHelper]. rewrite Hf. reflexivity. }
  rewrite Hplan, Hupd. simpl.
  destruct (App_ID a) as [eid|].
  2: { split; [|discriminate]. unfold validateRolesScopes.
       destruct (validate _ _); discriminate. }
  apply String.eqb_neq in Hid. rewrite Hid. simpl.
  destruct (String.eqb (rd_id d) eid) eqn:E.
  - apply String.eqb_eq in E. subst eid. rewrite String.eqb_refl. simpl.
    split; [|reflexivity]. unfold validateRolesScopes.
    destruct (validate _ _); discriminate.
  - rewrite String.eqb_sym, E. simpl. split; [|discriminate].
    intros _. exists eid. split; [reflexivity|]. split; [|reflexivity].
    apply String.eqb_neq in E. congruence.
Qed.

(** X14. For a new application with the duplicate name guard on, the
    plan-time check and Create agree: on the same directory, the plan-time
    check fails with the duplicate error for an ID exactly when the check
    that opens Create returns the duplicate diagnostic for that ID; both
    search once and leave the directory in the same state. *)
Theorem plan_and_create_agree_on_duplicates (d : ResourceData) (r : Remote W) :
  rd_id d = "" ->
  rd_GetOldString d "display_name" = "" ->
  rd_GetBool d "prevent_duplicate_names" = true ->
  let plan := applicationResourceCustomizeDiff findByName validate d r in
  let create := Applications.createDuplicateCheck findByName d r in
  snd plan = snd create /\
  forall rn id nm,
    fst plan = Ret (Some (ImportAsDuplicateError rn id nm)) <->
    fst create = Ret (Some [ImportAsDuplicateDiag rn id nm]).
Proof.
  intros Hid Hold Hg. cbv zeta.
  unfold applicationResourceCustomizeDiff, Applications.createDuplicateCheck,
    searchesAtPlanTime, validateRolesScopes.
  rewrite Hg, Hold, Hid. cbn [String.eqb andb orb]. run_prog.
  destruct (findByName _ _) as [[[[result [e|]]|] w1] evs]; simpl.
  - split; [reflexivity|]. intros rn id nm. split; discriminate.
  - destruct result as [[|a l]|]; simpl.
    + split; [reflexivity|]. intros rn id nm.
      destruct (validate _ _); simpl; split; discriminate.
    + destruct (App_ID a) as [eid|]; simpl.
      * split; [reflexivity|]. intros rn id nm.
        split; intros [= <- <- <-]; reflexivity.
      * split; [reflexivity|]. intros rn id nm. split; discriminate.
    + split; [reflexivity|]. intros rn id nm.
      destruct (validate _ _); simpl; split; discriminate.
  - split; [reflexivity|]. intros rn id nm. split; discriminate.
Qed.
End Plan.

Import Samples MoreSamples.

Lemma plan_and_update_checks_never_both_pass_witness :
  exists cid,
    cid <> sampleId /\
    fst (Applications.updateDuplicateCheck (W := unit) findOneOther guardedData emptyRemote)
    = Ret (Some [ImportAsDuplicateDiag "azuread_application" cid "app"]).
Proof.
  assert (Hid : rd_id guardedData <> "") by (vm_compute; discriminate).
  destruct (proj1 (plan_and_update_checks_never_both_pass findOneOther rolesScopesValid
                     guardedData emptyRemote (withID otherId anonymousApplication) []
                     tt [] Hid eq_refl eq_refl) eq_refl)
    as (cid & _ & Hne & Hdup).
  exists cid. split; [exact Hne|exact Hdup].
Defined.

Lemma plan_and_create_agree_on_duplicates_witness :
  fst (Applications.createDuplicateCheck (W := unit) findOneOther guardedPlan emptyRemote)
  = Ret (Some [ImportAsDuplicateDiag "azuread_application" otherId "app"]).
Proof.
  destruct (plan_and_create_agree_on_duplicates findOneOther rolesScopesValid
              guardedPlan emptyRemote eq_refl eq_refl eq_refl) as [_ H].
  apply H. reflexivity.
Defined.
End ApplicationPlanFacts.

(** ** Application password resource *)

Module ApplicationPasswordMore.
Import ResourceDataFacts.

(** X15. The upgrade of a stored state from schema version 0 touches the
    identifier only.  When it succeeds, the new state has a string under
    ["id"] and every other attribute as before; when the old identifier
    does not parse, the state is returned as it was, with the error; and
    it panics exactly when the stored state has no string under ["id"]. *)
Theorem state_upgrade_touches_only_the_identifier (legacyKeyId : string -> string)
    (rawState : gmap string Value) :
  match ApplicationPassword.resourceApplicationPasswordInstanceStateUpgradeV0
          legacyKeyId rawState with
  | Panic => forall s, rawState !! "id" <> Some (VString s)
  | Ret (m, Some _) => m = rawState /\ exists s, rawState !! "id" = Some (VString s)
  | Ret (m, None) =>
      (exists old new,
          rawState !! "id" = Some (VString old) /\ m !! "id" = Some (VString new)) /\
      forall k, k <> "id" -> m !! k = rawState !! k
  end.
Proof.
  unfold ApplicationPassword.resourceApplicationPasswordInstanceStateUpgradeV0.
  destruct (rawState !! "id") as [[|s|b|z|l|m]|] eqn:Hid; try (intros s'; discriminate).
  destruct (Parse.OldPasswordID legacyKeyId s) as [newId|err].
  - split.
    + exists s, (Parse.CredentialId_String newId). split; [reflexivity|].
      apply lookup_insert_eq.
    + intros k Hk. apply lookup_insert_ne. congruence.
  - split; [reflexivity|]. eauto.
Qed.

Lemma state_upgrade_touches_only_the_identifier_witness :
  fst (match ApplicationPassword.resourceApplicationPasswordInstanceStateUpgradeV0
               (fun _ => Samples.sampleKeyId) Samples.legacyState with
       | Ret out => out
       | Panic => (∅, None)
       end) !! "value" = Some (VString "secret").
Proof.
  pose proof (state_upgrade_touches_only_the_identifier
                (fun _ => Samples.sampleKeyId) Samples.legacyState) as H.
  destruct (ApplicationPassword.resourceApplicationPasswordInstanceStateUpgradeV0
              (fun _ => Samples.sampleKeyId) Samples.legacyState)
    as [[m [e|]]|] eqn:E.
  - vm_compute in E. discriminate E.
  - destruct H as [_ H]. simpl. rewrite (H "value") by discriminate. reflexivity.
  - vm_compute in E. discriminate E.
Defined.

(** X16. The loop over the passwords of an application returns the first
    credential whose key ID is the one looked for, and nothing exactly
    when no credential has that key ID; credentials without key ID are
    passed over. *)
Theorem find_credential_returns_first_match (keyId : string)
    (creds : list PasswordCredential) :
  match ApplicationPassword.findCredential keyId creds with
  | Some credential =>
      exists before rest,
        creds = before ++ credential :: rest /\
        Cred_KeyId credential = Some keyId /\
        Forall (fun c => Cred_KeyId c <> Some keyId) before
  | None => Forall (fun c => Cred_KeyId c <> Some keyId) creds
  end.
Proof.
  induction creds as [|c creds IH]; simpl; [constructor|].
  destruct (Cred_KeyId c) as [k|] eqn:Hk.
  - destruct (String.eqb k keyId) eqn:E.
    + apply String.eqb_eq in E. subst k. exists [], creds.
      split; [reflexivity|]. split; [exact Hk|constructor].
    + apply String.eqb_neq in E.
      assert (Hc : Cred_KeyId c <> Some keyId) by congruence.
      destruct (ApplicationPassword.findCredential keyId creds) as [credential|].
      * destruct IH as (before & rest & -> & Hm & Hb).
        exists (c :: before), rest. split; [reflexivity|].
        split; [exact Hm|constructor; assumption].
      * constructor; assumption.
  - assert (Hc : Cred_KeyId c <> Some keyId) by congruence.
    destruct (ApplicationPassword.findCredential keyId creds) as [credential|].
    + destruct IH as (before & rest & -> & Hm & Hb).
      exists (c :: before), rest. split; [reflexivity|].
      split; [exact Hm|constructor; assumption].
    + constructor; assumption.
Qed.

Section Facts.
Context {W : Type}.
Variable client : ApplicationsClient W.
Variable credentialFor :
  ResourceData -> option PasswordCredential * option (error * option string).

Abbreviation Read := (ApplicationPassword.applicationPasswordResourceRead client).
Abbreviation Create :=
  (ApplicationPassword.applicationPasswordResourceCreate client credentialFor).

Arguments ApplicationPassword.applicationPasswordResourceRead : simpl never.

(** Read of a password never touches the stored secret, and leaves the
    identity alone or clears it. *)
Lemma applicationPasswordResourceRead_keeps_secret d r :
  rd_attrs (st_d (snd (Read (mkSt d r)))) !! "value" = rd_attrs d !! "value" /\
  (rd_id (st_d (snd (Read (mkSt d r)))) = rd_id d \/
   rd_id (st_d (snd (Read (mkSt d r)))) = "").
Proof.
  unfold ApplicationPassword.applicationPasswordResourceRead. run_prog.
  destruct (Parse.PasswordID (rd_id d)) as [id|err]; simpl; [|auto].
  destruct (Applications_Get client _ _) as [[[app st] [e|]] w1]; simpl.
  - destruct (st =? StatusNotFound); simpl; auto.
  - destruct app as [app|]; simpl; [|auto].
    destruct (App_PasswordCredentials app) as [creds|]; simpl; [|auto].
    destruct (ApplicationPassword.findCredential (Parse.KeyId id) creds); simpl; [|auto].
    split; [|auto]. unfold rd_Set. simpl.
    rewrite !lookup_insert_ne by discriminate. reflexivity.
Qed.

(** X17. Read of a password follows the credential on the application.
    When the stored identity parses and the application is retrieved,
    Read succeeds; if no password of the application has the key ID of
    the identity, the identity is cleared and nothing else changes;
    otherwise the identity stays, the attributes are those of the first
    password with that key ID, and the stored secret is not touched. *)
Theorem password_read_follows_the_credential d r id app st w' :
  Parse.PasswordID (rd_id d) = inl id ->
  Applications_Get client (Parse.ObjectId id) (world r) = ((Some app, st, None), w') ->
  exists d',
    fst (Read (mkSt d r)) = Ret [] /\ st_d (snd (Read (mkSt d r))) = d' /\
    match ApplicationPassword.findCredential (Parse.KeyId id)
            (default [] (App_PasswordCredentials app)) with
    | None => d' = rd_SetId "" d
    | Some credential =>
        rd_id d' = rd_id d /\
        rd_GetString d' "application_object_id" = Parse.ObjectId id /\
        rd_GetString d' "key_id" = Parse.KeyId id /\
        rd_GetString d' "display_name" = default "" (Cred_DisplayName credential) /\
        rd_GetString d' "start_date" = default "" (Cred_StartDateTime credential) /\
        rd_GetString d' "end_date" = default "" (Cred_EndDateTime credential) /\
        rd_attrs d' !! "value" = rd_attrs d !! "value"
    end.
Proof.
  intros Hid Hget. destruct r as [w tr]. cbn [world] in Hget.
  unfold ApplicationPassword.applicationPasswordResourceRead. run_prog.
  rewrite Hid. simpl. rewrite Hget. simpl.
  destruct (App_PasswordCredentials app) as [creds|]; simpl.
  - destruct (ApplicationPassword.findCredential (Parse.KeyId id) creds)
      as [credential|]; simpl.
    + eexists. split; [reflexivity|]. split; [reflexivity|].
      split; [reflexivity|].
      split; [read_back; reflexivity|]. split; [read_back; reflexivity|].
      split; [read_back; reflexivity|]. split; [read_back; reflexivity|].
      split; [read_back; reflexivity|].
      unfold rd_Set. simpl. rewrite !lookup_insert_ne by discriminate. reflexivity.
    + eexists. split; [reflexivity|]. split; reflexivity.
  - eexists. split; [reflexivity|]. split; reflexivity.
Qed.

(** X18. Create of a password stores the identity together with the
    secret, or nothing.  Either Create returns an error and the resource
    data is exactly as before, or the service answered the request to add
    the password with a key ID and a non-empty secret: then the secret is
    stored under [value], and the identity is the identifier built from
    the ID of the application and that key ID, or empty when the Read
    that closes Create cleared it. *)
Theorem password_create_stores_identity_with_secret d r :
  let out := Create (mkSt d r) in
  (st_d (snd out) = d /\ exists ds, fst out = Ret ds /\ HasError ds = true) \/
  (exists credential appId w1 newCredential st w2 keyId secret,
      credentialFor d = (Some credential, None) /\
      Applications_AddPassword client appId credential w1
      = ((Some newCredential, st, None), w2) /\
      Cred_KeyId newCredential = Some keyId /\
      Cred_SecretText newCredential = Some secret /\ secret <> "" /\
      rd_attrs (st_d (snd out)) !! "value" = Some (VString secret) /\
      (rd_id (st_d (snd out))
       = Parse.CredentialId_String (Parse.NewCredentialID appId "password" keyId) \/
       rd_id (st_d (snd out)) = "")).
Proof.
  cbv zeta. unfold ApplicationPassword.applicationPasswordResourceCreate. run_prog.
  destruct (credentialFor d) as [[credential|] [[e kerr]|]] eqn:Hc; simpl;
    try (left; split; [reflexivity|]; eexists; split; reflexivity).
  destruct (Applications_Get client _ _) as [[[app st] [e|]] w1]; simpl.
  { destruct (st =? StatusNotFound); simpl;
      left; (split; [reflexivity|]); eexists; split; reflexivity. }
  destruct app as [app|]; simpl;
    [|left; split; [reflexivity|]; eexists; split; reflexivity].
  destruct (App_ID app) as [appId|]; simpl;
    [|left; split; [reflexivity|]; eexists; split; reflexivity].
  destruct (Applications_AddPassword client appId credential w1)
    as [[[newCredential st'] [e|]] w2] eqn:Hadd; simpl;
    [left; split; [reflexivity|]; eexists; split; reflexivity|].
  destruct newCredential as [newCredential|]; simpl;
    [|left; split; [reflexivity|]; eexists; split; reflexivity].
  destruct (Cred_KeyId newCredential) as [keyId|] eqn:Hk; simpl;
    [|left; split; [reflexivity|]; eexists; split; reflexivity].
  destruct (Cred_SecretText newCredential) as [[|c secret]|] eqn:Hs; simpl;
    try (left; split; [reflexivity|]; eexists; split; reflexivity).
  right. exists credential, appId, w1, newCredential, st', w2, keyId, (String c secret).
  split; [reflexivity|]. split; [exact Hadd|]. split; [exact Hk|].
  split; [exact Hs|]. split; [discriminate|].
  match goal with
  | |- context [Read (mkSt ?d' ?r')] =>
      destruct (applicationPasswordResourceRead_keeps_secret d' r') as [Hv Hi];
      destruct (Read (mkSt d' r')) as [res [d'' [w'' tr'']]]
  end.
  simpl in *. split.
  - rewrite Hv. unfold rd_Set. simpl. apply lookup_insert_eq.
  - exact Hi.
Qed.
End Facts.

Import Samples MoreSamples.

Lemma password_read_follows_the_credential_witness :
  exists d',
    st_d (snd (ApplicationPassword.applicationPasswordResourceRead directory
                 (mkSt storedPassword withPasswords))) = d' /\
    rd_GetString d' "display_name" = "ci" /\
    rd_attrs d' !! "value" = Some (VString "secret").
Proof.
  destruct (password_read_follows_the_credential directory storedPassword withPasswords
              (Parse.NewCredentialID sampleId "password" sampleKeyId)
              applicationWithPasswords 200 [applicationWithPasswords]
              eq_refl eq_refl) as (d' & _ & Hd & H).
  exists d'. split; [exact Hd|].
  change (ApplicationPassword.findCredential
            (Parse.KeyId (Parse.NewCredentialID sampleId "password" sampleKeyId))
            (default [] (App_PasswordCredentials applicationWithPasswords)))
    with (Some secondPassword) in H.
  destruct H as (_ & _ & _ & Hn & _ & _ & Hv).
  split; [exact Hn|]. rewrite Hv. reflexivity.
Defined.
End ApplicationPasswordMore.

(** ** Application resource: Read followed by Update, and the identity *)

Module ApplicationMore.
Import ResourceDataFacts.
Section Facts.
Context {W : Type}.
Variable client : ApplicationsClient W.
Variable conv : Applications.Conversions.
Variable findByName : string -> Helper W (option (list Application) * option error).
Variable setOwners : Application -> list string -> Helper W (option error).
Variable disableRoles : Application -> option (list AppRole) -> Helper W (option error).
Variable disableScopes :
  Application -> option (list PermissionScope) -> Helper W (option error).
Variable users : UsersClient W.

Abbreviation Read := (Applications.applicationResourceRead client conv).
Abbreviation Update :=
  (Applications.applicationResourceUpdate client conv findByName setOwners
     disableRoles disableScopes).

(** Read never turns the duplicate name guard on or off. *)
Lemma applicationResourceRead_keeps_guard d r :
  rd_GetBool (st_d (snd (Read (mkSt d r)))) "prevent_duplicate_names"
  = rd_GetBool d "prevent_duplicate_names".
Proof.
  unfold Applications.applicationResourceRead. run_prog.
  destruct (Applications_Get client _ _) as [[[a st] [e|]] w1]; simpl.
  - destruct (st =? StatusNotFound); reflexivity.
  - destruct a as [a|]; simpl; [|reflexivity].
    assert (Hg : forall d0,
               rd_GetBool d0 "prevent_duplicate_names"
               = rd_GetBool d "prevent_duplicate_names" ->
               rd_GetBool (rd_Set "prevent_duplicate_names"
                             (VBool (if rd_GetBool d0 "prevent_duplicate_names"
                                     then true else false)) d0)
                 "prevent_duplicate_names"
               = rd_GetBool d "prevent_duplicate_names").
    { intros d0 H0. rewrite rd_GetBool_Set_eq, H0.
      destruct (rd_GetBool d "prevent_duplicate_names"); reflexivity. }
    destruct (App_ID a) as [appId|]; simpl.
    + destruct (Applications_ListOwners client appId w1) as [[[o st'] [e|]] w2]; simpl.
      * apply Hg. repeat (rewrite rd_GetBool_Set_ne by discriminate). reflexivity.
      * rewrite (rd_GetBool_Set_ne "owners") by discriminate.
        apply Hg. repeat (rewrite rd_GetBool_Set_ne by discriminate). reflexivity.
    + apply Hg. repeat (rewrite rd_GetBool_Set_ne by discriminate). reflexivity.
Qed.

(** X19. Read of an application followed by Update sends back what was
    read.  After a Read that found the application and its owners, the
    identity is unchanged, the duplicate name guard is as configured, and
    the payload that Update builds carries the identity, the display
    name, the fallback flag, the identifier URIs and the sign-in audience
    of the remote application (a nil field as the zero value).  Nothing
    is said of the owners, which are a set. *)
Theorem application_read_then_update_round_trip d r app st w1 appId owners st' w2 :
  Applications_Get client (rd_id d) (world r) = ((Some app, st, None), w1) ->
  App_ID app = Some appId ->
  Applications_ListOwners client appId w1 = ((owners, st', None), w2) ->
  exists d',
    Read (mkSt d r)
    = (Ret [], mkSt d' (mkRemote w2 (trace r ++ [ECall (ApplicationsGet (rd_id d));
                                                 ECall (ApplicationsListOwners appId)]))) /\
    rd_id d' = rd_id d /\
    rd_GetBool d' "prevent_duplicate_names" = rd_GetBool d "prevent_duplicate_names" /\
    let p := Applications.updateProperties conv d' in
    App_ID p = Some (rd_id d) /\
    App_DisplayName p = Some (default "" (App_DisplayName app)) /\
    App_IsFallbackPublicClient p = Some (default false (App_IsFallbackPublicClient app)) /\
    App_IdentifierUris p = Some (default [] (App_IdentifierUris app)) /\
    App_SignInAudience p = App_SignInAudience app.
Proof.
  intros Hget Hid Hown.
  pose proof (applicationResourceRead_keeps_guard d r) as Hguard.
  destruct r as [w tr]. cbn [world] in Hget.
  unfold Applications.applicationResourceRead in *. revert Hguard. run_prog.
  rewrite Hget. simpl. rewrite Hid. simpl. rewrite Hown. simpl.
  intros Hguard. eexists. split; [rewrite <- app_assoc; reflexivity|].
  split; [reflexivity|]. split; [exact Hguard|].
  unfold Applications.updateProperties.
  cbn [App_ID App_DisplayName App_IsFallbackPublicClient App_IdentifierUris
       App_SignInAudience].
  unfold utils_String, utils_Bool.
  split; [reflexivity|].
  split; [read_back; reflexivity|].
  split; [read_back; reflexivity|].
  split; [repeat (rewrite rd_Get_Set_ne by discriminate);
          rewrite rd_Get_Set_eq, expand_ptrStrings; reflexivity|].
  read_back. reflexivity.
Qed.

Lemma applicationResourceRead_same_or_empty d r :
  rd_id (st_d (snd (Read (mkSt d r)))) = rd_id d \/
  rd_id (st_d (snd (Read (mkSt d r)))) = "".
Proof.
  unfold Applications.applicationResourceRead. run_prog.
  destruct (Applications_Get client _ _) as [[[a st] [e|]] w1]; simpl.
  - destruct (st =? StatusNotFound); simpl; auto.
  - destruct a as [a|]; simpl; [|auto].
    destruct (App_ID a) as [appId|]; simpl; [|auto].
    destruct (Applications_ListOwners client appId w1) as [[[o st'] [e|]] w2];
      simpl; auto.
Qed.

Lemma userResourceRead_same_or_empty d r :
  rd_id (st_d (snd (Users.userResourceRead users (mkSt d r)))) = rd_id d \/
  rd_id (st_d (snd (Users.userResourceRead users (mkSt d r)))) = "".
Proof.
  unfold Users.userResourceRead. run_prog.
  destruct (Users_Get users _ _) as [[[u st] [e|]] w1]; simpl.
  - destruct (st =? StatusNotFound); simpl; auto.
  - destruct u; simpl; auto.
Qed.

Arguments Applications.applicationResourceRead : simpl never.
Arguments Users.userResourceRead : simpl never.

(** X20. Update never stores a new identity, and it writes to the resource
    data only through the Read that closes it.  After Update of an
    application or of a user, either the resource data is exactly as
    before, or every remote step succeeded and the outcome is that of
    Read on the unchanged data; in both cases the identity is the one
    Update started with, or empty when that Read found the object
    gone. *)
Theorem update_never_changes_the_identity d r :
  (let out := Update (mkSt d r) in
   (st_d (snd out) = d \/ exists r', out = Read (mkSt d r')) /\
   (rd_id (st_d (snd out)) = rd_id d \/ rd_id (st_d (snd out)) = "")) /\
  (let out := Users.userResourceUpdate users (mkSt d r) in
   (st_d (snd out) = d \/
    exists w', out = Users.userResourceRead users
                       (mkSt d (after r (UsersUpdate (Users.userUpdateProperties d)) w'))) /\
   (rd_id (st_d (snd out)) = rd_id d \/ rd_id (st_d (snd out)) = "")).
Proof.
  cbv zeta. split.
  - rewrite ApplicationFacts.applicationResourceUpdate_steps.
    destruct (Applications.updateDuplicateCheck findByName d r) as [[[ds|]|] r1];
      simpl; auto.
    destruct (disableRoles _ _ (world r1)) as [[[[e|]|] w2] evs2]; simpl; auto.
    destruct (disableScopes _ _ w2) as [[[[e|]|] w3] evs3]; simpl; auto.
    destruct (Applications_Update client _ w3) as [[st [e|]] w4]; simpl; auto.
    destruct (setOwners _ _ w4) as [[[[e|]|] w5] evs5]; simpl; auto.
    split; [right; eauto|apply applicationResourceRead_same_or_empty].
  - unfold Users.userResourceUpdate, after. run_prog.
    destruct (Users_Update users _ _) as [[st [e|]] w1]; simpl; auto.
    split; [right; eauto|apply userResourceRead_same_or_empty].
Qed.
End Facts.

Import Samples MoreSamples.

Lemma application_read_then_update_round_trip_witness :
  exists d',
    fst (Applications.applicationResourceRead directory noConversions
           (mkSt guardedData oneApplication)) = Ret [] /\
    st_d (snd (Applications.applicationResourceRead directory noConversions
                 (mkSt guardedData oneApplication))) = d' /\
    rd_GetBool d' "prevent_duplicate_names" = true /\
    App_DisplayName (Applications.updateProperties noConversions d') = Some "app".
Proof.
  destruct (application_read_then_update_round_trip directory noConversions
              guardedData oneApplication remoteApplication 200 [remoteApplication]
              sampleId (Some []) 200 [remoteApplication] eq_refl eq_refl eq_refl)
    as (d' & Hr & _ & Hg & Hp).
  exists d'. rewrite Hr. split; [reflexivity|]. split; [reflexivity|].
  split; [exact Hg|]. cbv zeta in Hp. exact (proj1 (proj2 Hp)).
Defined.
End ApplicationMore.
